(** * DemoDigi: the preprocessing module of Demokratisk Digitalisering

    A shallow embedding of [Utilities/preprocessing.py] (classes
    [participant] and [learning_module]) and the properties of its
    record-reconciliation and session-inference code.

    Modelling conventions.
    - Instants ([datetime], pandas [Timestamp]) are integers: seconds since
      1970-01-01T00:00:00Z.
    - A Python [str] is the [string] of the bytes of its UTF-8 encoding: a
      character is one to four bytes, and the order of the bytes is the
      order of the code points. [str.lower] is a library function the model
      is generic in ([lower]); the scenarios, whose names are ASCII, use the
      ASCII lowering ([lower_ascii]).
    - A Python [dict] whose iteration order is observed is an insertion
      ordered association list ([odict]); a [dict] used only through lookup
      is a [gmap].
    - A Python [set] is iterated in an order the language leaves open: the
      functions that iterate one take the enumeration as an argument.
    - Code that prints or raises runs in the monad [py]: it threads the lines
      printed so far and ends in a value or in an exception.
    - A local variable that may be read before it is assigned is an [option]
      ([None]: unbound). *)

From stdpp Require Import base option list strings gmap sorting pretty.
From Stdlib Require Import ZArith Lia.

Local Open Scope Z_scope.
Local Open Scope string_scope.

(** ** Python primitives *)

Module Py.

Inductive exception : Set :=
| IndexError | KeyError | ValueError | TypeError
| AttributeError | UnboundLocalError | ZeroDivisionError
| NonTermination    (* model only: a [while] loop left by lack of fuel *)
| NullID.           (* model only: a null 'Student ID' in [full_results],
                       whose IDs the model holds as strings *)

#[global] Instance exception_eq_dec : EqDecision exception.
Proof. solve_decision. Defined.

Inductive outcome (A : Type) : Type :=
| Returned (a : A)
| Raised (e : exception).
Global Arguments Returned {A} a.
Global Arguments Raised {A} e.

(** A computation: from the lines printed so far to an outcome and the
    lines printed when it ends. *)
Definition py (A : Type) : Type := list string → outcome A * list string.

Definition ret {A} (a : A) : py A := λ out, (Returned a, out).

Definition bind {A B} (m : py A) (k : A → py B) : py B :=
  λ out, match m out with
         | (Returned a, out') => k a out'
         | (Raised e, out') => (Raised e, out')
         end.

Definition raise {A} (e : exception) : py A := λ out, (Raised e, out).

Definition print (line : string) : py unit :=
  λ out, (Returned tt, (out ++ [line])%list).

(** [try: m  except e: handler] *)
Definition try_except {A} (m : py A) (e : exception) (handler : py A) : py A :=
  λ out, match m out with
         | (Raised e', out') =>
             if decide (e' = e) then handler out' else (Raised e', out')
         | r => r
         end.

Definition run {A} (m : py A) : outcome A * list string := m [].

(** A computation that prints nothing and ends the same way whatever was
    printed before. *)
Definition silent {A} (m : py A) : Prop :=
  ∀ out, m out = ((run m).1, out).

(** A computation that never ends in the exception [e]. *)
Definition avoids {A} (e : exception) (m : py A) : Prop :=
  ∀ out out', m out ≠ (Raised e, out').

(** Reading a local variable. *)
Definition load {A} (v : option A) : py A :=
  match v with Some a => ret a | None => raise UnboundLocalError end.

(** [l[0]] *)
Definition item0 {A} (l : list A) : py A :=
  match l with x :: _ => ret x | [] => raise IndexError end.

(** [for x in l: s = body s x] *)
Fixpoint for_each {A S} (l : list A) (body : S → A → py S) (s : S) : py S :=
  match l with
  | [] => ret s
  | x :: l' => bind (body s x) (for_each l' body)
  end.

(** Numbers as [n_sessions] receives them: an [int], or a [float], of which
    only the class matters to the code. *)
Inductive float_class : Set := nan | inf | finite.
Inductive number : Set :=
| PyInt (n : Z)
| PyFloat (c : float_class).

(** [np.isfinite(x)]: an [int] that fits neither a signed nor an unsigned
    64-bit integer becomes an object, for which the function is not
    defined. *)
Definition isfinite (x : number) : py bool :=
  match x with
  | PyInt n =>
      if decide (- 2 ^ 63 ≤ n < 2 ^ 64)%Z then ret true else raise TypeError
  | PyFloat finite => ret true
  | PyFloat _ => ret false
  end.

(** [range(x)]: a [float] cannot be interpreted as an integer. *)
Definition range (x : number) : py (list nat) :=
  match x with
  | PyInt n => ret (seq 0 (Z.to_nat n))
  | PyFloat _ => raise TypeError
  end.

(** [s.split(' ')]: every single space separates. *)
Fixpoint split_space (s : string) : list string :=
  match s with
  | EmptyString => [EmptyString]
  | String c s' =>
      if Ascii.eqb c Ascii.Space then EmptyString :: split_space s'
      else match split_space s' with
           | w :: ws => String c w :: ws
           | [] => [String c EmptyString]
           end
  end.

(** [l[1]] *)
Definition item1 {A} (l : list A) : py A :=
  match l with _ :: x :: _ => ret x | _ => raise IndexError end.

(** A byte that continues a character of a UTF-8 string: [10xxxxxx]. *)
Definition continuation (c : Ascii.ascii) : bool :=
  let n := Ascii.N_of_ascii c in (N.leb 128 n && N.leb n 191)%N.

Fixpoint only_continuation (s : string) : bool :=
  match s with
  | EmptyString => true
  | String c s' => continuation c && only_continuation s'
  end.

(** [s[:-1]]: [s] without its last character, which begins at the last byte
    that only continuation bytes follow. *)
Fixpoint drop_last (s : string) : string :=
  match s with
  | EmptyString => EmptyString
  | String c s' =>
      if only_continuation s' then EmptyString else String c (drop_last s')
  end.

Definition lower_char (c : Ascii.ascii) : Ascii.ascii :=
  let n := Ascii.N_of_ascii c in
  if (N.leb 65 n && N.leb n 90)%N then Ascii.ascii_of_N (n + 32) else c.

(** [s.lower()] for a string [s] of ASCII characters: the letters A to Z
    become a to z. It is [str.lower] on the names of the scenarios. *)
Fixpoint lower_ascii (s : string) : string :=
  match s with
  | EmptyString => EmptyString
  | String c s' => String (lower_char c) (lower_ascii s')
  end.

(** Days from 1970-01-01 to the civil date [y]-[m]-[d]. *)
Definition days_from_civil (y m d : Z) : Z :=
  let y' := if Z.leb m 2 then y - 1 else y in
  let era := y' / 400 in
  let yoe := y' - era * 400 in
  let doy := (153 * (if Z.ltb 2 m then m - 3 else m + 9) + 2) / 5 + d - 1 in
  let doe := yoe * 365 + yoe / 4 - yoe / 100 + doy in
  era * 146097 + doe - 719468.

(** [datetime.datetime(y, m, d, hh, mm, ss, tzinfo = UTC)] *)
Definition datetime (y m d hh mm ss : Z) : Z :=
  days_from_civil y m d * 86400 + hh * 3600 + mm * 60 + ss.

(** Insertion-ordered dictionaries. *)
Section odict.
Context {K : Type} `{EqDecision K} {V : Type}.

Fixpoint od_get (k : K) (d : list (K * V)) : option V :=
  match d with
  | [] => None
  | (k', v) :: d' => if decide (k' = k) then Some v else od_get k d'
  end.

(** [d[k] = v]: an existing key keeps its place, a new one goes last. *)
Fixpoint od_set (k : K) (v : V) (d : list (K * V)) : list (K * V) :=
  match d with
  | [] => [(k, v)]
  | (k', v') :: d' =>
      if decide (k' = k) then (k, v) :: d' else (k', v') :: od_set k v d'
  end.

(** [d[k]] *)
Definition od_item (k : K) (d : list (K * V)) : py V :=
  match od_get k d with Some v => ret v | None => raise KeyError end.
End odict.

End Py.
Import Py.

#[global] Instance py_ret : MRet py := @ret.
#[global] Instance py_bind : MBind py := λ A B k m, bind m k.

(** ** Tables

    A pandas [DataFrame] with fixed columns is a list of typed rows. *)

(** A row of [raw_data] and of [full_results]: columns 'Student ID',
    'Date Created', 'Activity Title', 'Attempt Number', 'Correct?'. *)
Record attempt : Type := Attempt {
  student_id : string;
  date_created : Z;
  activity_title : string;
  attempt_no : Z;
  is_right : bool }.

(** A row of [xml_data]: columns 'Student ID', 'Date Created',
    'Activity Title', 'Correct?'. An ID is the text of a [user_id] element,
    which ElementTree gives as [None] when the element is empty. *)
Record xml_row : Type := XmlRow {
  xml_student_id : option string;
  xml_date_created : Z;
  xml_activity_title : string;
  xml_correct : bool }.

(** The column names [import_datashop] passes to [pd.DataFrame]. *)
Definition xml_data_columns : list string :=
  ["Student ID"; "Date Created"; "Activity Title"; "Correct?"].

(** ['{}_Q{}'.format(skill, session)] *)
Definition activity_name (skill : string) (session : nat) : string :=
  skill +:+ "_Q" +:+ pretty session.

(** ** The XML event log, as [xml.etree.ElementTree] gives it *)

#[warnings="-register-all"]
Inductive element : Type :=
| Element (tag : string) (text : option string) (children : list element).

Definition tag (e : element) : string := let 'Element t _ _ := e in t.
Definition text (e : element) : option string := let 'Element _ x _ := e in x.
Definition children (e : element) : list element := let 'Element _ _ c := e in c.

(** [e.findall(name)]: the direct children with that tag, in document
    order. *)
Definition findall (name : string) (e : element) : list element :=
  filter (λ c, tag c = name) (children e).

(** ** [learning_module] *)

(** A row of [flags]: columns 'started', 'answered once', 'finished'. *)
Record flag_row : Type := FlagRow {
  started : bool;
  answered_once : bool;
  finished : bool }.

(** The attributes the modelled methods use. [raw_data] and [xml_data] are
    [None] until an import assigns them ([__init__] does not create them);
    [full_results] is [None] as [__init__] leaves it. *)
Record learning_module : Type := LearningModule {
  skills : list string;
  n_sessions : number;
  n_sessions_input : bool;
  raw_data : option (list attempt);
  xml_data : option (list xml_row);
  full_results : option (list attempt);
  results_read : bool;
  pseudonym_ID_mapping : option (gmap string (option string));
  flags : gmap string flag_row }.

(** [learning_module.__init__(competencies, n_sessions)]; [default_n_sessions]
    is the default of the parameter, [np.nan]. *)
Definition default_n_sessions : number := PyFloat nan.

Definition init (competencies : list (string * list string))
    (n_sessions : number) : py learning_module :=
  n_sessions_input ← isfinite n_sessions;
  mret {| skills := concat (competencies.*2);
          n_sessions := n_sessions;
          n_sessions_input := n_sessions_input;
          raw_data := None;
          xml_data := None;
          full_results := None;
          results_read := false;
          pseudonym_ID_mapping := None;
          flags := ∅ |}.

(** ** [learning_module.import_datashop] *)

Module Datashop.

(** The local variables of the first loop. [answers] maps a subject to a
    problem name to an instant to the outcomes recorded there. *)
Record locals : Type := Locals {
  answers : list (option string * list (string * list (Z * list bool)));
  anon_id : option (option string);
  time : option Z;
  problem_name : option string;
  is_correct : option bool;
  wait_for_next_context_message : bool }.

Definition initial : locals :=
  {| answers := []; anon_id := None; time := None; problem_name := None;
     is_correct := None; wait_for_next_context_message := false |}.

Definition not_understood : string :=
  "Cannot figure out if action was completed correctly or not".

(** [child.findall('dataset')[0].findall('level')[0].findall('level')[0]
    .findall('problem')[0].findall('name')[0].text] *)
Definition full_problem_name (child : element) : py (option string) :=
  dataset ← item0 (findall "dataset" child);
  level ← item0 (findall "level" dataset);
  level' ← item0 (findall "level" level);
  problem ← item0 (findall "problem" level');
  name ← item0 (findall "name" problem);
  mret (text name).

(** [full_problem_name.split(' ')[1][:-1]] *)
Definition short_name (full : option string) : py string :=
  match full with
  | None => raise AttributeError
  | Some s => token ← item1 (split_space s); mret (drop_last token)
  end.

(** The three assignments that open an entry of [answers]. *)
Definition announce (anon : option string) (name : string) (t : Z)
    (ans : list (option string * list (string * list (Z * list bool))))
  : list (option string * list (string * list (Z * list bool))) :=
  let per_subject := default [] (od_get anon ans) in
  let per_problem := default [] (od_get name per_subject) in
  od_set anon (od_set name (od_set t [] per_problem) per_subject) ans.

(** [answers[anon_id][problem_name][time].append(is_correct)], operands
    evaluated left to right. *)
Definition record_outcome (st : locals) (ic : option bool)
  : py (list (option string * list (string * list (Z * list bool)))) :=
  anon ← load (anon_id st);
  per_subject ← od_item anon (answers st);
  name ← load (problem_name st);
  per_problem ← od_item name per_subject;
  t ← load (time st);
  outcomes ← od_item t per_problem;
  v ← load ic;
  mret (od_set anon
          (od_set name (od_set t (outcomes ++ [v])%list per_problem) per_subject)
          (answers st)).

Section parser.

(** [datetime.datetime.strptime(s, _xml_date_format).replace(tzinfo = utc)]:
    the instant a string denotes, [None] where [strptime] raises
    [ValueError]. A library function: the parser is generic in it. *)
Context (strptime : string → option Z).

Definition parse_time (time_str : option string) : py Z :=
  match time_str with
  | None => raise TypeError
  | Some s => match strptime s with
              | Some t => mret t
              | None => raise ValueError
              end
  end.

(** The four statements on [meta] that open the branch of a context
    message: the subject and the instant. *)
Definition read_meta (child : element) : py (option string * Z) :=
  meta ← item0 (findall "meta" child);
  user_id ← item0 (findall "user_id" meta);
  time_el ← item0 (findall "time" meta);
  t ← parse_time (text time_el);
  mret (text user_id, t).

(** The locals after a context message whose problem path is missing. *)
Definition waiting (anon : option string) (t : Z) (st : locals) : locals :=
  {| answers := answers st; anon_id := Some anon; time := Some t;
     problem_name := problem_name st; is_correct := is_correct st;
     wait_for_next_context_message := true |}.

Definition context_message (child : element) (st : locals) : py locals :=
  '(anon, t) ← read_meta child;
  found ← try_except (full ← full_problem_name child; mret (Some full))
             IndexError (mret None);
  match found with
  | None => mret (waiting anon t st)
  | Some full =>
      name ← short_name full;
      mret {| answers := announce anon name t (answers st);
              anon_id := Some anon;
              time := Some t; problem_name := Some name;
              is_correct := is_correct st;
              wait_for_next_context_message := false |}
  end.

Definition tutor_message (child : element) (st : locals) : py locals :=
  evaluation ← item0 (findall "action_evaluation" child);
  ic ← (if decide (text evaluation = Some "CORRECT") then mret (Some true)
        else if decide (text evaluation = Some "INCORRECT") then mret (Some false)
        else print not_understood;; mret (is_correct st));
  ans ← record_outcome st ic;
  mret {| answers := ans; anon_id := anon_id st; time := time st;
          problem_name := problem_name st; is_correct := ic;
          wait_for_next_context_message := wait_for_next_context_message st |}.

(** The body of [for child in root]. *)
Definition first_pass_step (st : locals) (child : element) : py locals :=
  if decide (tag child = "context_message") then context_message child st
  else if bool_decide (tag child = "tool_message")
          && negb (wait_for_next_context_message st) then mret st
  else if bool_decide (tag child = "tutor_message")
          && negb (wait_for_next_context_message st) then tutor_message child st
  else mret st.

Definition first_pass (root : element) : py locals :=
  for_each (children root) first_pass_step initial.

(** A context message with readable meta data whose nested problem-name
    path misses a structural field: one of the five [findall(...)[0]] finds
    nothing. *)
Definition malformed (child : element) : Prop :=
  tag child = "context_message"
  ∧ (∃ anon t, (run (read_meta child)).1 = Returned (anon, t))
  ∧ (run (full_problem_name child)).1 = Raised IndexError.

End parser.

(** The five lists of the second loop. *)
Record columns : Type := Columns {
  IDs : list (option string);
  answer_dates : list Z;
  correct : list bool;
  activity_titles : list string;
  attempt_number : list Z }.

Definition no_columns : columns :=
  {| IDs := []; answer_dates := []; correct := []; activity_titles := [];
     attempt_number := [] |}.

(** The four [append]s of the innermost loop. *)
Definition append_answer (anon : option string) (matched_skill : string)
    (t : Z) (cols : columns) (ic : bool) : columns :=
  {| IDs := IDs cols ++ [anon];
     answer_dates := answer_dates cols ++ [t];
     correct := correct cols ++ [ic];
     activity_titles := activity_titles cols ++ [matched_skill];
     attempt_number := attempt_number cols |}%list.

(** The search for [matched_skill]: no [break], the last match stays.
    [lower] is [str.lower], a library function: the search is generic in
    it. *)
Definition match_skill (lower : string → string) (skills : list string)
    (n_sessions : number) (problem_name : string) : py string :=
  for_each skills (λ matched skill,
    sessions ← range n_sessions;
    for_each sessions (λ matched session,
      let mixedcase_name := activity_name skill (session + 1) in
      mret (if decide (problem_name = lower mixedcase_name)
            then mixedcase_name else matched)) matched) "".

(** The order of the items of [times] by their instants. *)
Definition earlier : relation (Z * list bool) := λ a b, (a.1 ≤ b.1)%Z.

#[global] Instance earlier_dec : RelDecision earlier :=
  λ a b, decide (a.1 ≤ b.1)%Z.

(** [sorted(times.items())]: the keys of a [dict] are distinct, so the
    order of the items is that of their instants. *)
Definition sorted_items (times : list (Z * list bool)) : list (Z * list bool) :=
  merge_sort earlier times.

Definition second_pass (lower : string → string) (skills : list string)
    (n_sessions : number)
    (answers : list (option string * list (string * list (Z * list bool))))
  : py columns :=
  for_each answers (λ cols '(anon, problem),
    for_each problem (λ cols '(problem_name, times),
      matched_skill ← match_skill lower skills n_sessions problem_name;
      if decide (matched_skill = "") then mret cols
      else mret (foldl (λ cols '(t, outcomes),
                   foldl (append_answer anon matched_skill t) cols outcomes)
                   cols (sorted_items times))) cols) no_columns.

(** [pd.DataFrame(data = {'Student ID': IDs, 'Date Created': answer_dates,
    'Activity Title': activity_titles, 'Correct?': correct})]; pandas raises
    [ValueError] on lists of different lengths. *)
Fixpoint DataFrame (ids : list (option string)) (dates : list Z)
    (titles : list string) (outcomes : list bool) : py (list xml_row) :=
  match ids, dates, titles, outcomes with
  | [], [], [], [] => mret []
  | i :: ids, d :: dates, a :: titles, c :: outcomes =>
      rows ← DataFrame ids dates titles outcomes;
      mret (XmlRow i d a c :: rows)
  | _, _, _, _ => raise ValueError
  end.

Definition import_datashop (strptime : string → option Z)
    (lower : string → string) (self : learning_module) (root : element)
  : py learning_module :=
  st ← first_pass strptime root;
  cols ← second_pass lower (skills self) (n_sessions self) (answers st);
  frame ← DataFrame (IDs cols) (answer_dates cols) (activity_titles cols)
            (correct cols);
  mret {| skills := skills self; n_sessions := n_sessions self;
          n_sessions_input := n_sessions_input self;
          raw_data := raw_data self;
          xml_data := Some frame;
          full_results := full_results self;
          results_read := true;
          pseudonym_ID_mapping := pseudonym_ID_mapping self;
          flags := flags self |}.

(** Two states of the first loop in which the parser waits, equal but for
    the subject and the instant of the last context message. *)
Definition alike (st1 st2 : locals) : Prop :=
  answers st1 = answers st2
  ∧ problem_name st1 = problem_name st2
  ∧ is_correct st1 = is_correct st2
  ∧ wait_for_next_context_message st1 = true
  ∧ wait_for_next_context_message st2 = true.

(** The import gets as far as the search for a skill: the first loop ends,
    it has recorded a problem, and a skill is configured. *)
Definition reaches_skill_matching (strptime : string → option Z)
    (self : learning_module) (root : element) : Prop :=
  ∃ st out, first_pass strptime root [] = (Returned st, out)
            ∧ skills self ≠ []
            ∧ ∃ anon problem, (anon, problem) ∈ answers st ∧ problem ≠ [].

End Datashop.

(** A reading of [strptime] on the zero-padded strings
    'YYYY-MM-DD HH:MM:SS' with a day of the month up to 28, where it agrees
    with Python's; every other string is rejected. It instantiates the
    parser on concrete logs. *)
Definition digit (c : Ascii.ascii) : option Z :=
  let n := Ascii.N_of_ascii c in
  if (N.leb 48 n && N.leb n 57)%N then Some (Z.of_N n - 48)%Z else None.

Definition number_of (cs : list Ascii.ascii) : option Z :=
  foldl (λ acc c, a ← acc; d ← digit c; Some (10 * a + d)%Z) (Some 0%Z) cs.

Definition strptime_padded (s : string) : option Z :=
  match String.list_ascii_of_string s with
  | [y1; y2; y3; y4; s1; m1; m2; s2; d1; d2; s3; h1; h2; s4; n1; n2; s5; c1; c2] =>
      if bool_decide ([s1; s2; s3; s4; s5] = String.list_ascii_of_string "-- ::") then
        y ← number_of [y1; y2; y3; y4];
        m ← number_of [m1; m2];
        d ← number_of [d1; d2];
        hh ← number_of [h1; h2];
        mm ← number_of [n1; n2];
        ss ← number_of [c1; c2];
        if bool_decide (1 ≤ m ≤ 12 ∧ 1 ≤ d ≤ 28 ∧ hh ≤ 23 ∧ mm ≤ 59 ∧ ss ≤ 59)%Z
        then Some (datetime y m d hh mm ss) else None
      else None
  | _ => None
  end.

(** ** [learning_module._infer_mapping_pseudonym_ID] *)

Module Reconciler.

(** [self.xml_data['Student ID'] == ID], row by row: pandas makes the
    comparison of a column of objects false wherever an operand is null. *)
Definition same_subject (cell ID : option string) : Prop :=
  is_Some cell ∧ cell = ID.

#[global] Instance same_subject_dec cell ID : Decision (same_subject cell ID).
Proof. unfold same_subject. apply _. Defined.

(** [list(ID_entries['Date Created'])] *)
Definition ID_times (xml : list xml_row) (ID : option string) : list Z :=
  xml_date_created <$> filter (λ r, same_subject (xml_student_id r) ID) xml.

(** [set(pseudonym_entries['Date Created'])]; the loop over it only asks
    whether some element is near, which no iteration order changes. *)
Definition pseudonym_times (raw : list attempt) (pseudonym : string) : list Z :=
  remove_dups (date_created <$> filter (λ r, student_id r = pseudonym) raw).

(** [abs(xml_time - raw_time) < datetime.timedelta(seconds = 60)] *)
Definition near (xml_time raw_time : Z) : bool :=
  bool_decide (Z.abs (xml_time - raw_time) < 60)%Z.

(** The loop over [pseudonym_times], left at the first near instant. *)
Fixpoint match_found (xml_time : Z) (pseudonym_times : list Z) : bool :=
  match pseudonym_times with
  | [] => false
  | raw_time :: rest =>
      if near xml_time raw_time then true else match_found xml_time rest
  end.

(** The loop over [ID_times]: [(times_matched, total_times)]. *)
Definition count_matches (ID_times pseudonym_times : list Z) : Z * Z :=
  foldl (λ '(times_matched, total_times) xml_time,
           ((times_matched + (if match_found xml_time pseudonym_times
                              then 1 else 0))%Z,
            (total_times + 1)%Z)) (0%Z, 0%Z) ID_times.

(** [times_matched / total_times > 0.9]. The quotient of the two counters is
    a float; its comparison with the float [0.9] agrees with the exact
    comparison of [10 * times_matched] and [9 * total_times] as long as
    [total_times] stays below 10^15. *)
Definition exceeds_threshold (times_matched total_times : Z) : py bool :=
  if decide (total_times = 0%Z) then raise ZeroDivisionError
  else mret (bool_decide (9 * total_times < 10 * times_matched)%Z).

(** [for pseudonym in pseudonyms], left at the first accepted pseudonym. *)
Fixpoint search (xml : list xml_row) (raw : list attempt) (ID : option string)
    (pseudonyms : list string) (mapping : gmap string (option string))
  : py (gmap string (option string)) :=
  match pseudonyms with
  | [] => mret mapping
  | pseudonym :: rest =>
      let '(times_matched, total_times) :=
        count_matches (ID_times xml ID) (pseudonym_times raw pseudonym) in
      accepted ← exceeds_threshold times_matched total_times;
      if accepted : bool then mret (<[pseudonym := ID]> mapping)
      else search xml raw ID rest mapping
  end.

(** ['{}'.format(ID)] *)
Definition show (ID : option string) : string := default "None" ID.

Definition report_pseudonyms (pseudonyms : list string)
    (mapping : gmap string (option string)) : py unit :=
  for_each pseudonyms (λ _ pseudonym,
    if decide (is_Some (mapping !! pseudonym)) then mret tt
    else print ("Could not match pseudonym " +:+ pseudonym)) tt.

Definition report_IDs (IDs : list (option string))
    (mapping : gmap string (option string)) : py unit :=
  for_each IDs (λ _ ID,
    if decide (ID ∈ (map_to_list mapping).*2) then mret tt
    else print ("Could not match ID " +:+ show ID)) tt.

(** [l] is an iteration order of [set(column)]. *)
Definition enumerates {A} (l column : list A) : Prop :=
  NoDup l ∧ ∀ x, x ∈ l ↔ x ∈ column.

(** The method; [IDs] and [pseudonyms] are the orders in which the two sets
    are iterated. An attribute that was never assigned is [None]. *)
Definition _infer_mapping_pseudonym_ID (IDs : list (option string))
    (pseudonyms : list string) (self : learning_module) : py learning_module :=
  xml ← (if xml_data self is Some xml then mret xml else raise AttributeError);
  raw ← (if raw_data self is Some raw then mret raw else raise AttributeError);
  mapping ← for_each IDs (λ mapping ID, search xml raw ID pseudonyms mapping) ∅;
  report_pseudonyms pseudonyms mapping;;
  report_IDs IDs mapping;;
  mret {| skills := skills self; n_sessions := n_sessions self;
          n_sessions_input := n_sessions_input self;
          raw_data := raw_data self; xml_data := xml_data self;
          full_results := full_results self;
          results_read := results_read self;
          pseudonym_ID_mapping := Some mapping;
          flags := flags self |}.

(** The reconciliation as the specification words it: a candidate for [a] is
    a pseudonym not yet mapped. *)
Fixpoint spec_search (xml : list xml_row) (raw : list attempt)
    (ID : option string) (pseudonyms : list string)
    (mapping : gmap string (option string))
  : py (gmap string (option string)) :=
  match pseudonyms with
  | [] => mret mapping
  | pseudonym :: rest =>
      if decide (is_Some (mapping !! pseudonym))
      then spec_search xml raw ID rest mapping
      else
        let '(times_matched, total_times) :=
          count_matches (ID_times xml ID) (pseudonym_times raw pseudonym) in
        accepted ← exceeds_threshold times_matched total_times;
        if accepted : bool then mret (<[pseudonym := ID]> mapping)
        else spec_search xml raw ID rest mapping
  end.

Definition spec_mapping (xml : list xml_row) (raw : list attempt)
    (IDs : list (option string)) (pseudonyms : list string)
  : py (gmap string (option string)) :=
  for_each IDs (λ mapping ID, spec_search xml raw ID pseudonyms mapping) ∅.

(** The fraction of the instants of [ID] that have an instant of
    [pseudonym] less than 60 seconds away exceeds 9/10. *)
Definition qualifies (xml : list xml_row) (raw : list attempt)
    (ID : option string) (pseudonym : string) : Prop :=
  (9 * Z.of_nat (length (ID_times xml ID))
   < 10 * Z.of_nat (length (filter
        (λ t, Exists (λ t', Z.abs (t - t') < 60)%Z (pseudonym_times raw pseudonym))
        (ID_times xml ID))))%Z.

#[global] Instance qualifies_dec xml raw ID pseudonym :
  Decision (qualifies xml raw ID pseudonym).
Proof. unfold qualifies. apply _. Defined.

(** What the search for [ID] does to the mapping: the first pseudonym, in
    iteration order, that qualifies is mapped to [ID], whether it was mapped
    before or not. *)
Definition first_match (xml : list xml_row) (raw : list attempt)
    (pseudonyms : list string) (mapping : gmap string (option string))
    (ID : option string) : gmap string (option string) :=
  match list_find (qualifies xml raw ID) pseudonyms with
  | Some (_, pseudonym) => <[pseudonym := ID]> mapping
  | None => mapping
  end.

End Reconciler.

(** ** [learning_module.infer_n_sessions_from_full_results] *)

Module Resolver.

(** [while '{}_Q{}'.format(skill, n + 1) in activities: n += 1]; [None] when
    the fuel runs out before the loop ends. *)
Fixpoint probe (fuel : nat) (activities : list string) (skill : string)
    (n : nat) : option nat :=
  match fuel with
  | O => None
  | S fuel' =>
      if decide (activity_name skill (n + 1) ∈ activities)
      then probe fuel' activities skill (n + 1)
      else Some n
  end.

(** The sessions of [skill] are contiguous up to [k]: every
    [<skill>_Q1] ... [<skill>_Q<k>] is an activity of the table, and
    [<skill>_Q<k+1>] is not. *)
Definition contiguous (activities : list string) (skill : string) (k : nat)
  : Prop :=
  (∀ j, (1 ≤ j ≤ k)%nat → activity_name skill j ∈ activities)
  ∧ activity_name skill (k + 1) ∉ activities.

(** The body of [for skill in self.skills]. *)
Definition count_sessions (self : learning_module)
    (n_sessions : list (string * nat)) (skill : string)
  : py (list (string * nat)) :=
  rows ← (if full_results self is Some rows then mret rows else raise TypeError);
  let activities := activity_title <$> rows in
  match probe (S (length activities)) activities skill 0 with
  | Some n => mret (od_set skill n n_sessions)
  | None => raise NonTermination
  end.

(** [max(n_sessions.values())] *)
Definition maximum (values : list nat) : py nat :=
  match values with
  | [] => raise ValueError
  | v :: rest => mret (foldl Nat.max v rest)
  end.

Definition infer_n_sessions_from_full_results (self : learning_module)
    (verbose : bool) : py learning_module :=
  n_sessions ← (if results_read self
                then counts ← for_each (skills self) (count_sessions self) [];
                     mret (Some counts)
                else print "Must read a file of results first!";; mret None);
  (if verbose
   then print "Number of sessions registered:";;
        counts ← load n_sessions;
        for_each counts (λ _ '(skill_name, n),
          print (skill_name +:+ ": " +:+ pretty n)) tt
   else mret tt);;
  counts ← load n_sessions;
  n ← maximum (counts.*2);
  mret {| skills := skills self; n_sessions := PyInt (Z.of_nat n);
          n_sessions_input := true;
          raw_data := raw_data self; xml_data := xml_data self;
          full_results := full_results self;
          results_read := results_read self;
          pseudonym_ID_mapping := pseudonym_ID_mapping self;
          flags := flags self |}.

End Resolver.

(** ** [participant] *)

(** A [DataFrame] addressed by labels: rows are sessions, columns are
    skills. A cell without an entry holds the null value (NaN, NaT). *)
Record table (V : Type) : Type := Table {
  index : list nat;
  labels : list string;
  cells : gmap (nat * string) V }.
Arguments Table {V} index labels cells.
Arguments index {V} t.
Arguments labels {V} t.
Arguments cells {V} t.

(** [pd.DataFrame(columns = labels, index = index)] *)
Definition new_table {V} (labels : list string) (index : list nat) : table V :=
  Table index labels ∅.

(** [t.loc[session, skill] = v] for labels of the table; [None] is stored as
    the null value. *)
Definition loc_set {V} (session : nat) (skill : string) (v : option V)
    (t : table V) : table V :=
  Table (index t) (labels t) (partial_alter (λ _, v) (session, skill) (cells t)).

(** [t.values.flatten()]: row by row. *)
Definition flatten {V} (t : table V) : list (option V) :=
  session ← index t; skill ← labels t; [cells t !! (session, skill)].

(** The positions of the cells of a table: its rows by its columns. *)
Definition positions {V} (t : table V) : list (nat * string) :=
  list_prod (index t) (labels t).

Record participant : Type := Participant {
  ID : string;
  answered : table bool;
  answer_date : table Z;
  first_answer_date : option Z;
  last_answer_date : option Z;
  correct_first_try : table bool;
  accumulated_by_date : list (Z * nat) }.

(** [participant.__init__(ID)] *)
Definition new_participant (ID : string) : participant :=
  {| ID := ID; answered := new_table [] []; answer_date := new_table [] [];
     first_answer_date := None; last_answer_date := None;
     correct_first_try := new_table [] []; accumulated_by_date := [] |}.

(** ** [_cumulative_answers_by_date] *)

Module Cumulative.

(** The loop that fills [dates_when_something_happened]. *)
Definition tally (dates : list (option Z)) (seen : gmap Z nat) : gmap Z nat :=
  foldl (λ seen date,
           match date with
           | None => seen
           | Some date =>
               match seen !! date with
               | None => <[date := 1%nat]> seen
               | Some n => <[date := (n + 1)%nat]> seen
               end
           end) seen dates.

(** [sorted(dates_when_something_happened.keys())] *)
Definition sorted_dates (seen : gmap Z nat) : list Z :=
  merge_sort Z.le (map_to_list seen).*1.

(** The accumulating loop; [accumulated_by_date] in insertion order. *)
Fixpoint accumulate (seen : gmap Z nat) (dates : list Z) (accumulated : nat)
  : list (Z * nat) :=
  match dates with
  | [] => []
  | date :: rest =>
      let accumulated := (accumulated + seen !!! date)%nat in
      (date, accumulated) :: accumulate seen rest accumulated
  end.

(** [learning_module._cumulative_answers_by_date(participants)] *)
Definition _cumulative_answers_by_date (participants : list participant)
  : list (Z * nat) :=
  let seen := foldl (λ seen p, tally (flatten (answer_date p)) seen)
                ∅ participants in
  accumulate seen (sorted_dates seen) 0.

(** [participant._cumulative_answers_by_date()] *)
Definition participant_cumulative_answers_by_date (self : participant)
  : participant :=
  let seen := tally (flatten (answer_date self)) ∅ in
  {| ID := ID self; answered := answered self;
     answer_date := answer_date self;
     first_answer_date := first_answer_date self;
     last_answer_date := last_answer_date self;
     correct_first_try := correct_first_try self;
     accumulated_by_date := accumulate seen (sorted_dates seen) 0 |}.

(** The populated cells of a group: the positions of the answer-date
    tables of its participants whose cell is not null. *)
Definition populated_cells (p : participant) : list (nat * string) :=
  filter (λ pos, is_Some (cells (answer_date p) !! pos))
    (positions (answer_date p)).

Definition populated (participants : list participant) : nat :=
  sum_list ((λ p, length (populated_cells p)) <$> participants).

End Cumulative.

(** ** [learning_module._read_participant_results] *)

Module Aggregator.

(** The integer [range(1, x + 1)] needs: a [float] raises [TypeError]. *)
Definition integer (x : number) : py Z :=
  match x with
  | PyInt n => mret n
  | PyFloat _ => raise TypeError
  end.

(** The participant under construction and the counter [n_answers]. *)
Record progress : Type := Progress {
  subject : participant;
  n_answers : nat }.

(** The two indexings [...[first_try_index].to_numpy()[0]] pick the date and
    the outcome of the same row: the first of the activity with attempt
    number 1. *)
Definition first_try (correct_participant : list attempt) (name : string)
  : py attempt :=
  let correct_skill := filter (λ r, activity_title r = name) correct_participant in
  item0 (filter (λ r, attempt_no r = 1%Z) correct_skill).

(** Comparing an instant with an attribute that still holds [None] is a
    [TypeError]. *)
Definition instant (attribute : option Z) : py Z :=
  match attribute with Some t => mret t | None => raise TypeError end.

(** The three [.loc] assignments that end the loop body. *)
Definition store (session : nat) (skill : string) (has_answered correct : bool)
    (first_try_date first last : option Z) (p : participant) : participant :=
  {| ID := ID p;
     answered := loc_set session skill (Some has_answered) (answered p);
     answer_date := loc_set session skill first_try_date (answer_date p);
     first_answer_date := first;
     last_answer_date := last;
     correct_first_try := loc_set session skill (Some correct) (correct_first_try p);
     accumulated_by_date := accumulated_by_date p |}.

(** The body of [for session in range(1, self.n_sessions + 1)]. *)
Definition read_cell (correct_participant : list attempt) (skill : string)
    (st : progress) (session : nat) : py progress :=
  let p := subject st in
  found ← try_except
             (row ← first_try correct_participant (activity_name skill session);
              mret (Some row))
             IndexError (mret None);
  match found with
  | Some row =>
      let first_try_date := date_created row in
      first ← instant (first_answer_date p);
      let first := if decide (first_try_date < first)%Z
                   then first_try_date else first in
      last ← instant (last_answer_date p);
      let last := if decide (first_try_date > last)%Z
                  then first_try_date else last in
      mret (Progress
              (store session skill true (is_right row) (Some first_try_date)
                 (Some first) (Some last) p)
              (n_answers st + 1))
  | None =>
      mret (Progress
              (store session skill false false None
                 (first_answer_date p) (last_answer_date p) p)
              (n_answers st))
  end.

Definition _read_participant_results (self : learning_module)
    (p : participant) : py (learning_module * participant) :=
  self ← (if n_sessions_input self then mret self
          else print "Inferring number of sessions from OLI-Torus output";;
               Resolver.infer_n_sessions_from_full_results self false);
  n ← integer (n_sessions self);
  let sessions := seq 1 (Z.to_nat n) in
  rows ← (if full_results self is Some rows then mret rows else raise TypeError);
  let correct_participant := filter (λ r, student_id r = ID p) rows in
  let blank :=
    {| ID := ID p;
       answered := new_table (skills self) sessions;
       answer_date := new_table (skills self) sessions;
       first_answer_date := Some (datetime 1900 1 1 0 0 0);
       last_answer_date := Some (datetime 2200 1 1 0 0 0);
       correct_first_try := new_table (skills self) sessions;
       accumulated_by_date := accumulated_by_date p |} in
  st ← for_each (skills self) (λ st skill,
          for_each sessions (read_cell correct_participant skill) st)
        (Progress blank 0);
  let updated :=
    Cumulative.participant_cumulative_answers_by_date (subject st) in
  let row :=
    {| started := true;
       answered_once := bool_decide (0 < n_answers st)%nat;
       finished := bool_decide (Z.of_nat (n_answers st)
                                = n * Z.of_nat (length (skills self)))%Z |} in
  mret ({| skills := skills self; n_sessions := n_sessions self;
           n_sessions_input := n_sessions_input self;
           raw_data := raw_data self; xml_data := xml_data self;
           full_results := full_results self;
           results_read := results_read self;
           pseudonym_ID_mapping := pseudonym_ID_mapping self;
           flags := <[ID p := row]> (flags self) |}, updated).

(** The minimum and the maximum of the first-attempt instants the
    answer-date table of a participant holds; [None] when it holds none. *)
Definition earliest (p : participant) : option Z :=
  match omap id (flatten (answer_date p)) with
  | [] => None
  | t :: ts => Some (foldl Z.min t ts)
  end.

Definition latest (p : participant) : option Z :=
  match omap id (flatten (answer_date p)) with
  | [] => None
  | t :: ts => Some (foldl Z.max t ts)
  end.

End Aggregator.

(** ** Concrete logs and tables *)

Module Scenario.

Definition node (name : string) (kids : list element) : element :=
  Element name None kids.

Definition leaf (name value : string) : element :=
  Element name (Some value) [].

Definition meta (user time : string) : element :=
  node "meta" [leaf "user_id" user; leaf "time" time].

(** A context message with the nested path dataset/level/level/problem/name. *)
Definition context (user time label : string) : element :=
  node "context_message"
    [meta user time;
     node "dataset"
       [node "level" [node "level" [node "problem" [leaf "name" label]]]]].

(** A context message whose data set has no nested level. *)
Definition malformed_context (user time : string) : element :=
  node "context_message" [meta user time; node "dataset" []].

Definition tutor (evaluation : string) : element :=
  node "tutor_message" [leaf "action_evaluation" evaluation].

Definition ten_o_clock : Z := datetime 2024 1 1 10 0 0.

(** One skill, one session: the module
    [learning_module({'Security': ['Backup']}, n_sessions = 1)]. *)
Definition backup_module : learning_module :=
  {| skills := ["Backup"]; n_sessions := PyInt 1; n_sessions_input := true;
     raw_data := None; xml_data := None; full_results := None;
     results_read := false; pseudonym_ID_mapping := None; flags := ∅ |}.

(** The same skill, no session count:
    [learning_module({'Security': ['Backup']})]. *)
Definition uncounted_module : learning_module :=
  {| skills := ["Backup"]; n_sessions := default_n_sessions;
     n_sessions_input := false;
     raw_data := None; xml_data := None; full_results := None;
     results_read := false; pseudonym_ID_mapping := None; flags := ∅ |}.

(** Subject u1, one context naming [label], one correct answer. *)
Definition backup_log (label : string) : element :=
  node "tutor_related_message_sequence"
    [context "u1" "2024-01-01 10:00:00" label; tutor "CORRECT"].

Definition backup_row : xml_row :=
  XmlRow (Some "u1") ten_o_clock "Backup_Q1" true.

(** The same record in a table that has attempt numbers. *)
Definition backup_results : learning_module :=
  {| skills := ["Backup"]; n_sessions := PyInt 1; n_sessions_input := true;
     raw_data := None; xml_data := None;
     full_results := Some [Attempt "u1" ten_o_clock "Backup_Q1" 1 true];
     results_read := true; pseudonym_ID_mapping := None; flags := ∅ |}.

(** A correct answer followed by an evaluation the parser does not know. *)
Definition hint_log : element :=
  node "tutor_related_message_sequence"
    [context "u1" "2024-01-01 10:00:00" "Module backup_q1.";
     tutor "CORRECT"; tutor "HINT"].

(** The unknown evaluation comes first. *)
Definition hint_first_log : element :=
  node "tutor_related_message_sequence"
    [context "u1" "2024-01-01 10:00:00" "Module backup_q1."; tutor "HINT"].

(** A context without the nested problem path, then a tutor message. *)
Definition malformed_log : element :=
  node "tutor_related_message_sequence"
    [malformed_context "u1" "2024-01-01 10:00:00"; tutor "CORRECT"].

(** Two canonical subjects active at the same instants, one pseudonym. *)
Definition twins_xml : list xml_row :=
  [XmlRow (Some "a1") ten_o_clock "Backup_Q1" true;
   XmlRow (Some "a2") ten_o_clock "Backup_Q1" false].

Definition twins_raw : list attempt :=
  [Attempt "p" (ten_o_clock + 10) "Backup_Q1" 1 true].

Definition twins_module : learning_module :=
  {| skills := ["Backup"]; n_sessions := PyInt 1; n_sessions_input := true;
     raw_data := Some twins_raw; xml_data := Some twins_xml;
     full_results := None; results_read := true;
     pseudonym_ID_mapping := None; flags := ∅ |}.

(** Two subjects and three contexts that are not in the order of their
    instants: u1 at 10:05, u2 at 11:00, u1 at 10:00, each with one answer to
    backup_q1. *)
Definition pair_log : element :=
  node "tutor_related_message_sequence"
    [context "u1" "2024-01-01 10:05:00" "Module backup_q1."; tutor "INCORRECT";
     context "u2" "2024-01-01 11:00:00" "Module backup_q1."; tutor "INCORRECT";
     context "u1" "2024-01-01 10:00:00" "Module backup_q1."; tutor "CORRECT"].

(** The table of that log. *)
Definition pair_xml : list xml_row :=
  [XmlRow (Some "u1") ten_o_clock "Backup_Q1" true;
   XmlRow (Some "u1") (ten_o_clock + 300) "Backup_Q1" false;
   XmlRow (Some "u2") (ten_o_clock + 3600) "Backup_Q1" false].

(** Three pseudonyms: p1 is active near both instants of u1, p2 near the
    instant of u2, p3 at an hour of its own. *)
Definition pair_raw : list attempt :=
  [Attempt "p3" (ten_o_clock + 18000) "Backup_Q1" 1 true;
   Attempt "p1" (ten_o_clock + 10) "Backup_Q1" 1 true;
   Attempt "p1" (ten_o_clock + 320) "Backup_Q1" 2 false;
   Attempt "p2" (ten_o_clock + 3630) "Backup_Q1" 1 false].

Definition pair_module : learning_module :=
  {| skills := ["Backup"]; n_sessions := PyInt 1; n_sessions_input := true;
     raw_data := Some pair_raw; xml_data := Some pair_xml;
     full_results := None; results_read := true;
     pseudonym_ID_mapping := None; flags := ∅ |}.

(** A participant of whom only the table of answer dates matters. *)
Definition dated (ID : string) (dates : table Z) : participant :=
  {| ID := ID; answered := new_table [] []; answer_date := dates;
     first_answer_date := None; last_answer_date := None;
     correct_first_try := new_table [] []; accumulated_by_date := [] |}.

(** Two sessions of two skills. Ann answered Backup at 10:00 and at 10:01
    and Password at 10:01; Ben answered Backup at 10:00. *)
Definition ann : participant :=
  dated "ann"
    (loc_set 2 "Backup" (Some (ten_o_clock + 60))
       (loc_set 1 "Password" (Some (ten_o_clock + 60))
          (loc_set 1 "Backup" (Some ten_o_clock)
             (new_table ["Backup"; "Password"] [1; 2]%nat)))).

Definition ben : participant :=
  dated "ben"
    (loc_set 1 "Backup" (Some ten_o_clock)
       (new_table ["Backup"; "Password"] [1; 2]%nat)).

(** Password at sessions 1 and 2; Backup at sessions 1 and 3. *)
Definition gap_results : learning_module :=
  {| skills := ["Password"; "Backup"]; n_sessions := default_n_sessions;
     n_sessions_input := false; raw_data := None; xml_data := None;
     full_results :=
       Some [Attempt "u1" ten_o_clock "Password_Q1" 1 true;
             Attempt "u1" (ten_o_clock + 60) "Backup_Q1" 1 true;
             Attempt "u1" (ten_o_clock + 120) "Password_Q2" 1 false;
             Attempt "u1" (ten_o_clock + 180) "Backup_Q3" 1 true];
     results_read := true; pseudonym_ID_mapping := None; flags := ∅ |}.

End Scenario.

(** ** Readings of the event parser's table *)

Module Table.
Import Datashop.

(** The value [matched_skill] ends with when the session count is the
    integer [n]. *)
Definition matched (lower : string → string) (skills : list string) (n : Z)
    (name : string) : string :=
  foldl (λ m skill,
    foldl (λ m session,
      if decide (name = lower (activity_name skill (session + 1)))
      then activity_name skill (session + 1) else m)
      m (seq 0 (Z.to_nat n))) "" skills.

(** The records one problem of one subject contributes: none when its name
    matches no skill, else one per outcome, instants ascending. *)
Definition records (lower : string → string) (skills : list string) (n : Z)
    (anon : option string) (entry : string * list (Z * list bool))
  : list xml_row :=
  let m := matched lower skills n entry.1 in
  if decide (m = "") then []
  else item ← sorted_items entry.2; XmlRow anon item.1 m <$> item.2.

(** The table of a dictionary [answers]. *)
Definition table (lower : string → string) (skills : list string) (n : Z)
    (answers : list (option string * list (string * list (Z * list bool))))
  : list xml_row :=
  subject ← answers; entry ← subject.2; records lower skills n subject.1 entry.

(** The outcomes recorded for a subject, a problem and an instant. *)
Definition recorded
    (answers : list (option string * list (string * list (Z * list bool))))
    (anon : option string) (name : string) (t : Z) : option (list bool) :=
  per_subject ← od_get anon answers;
  per_problem ← od_get name per_subject;
  od_get t per_problem.

(** The keys of [answers] are distinct, and so are the problem names of
    each subject: what a [dict] of [dict]s guarantees. *)
Definition well_keyed
    (answers : list (option string * list (string * list (Z * list bool))))
  : Prop :=
  NoDup answers.*1 ∧ Forall (λ subject, NoDup subject.2.*1) answers.

(** The four lists hold the columns of [rows]. *)
Definition columns_hold (cols : columns) (rows : list xml_row) : Prop :=
  IDs cols = xml_student_id <$> rows
  ∧ answer_dates cols = xml_date_created <$> rows
  ∧ activity_titles cols = xml_activity_title <$> rows
  ∧ correct cols = xml_correct <$> rows.

End Table.

(** ** [learning_module.import_raw_analytics] and [learning_module.import_data] *)

Module ImportData.
Import Datashop Reconciler.

(** [import_raw_analytics(filepath)]: [raw] is the table [pd.read_csv] and
    the two conversions make of the file, with the five columns the method
    keeps. *)
Definition import_raw_analytics (raw : list attempt) (self : learning_module)
  : learning_module :=
  {| skills := skills self; n_sessions := n_sessions self;
     n_sessions_input := n_sessions_input self;
     raw_data := Some raw; xml_data := xml_data self;
     full_results := full_results self; results_read := true;
     pseudonym_ID_mapping := pseudonym_ID_mapping self;
     flags := flags self |}.

(** A row of the table [import_data] builds: the columns of [raw_data], with
    the canonical ID the mapping gives in place of the pseudonym. *)
Record result_row : Type := ResultRow {
  result_student_id : option string;
  result_date_created : Z;
  result_activity_title : string;
  result_attempt_number : Z;
  result_correct : bool }.

(** The five lists of the loop: [student_ids], [date_created],
    [activity_title], [attempt_number], [correct]. *)
Record lists : Type := Lists {
  student_ids : list (option string);
  dates_created : list Z;
  activity_titles : list string;
  attempt_numbers : list Z;
  corrects : list bool }.

Definition no_lists : lists := Lists [] [] [] [] [].

(** The body of [for i in range(self.raw_data.shape[0])], at the row of
    index [i]. *)
Definition join_step (mapping : gmap string (option string)) (acc : lists)
    (row : attempt) : lists :=
  match mapping !! student_id row with
  | Some ID =>
      {| student_ids := student_ids acc ++ [ID];
         dates_created := dates_created acc ++ [date_created row];
         activity_titles := activity_titles acc ++ [activity_title row];
         attempt_numbers := attempt_numbers acc ++ [attempt_no row];
         corrects := corrects acc ++ [is_right row] |}%list
  | None => acc
  end.

(** [pd.DataFrame(data = {...})] of the five lists. *)
Fixpoint DataFrame5 (ids : list (option string)) (dates : list Z)
    (titles : list string) (numbers : list Z) (outcomes : list bool)
  : py (list result_row) :=
  match ids, dates, titles, numbers, outcomes with
  | [], [], [], [], [] => mret []
  | i :: ids, d :: dates, a :: titles, k :: numbers, c :: outcomes =>
      rows ← DataFrame5 ids dates titles numbers outcomes;
      mret (ResultRow i d a k c :: rows)
  | _, _, _, _, _ => raise ValueError
  end.

(** The table the method assigns to [self.full_results], from the mapping
    and the raw table. *)
Definition joined (mapping : gmap string (option string)) (raw : list attempt)
  : py (list result_row) :=
  let acc := foldl (join_step mapping) no_lists raw in
  DataFrame5 (student_ids acc) (dates_created acc) (activity_titles acc)
    (attempt_numbers acc) (corrects acc).

(** The row of [full_results] for a row of the joined table: the model
    holds the 'Student ID' of [full_results] as a string, so a null ID has
    no counterpart there. *)
Definition named (row : result_row) : py attempt :=
  match result_student_id row with
  | Some ID =>
      mret (Attempt ID (result_date_created row) (result_activity_title row)
              (result_attempt_number row) (result_correct row))
  | None => raise NullID
  end.

(** [import_data(raw_analytics_path, xml_path)] *)
Definition import_data (strptime : string → option Z)
    (lower : string → string)
    (IDs : list (option string)) (pseudonyms : list string)
    (raw : list attempt) (root : element) (self : learning_module)
  : py learning_module :=
  self ← import_datashop strptime lower (import_raw_analytics raw self) root;
  print "Figuring out mapping between pseudonyms in raw_analytics file and IDs in Datashop file.";;
  print "This may take a while...";;
  self ← _infer_mapping_pseudonym_ID IDs pseudonyms self;
  mapping ← (if pseudonym_ID_mapping self is Some mapping then mret mapping
             else raise AttributeError);
  raw ← (if raw_data self is Some raw then mret raw else raise AttributeError);
  frame ← joined mapping raw;
  rows ← for_each frame (λ rows row,
            r ← named row; mret (rows ++ [r])%list) [];
  mret {| skills := skills self; n_sessions := n_sessions self;
          n_sessions_input := n_sessions_input self;
          raw_data := raw_data self; xml_data := xml_data self;
          full_results := Some rows;
          results_read := results_read self;
          pseudonym_ID_mapping := pseudonym_ID_mapping self;
          flags := flags self |}.

(** A raw row under its canonical ID, when its pseudonym has one. *)
Definition relabel (mapping : gmap string (option string)) (row : attempt)
  : option result_row :=
  ID ← mapping !! student_id row;
  Some (ResultRow ID (date_created row) (activity_title row)
          (attempt_no row) (is_right row)).

(** The same for a canonical ID that is a string, as a row of
    [full_results]. *)
Definition renamed (mapping : gmap string (option string)) (row : attempt)
  : option attempt :=
  match mapping !! student_id row with
  | Some (Some ID) =>
      Some (Attempt ID (date_created row) (activity_title row)
              (attempt_no row) (is_right row))
  | _ => None
  end.

End ImportData.

(** ** What [_read_participant_results] reads *)

Module Reading.

(** The first attempt of the subject [ID] at the activity [name]: the first
    row, in the order of the table, with this subject, this activity and
    attempt number 1. *)
Definition first_attempt (rows : list attempt) (ID name : string)
  : option attempt :=
  head (filter (λ r, student_id r = ID ∧ activity_title r = name
                     ∧ attempt_no r = 1%Z) rows).

(** The questions of a module, in the order in which the two loops visit
    them. *)
Definition questions (skills : list string) (n : Z) : list (string * nat) :=
  skill ← skills; session ← seq 1 (Z.to_nat n); [(skill, session)].

Definition has_answered (rows : list attempt) (ID : string)
    (q : string * nat) : Prop :=
  is_Some (first_attempt rows ID (activity_name q.1 q.2)).

(** The state of the loops once the questions [visited] have been read for
    the participant [p] of a module with the given skills and sessions. *)
Definition reads (rows : list attempt) (p : participant)
    (skills : list string) (sessions : list nat)
    (visited : list (string * nat)) (st : Aggregator.progress) : Prop :=
  let p' := Aggregator.subject st in
  ID p' = ID p
  ∧ accumulated_by_date p' = accumulated_by_date p
  ∧ is_Some (first_answer_date p') ∧ is_Some (last_answer_date p')
  ∧ index (answered p') = sessions ∧ labels (answered p') = skills
  ∧ index (answer_date p') = sessions ∧ labels (answer_date p') = skills
  ∧ index (correct_first_try p') = sessions
  ∧ labels (correct_first_try p') = skills
  ∧ Aggregator.n_answers st = length (filter (has_answered rows (ID p)) visited)
  ∧ ∀ skill session,
      let attempt := first_attempt rows (ID p) (activity_name skill session) in
      if decide ((skill, session) ∈ visited)
      then cells (answered p') !! (session, skill)
             = Some (bool_decide (is_Some attempt))
           ∧ cells (correct_first_try p') !! (session, skill)
             = Some (from_option is_right false attempt)
           ∧ cells (answer_date p') !! (session, skill)
             = date_created <$> attempt
      else cells (answered p') !! (session, skill) = None
           ∧ cells (correct_first_try p') !! (session, skill) = None
           ∧ cells (answer_date p') !! (session, skill) = None.

End Reading.

(** ** The dates behind the cumulative series *)

Module Series.

(** The instants the cells of the answer-date tables of a group hold, one
    for each position of a table whose cell is not null. *)
Definition answer_dates (participants : list participant) : list Z :=
  p ← participants;
  omap (λ pos, cells (answer_date p) !! pos) (positions (answer_date p)).

(** [seen] counts the occurrences of each date of [dates] and has no other
    key. *)
Definition tallied (seen : gmap Z nat) (dates : list Z) : Prop :=
  ∀ d, seen !! d
       = (if decide (length (filter (λ t, t = d) dates) = 0)%nat then None
          else Some (length (filter (λ t, t = d) dates))).

(** The instants of the first attempts of the participant [ID] at the
    questions of a module. *)
Definition first_answers (rows : list attempt) (ID : string)
    (skills : list string) (n : Z) : list Z :=
  omap (λ q, date_created
               <$> Reading.first_attempt rows ID (activity_name q.1 q.2))
    (Reading.questions skills n).

End Series.

(** ** [participant.n_sessions] and [participant.n_skills] *)

Module Shape.

(** [self.correct_first_try.shape[0]] *)
Definition n_sessions (self : participant) : nat :=
  length (index (correct_first_try self)).

(** [self.correct_first_try.shape[1]] *)
Definition n_skills (self : participant) : nat :=
  length (labels (correct_first_try self)).

End Shape.

(** ** The participants of a module *)

Module Roster.

(** The attributes of [learning_module] that concern its participants,
    beside the attributes of the module itself. [participants] is the
    dictionary of the participants, or [None]; its values are distinct
    objects. *)
Record roster : Type := MkRoster {
  module : learning_module;
  participants : option (list (string * participant));
  participants_input : bool;
  n_participants : number;
  module_accumulated_by_date : list (Z * nat) }.

(** [learning_module.__init__(competencies, n_sessions, participants)] *)
Definition init (competencies : list (string * list string))
    (n_sessions : number) (participants : option (list (string * participant)))
  : py roster :=
  m ← init competencies n_sessions;
  mret {| module := m;
          participants := participants;
          participants_input := bool_decide (is_Some participants);
          n_participants := match participants with
                            | None => PyFloat nan
                            | Some d => PyInt (Z.of_nat (length d))
                            end;
          module_accumulated_by_date := [] |}.

(** [infer_participants_from_full_results()]; [IDs] is the order in which
    [set(self.full_results['Student ID'])] is iterated. [len] of [None] is a
    [TypeError], and so is indexing [None]. *)
Definition infer_participants_from_full_results (IDs : list string)
    (self : roster) : py roster :=
  participants ←
    (if results_read (module self)
     then _ ← (if full_results (module self) is Some rows then mret rows
               else raise TypeError);
          mret (Some (foldl (λ d ID, od_set ID (new_participant ID) d) [] IDs))
     else print "Must read a file of results first!";;
          mret (participants self));
  n ← (if participants is Some d then mret (length d) else raise TypeError);
  mret {| module := module self;
          participants := participants;
          participants_input := true;
          n_participants := PyInt (Z.of_nat n);
          module_accumulated_by_date := module_accumulated_by_date self |}.

(** The body of [for participant in self.participants.values()]: the object
    of the participant is updated in place, the dictionary keeps its keys
    and their order. *)
Definition read_entry
    (st : learning_module * list (string * participant))
    (entry : string * participant)
  : py (learning_module * list (string * participant)) :=
  '(m, p) ← Aggregator._read_participant_results st.1 entry.2;
  mret (m, (st.2 ++ [(entry.1, p)])%list).

(** [read_participants_results()] *)
Definition read_participants_results (self : roster) : py roster :=
  match full_results (module self) with
  | None => print "No results have been read!";; mret self
  | Some _ =>
      d ← (if participants self is Some d then mret d
           else raise AttributeError);
      '(m, d') ← for_each d read_entry (module self, []);
      mret {| module := m;
              participants := Some d';
              participants_input := participants_input self;
              n_participants := n_participants self;
              module_accumulated_by_date :=
                Cumulative._cumulative_answers_by_date (d'.*2) |}
  end.

(** The order of [sorted(self.participants.items())]: the keys of a [dict]
    are distinct, so the items are ordered by their keys. *)
Definition by_ID : relation (string * participant) :=
  λ a b, String.le a.1 b.1.

#[global] Instance by_ID_dec : RelDecision by_ID :=
  λ a b, decide (String.le a.1 b.1).

(** The three counters of [describe_module]. *)
Record counters : Type := Counters {
  signed : nat;
  n_started : nat;
  n_finished : nat }.

(** The body of the loop of [describe_module]; a label that the flags do not
    have is a [KeyError]. *)
Definition describe_entry (m : learning_module) (c : counters)
    (entry : string * participant) : py counters :=
  if results_read m then
    row ← (if flags m !! entry.1 is Some row then mret row
           else raise KeyError);
    if finished row
    then mret (Counters (signed c + 1) (n_started c + 1) (n_finished c + 1))
    else if answered_once row
    then mret (Counters (signed c + 1) (n_started c + 1) (n_finished c))
    else if started row
    then mret (Counters (signed c + 1) (n_started c) (n_finished c))
    else mret c
  else mret c.

(** [describe_module()] *)
Definition describe_module (self : roster) : py unit :=
  if negb (participants_input self)
  then print "No participants have been read!"
  else
    d ← (if participants self is Some d then mret d else raise TypeError);
    print ("There are " +:+ pretty (length d) +:+ " participants:");;
    c ← for_each (merge_sort by_ID d) (describe_entry (module self))
          (Counters 0 0 0);
    print (pretty (signed c) +:+ " have signed up");;
    print (pretty (n_started c) +:+ " have started");;
    print (pretty (n_finished c) +:+ " have finished").

(** What the flags say of the participant [key]; [false] without a row. *)
Definition flag (m : learning_module) (f : flag_row → bool) (key : string)
  : bool :=
  from_option f false (flags m !! key).

(** The participants among [keys] of whom the flags say [f]. *)
Definition census (m : learning_module) (f : flag_row → bool)
    (keys : list string) : nat :=
  length (filter (λ key, flag m f key) keys).

(** The status [describe_participants] works out for the participant
    [key]. *)
Definition status (m : learning_module) (key : string) : py string :=
  if results_read m then
    row ← (if flags m !! key is Some row then mret row else raise KeyError);
    mret (if finished row then "Has finished module"
          else if answered_once row then "Has started work"
          else if started row then "Has signed up"
          else "Has not signed up")
  else mret "No results known".

(** [describe_participants()] *)
Definition describe_participants (self : roster) : py unit :=
  if negb (participants_input self)
  then print "No participants have been read!"
  else
    d ← (if participants self is Some d then mret d else raise TypeError);
    print ("There are " +:+ pretty (length d) +:+ " participants:");;
    for_each (merge_sort by_ID d) (λ _ entry,
      status_string ← status (module self) entry.1;
      print ("   " +:+ entry.1 +:+ ": " +:+ status_string)) tt.

(** The status the flags give the participant [key]. *)
Definition status_of (m : learning_module) (key : string) : string :=
  if results_read m then
    if flag m finished key then "Has finished module"
    else if flag m answered_once key then "Has started work"
    else if flag m started key then "Has signed up"
    else "Has not signed up"
  else "No results known".

(** The row of the flags [_read_participant_results] writes for the
    participant [ID], from the number of questions with a first attempt. *)
Definition flags_row (rows : list attempt) (skills : list string) (n : Z)
    (ID : string) : flag_row :=
  let answers :=
    length (filter (Reading.has_answered rows ID) (Reading.questions skills n)) in
  {| started := true;
     answered_once := bool_decide (0 < answers)%nat;
     finished := bool_decide (Z.of_nat answers
                              = n * Z.of_nat (length skills))%Z |}.

(** [p'] is the participant [p] after its results have been read. *)
Definition was_read (rows : list attempt) (skills : list string) (n : Z)
    (p p' : participant) : Prop :=
  ∃ st, Reading.reads rows p skills (seq 1 (Z.to_nat n))
          (Reading.questions skills n) st
        ∧ p' = Cumulative.participant_cumulative_answers_by_date
                 (Aggregator.subject st).

(** The module and the dictionary after the participants [visited] have
    been read, starting from the module [m]. *)
Definition entries_read (rows : list attempt) (n : Z) (m : learning_module)
    (visited : list (string * participant))
    (st : learning_module * list (string * participant)) : Prop :=
  (skills st.1, n_sessions st.1, n_sessions_input st.1, raw_data st.1,
   xml_data st.1, full_results st.1, results_read st.1,
   pseudonym_ID_mapping st.1)
  = (skills m, n_sessions m, n_sessions_input m, raw_data m, xml_data m,
     full_results m, results_read m, pseudonym_ID_mapping m)
  ∧ (∀ key, flags st.1 !! key
            = if decide (key ∈ (λ entry, ID entry.2) <$> visited)
              then Some (flags_row rows (skills m) n key)
              else flags m !! key)
  ∧ Forall2 (λ entry entry',
               entry'.1 = entry.1
               ∧ was_read rows (skills m) n entry.2 entry'.2) visited st.2.

(** The competencies of [PP_XML_KL_script.py]. *)
Definition competencies : list (string * list string) :=
  [("Hitta och tolka digital information",
    ["SearchingForInfo"; "MapServices"; "EvaluateInformation"; "SpotDeepFake";
     "OrganisingFiles"; "SharingFiles"]);
   ("Kommunikation och samarbete",
    ["EmailFunctions"; "SharingPictures"; "SharingEvents";
     "CollaborationInDocuments"; "CreatingPresentations"; "SharingLargeFiles"]);
   ("Skapa och bearbeta digitalt innehåll",
    ["ImageEditingSoftware"; "InfoGraphics"; "TextFormating"; "Templates";
     "ChangingPDFs"; "FreeImages"]);
   ("IT-säkerhet",
    ["SafePasswords"; "Phishing"; "Malware"; "Backup"; "PortableDeviceSafety";
     "GDPR"]);
   ("Problemlösning i digitala miljöer",
    ["SoftwareFreeze"; "FindingSolutions"; "LearningAboutFunctions";
     "WifiProblems"; "OnlineMeetingProblems"; "SolvingCrash"])].

(** The module of the scenario with a dictionary of participants, or
    without one:
    [learning_module({'Security': ['Backup']}, n_sessions = 1, participants)]. *)
Definition backup_roster (participants : option (list (string * participant)))
  : roster :=
  {| module := Scenario.backup_module;
     participants := participants;
     participants_input := bool_decide (is_Some participants);
     n_participants := match participants with
                       | None => PyFloat nan
                       | Some d => PyInt (Z.of_nat (length d))
                       end;
     module_accumulated_by_date := [] |}.

(** The calls of [PP_XML_KL_script.py] up to [describe_module]; [md] is the
    script's [mod], [root] the root of the parsed XML file. *)
Definition PP_XML_KL_script (strptime : string → option Z)
    (lower : string → string) (IDs : list string) (root : element)
  : py roster :=
  md ← init competencies (PyInt 1) None;
  m ← Datashop.import_datashop strptime lower (module md) root;
  let md := {| module := m; participants := participants md;
               participants_input := participants_input md;
               n_participants := n_participants md;
               module_accumulated_by_date := module_accumulated_by_date md |} in
  md ← infer_participants_from_full_results IDs md;
  md ← read_participants_results md;
  describe_module md;;
  mret md.

End Roster.

(** * Properties *)

(** ** The monad *)

Section monad_facts.
Context {A S : Type}.
Implicit Types (body : S → A → py S) (l : list A) (s : S) (out : list string).

Lemma bind_returned {B C} (m : py B) (k : B → py C) out b out' :
  m out = (Returned b, out') → (x ← m; k x) out = k b out'.
Proof. intros H. unfold mbind, py_bind, bind. by rewrite H. Qed.

Lemma bind_raised {B C} (m : py B) (k : B → py C) out e out' :
  m out = (Raised e, out') → (x ← m; k x) out = (Raised e, out').
Proof. intros H. unfold mbind, py_bind, bind. by rewrite H. Qed.

Lemma for_each_cons body x l s out :
  for_each (x :: l) body s out
  = match body s x out with
    | (Returned s', out') => for_each l body s' out'
    | (Raised e, out') => (Raised e, out')
    end.
Proof. reflexivity. Qed.

Lemma for_each_app body l1 l2 s out :
  for_each (l1 ++ l2) body s out
  = match for_each l1 body s out with
    | (Returned s', out') => for_each l2 body s' out'
    | (Raised e, out') => (Raised e, out')
    end.
Proof.
  revert s out. induction l1 as [|x l1 IH]; intros s out; [done|].
  rewrite <- app_comm_cons, !for_each_cons.
  destruct (body s x out) as [[s'|e] out']; [apply IH | done].
Qed.

(** A loop whose body neither prints nor raises is a fold. *)
Lemma for_each_pure body (f : S → A → S) l s out :
  (∀ s x out, x ∈ l → body s x out = (Returned (f s x), out)) →
  for_each l body s out = (Returned (foldl f s l), out).
Proof.
  revert s out. induction l as [|x l IH]; intros s out Hbody; [done|].
  rewrite for_each_cons, Hbody by left. simpl. apply IH.
  intros s' y out' Hy. apply Hbody. by right.
Qed.

(** What every iteration preserves holds when the loop returns. *)
Lemma for_each_invariant (P : S → Prop) body l s out s' out' :
  (∀ s x out s' out', P s → body s x out = (Returned s', out') → P s') →
  P s → for_each l body s out = (Returned s', out') → P s'.
Proof.
  intros Hbody. revert s out. induction l as [|x l IH]; intros s out Hs.
  - cbn. by intros [= <- _].
  - rewrite for_each_cons.
    destruct (body s x out) as [[s1|e] out1] eqn:E; [|done].
    apply IH. by eapply Hbody.
Qed.

(** A loop whose body always returns, prints nothing and keeps an
    invariant returns, prints nothing and keeps the invariant. *)
Lemma for_each_total (P : S → Prop) body l s out :
  (∀ s x out, P s → ∃ s', body s x out = (Returned s', out) ∧ P s') →
  P s → ∃ s', for_each l body s out = (Returned s', out) ∧ P s'.
Proof.
  intros Hbody. revert s. induction l as [|x l IH]; intros s Hs.
  - by exists s.
  - rewrite for_each_cons. destruct (Hbody s x out Hs) as (s1 & -> & Hs1).
    by apply IH.
Qed.

End monad_facts.

Section silent_facts.

Lemma silent_ret {A} (a : A) : silent (mret a : py A).
Proof. by intros out. Qed.

Lemma silent_raise {A} e : silent (raise e : py A).
Proof. by intros out. Qed.

Lemma silent_bind {A B} (m : py A) (k : A → py B) :
  silent m → (∀ a, silent (k a)) → silent (a ← m; k a).
Proof.
  intros Hm Hk out. unfold run, mbind, py_bind, bind.
  pose proof (Hm out) as Hout. unfold run in Hout.
  destruct (m []) as [r o] eqn:E. cbn in Hout. rewrite Hout.
  destruct r as [a|e]; [|done]. by rewrite (Hk a out), (Hk a o).
Qed.

Lemma silent_item0 {A} (l : list A) : silent (item0 l).
Proof. destruct l; [apply silent_raise|apply silent_ret]. Qed.

End silent_facts.

(** ** The parse rule for problem names *)

Section matching_facts.
Import Datashop Scenario Aggregator.
Context (lower : string → string).

Lemma activity_name_nonempty skill k : activity_name skill k ≠ "".
Proof. unfold activity_name. by destruct skill. Qed.

(** The search for the skill is a pair of folds. *)
Lemma match_skill_fold skills n name out :
  match_skill lower skills (PyInt n) name out
  = (Returned
       (foldl (λ m skill,
          foldl (λ m session,
            if decide (name = lower (activity_name skill (session + 1)))
            then activity_name skill (session + 1) else m)
            m (seq 0 (Z.to_nat n))) "" skills), out).
Proof.
  unfold match_skill. apply for_each_pure. intros m skill o _.
  unfold mbind, py_bind, bind, range, mret, py_ret, ret.
  by apply for_each_pure.
Qed.

Lemma last_match_sessions name skill (sessions : list nat) m0 :
  let r := foldl (λ m session,
             if decide (name = lower (activity_name skill (session + 1)))
             then activity_name skill (session + 1) else m) m0 sessions in
  (r = m0 ∧ ∀ s, s ∈ sessions → name ≠ lower (activity_name skill (s + 1)))
  ∨ (∃ s, s ∈ sessions ∧ r = activity_name skill (s + 1) ∧ name = lower r).
Proof.
  induction sessions as [|s sessions IH] using rev_ind; cbn zeta.
  - left. split; [done|]. intros s Hs. by apply elem_of_nil in Hs.
  - rewrite foldl_app. cbn [foldl]. case_decide as Hs.
    + right. exists s. split; [apply elem_of_app; right; by left|done].
    + destruct IH as [[Hr Hno]|(s' & Hs' & Hr & Hname)].
      * left. split; [done|]. intros s' [Hin|Hin%list_elem_of_singleton]%elem_of_app.
        -- by apply Hno.
        -- by subst.
      * right. exists s'. split; [apply elem_of_app; by left|done].
Qed.

Lemma last_match_skills name (skills : list string) (sessions : list nat) :
  let r := foldl (λ m skill,
             foldl (λ m session,
               if decide (name = lower (activity_name skill (session + 1)))
               then activity_name skill (session + 1) else m) m sessions)
             "" skills in
  (r = "" ∧ ∀ skill s, skill ∈ skills → s ∈ sessions →
              name ≠ lower (activity_name skill (s + 1)))
  ∨ (∃ skill s, skill ∈ skills ∧ s ∈ sessions ∧
                r = activity_name skill (s + 1) ∧ name = lower r).
Proof.
  induction skills as [|skill skills IH] using rev_ind; cbn zeta.
  - left. split; [done|]. intros skill s Hs. by apply elem_of_nil in Hs.
  - rewrite foldl_app. cbn [foldl].
    destruct (last_match_sessions name skill sessions
                (foldl (λ m skill,
                   foldl (λ m session,
                     if decide (name = lower (activity_name skill (session + 1)))
                     then activity_name skill (session + 1) else m) m sessions)
                   "" skills)) as [[Hr Hno]|(s & Hs & Hr & Hname)].
    + cbn zeta in Hr. rewrite Hr.
      destruct IH as [[Hr' Hno']|(skill' & s' & Hin & Hs' & Hr' & Hname)].
      * left. split; [done|].
        intros skill' s' [Hin|Hin%list_elem_of_singleton]%elem_of_app Hs'.
        -- by apply Hno'.
        -- subst. by apply Hno.
      * right. exists skill', s'. split; [apply elem_of_app; by left|done].
    + right. exists skill, s. split; [apply elem_of_app; right; by left|done].
Qed.

(** With [n] sessions the search returns: the empty string when no
    [<skill>_Q<session>], lower-cased, equals the name; otherwise one such
    activity name, in mixed case. *)
Lemma match_skill_spec skills n name out :
  ∃ m, match_skill lower skills (PyInt n) name out = (Returned m, out)
       ∧ ((m = "" ∧ ∀ skill k, skill ∈ skills → (1 ≤ k ≤ Z.to_nat n)%nat →
                      name ≠ lower (activity_name skill k))
          ∨ (m ≠ "" ∧ name = lower m
             ∧ ∃ skill k, skill ∈ skills ∧ (1 ≤ k ≤ Z.to_nat n)%nat
                          ∧ m = activity_name skill k)).
Proof.
  eexists. split; [apply match_skill_fold|].
  destruct (last_match_skills name skills (seq 0 (Z.to_nat n)))
    as [[Hr Hno]|(skill & s & Hin & Hs & Hr & Hname)]; cbn zeta in *.
  - left. split; [done|]. intros skill k Hin Hk.
    replace k with (k - 1 + 1)%nat by lia. apply Hno; [done|].
    apply elem_of_seq. lia.
  - right. rewrite Hr at 1. split; [apply activity_name_nonempty|].
    split; [done|]. exists skill, (s + 1)%nat.
    apply elem_of_seq in Hs. split; [done|]. split; [lia|done].
Qed.

(** The claim of C1 at its own input: a label in mixed case. *)
Lemma mixed_case_label_is_dropped :
  ∃ self',
    run (import_datashop strptime_padded lower_ascii backup_module
           (backup_log "Module Backup_Q1.")) = (Returned self', [])
    ∧ xml_data self' = Some []
    ∧ xml_data self' ≠ Some [backup_row].
Proof.
  eexists. split; [vm_compute; reflexivity|]. split; [reflexivity|discriminate].
Qed.

(** C1, amended. The log with skill Backup, one session, subject u1, a
    context at 2024-01-01 10:00:00 whose label is 'Module backup_q1.' and one
    tutor message CORRECT: the name extracted from the label (its second
    token at single spaces, final character dropped) is backup_q1, and the
    table has exactly one record, (u1, Backup_Q1, that instant, true). The
    aggregator, run on a table that holds this record with attempt number 1,
    sets the cell (session 1, Backup) of subject u1 to answered and correct.
    In general the extracted name is compared for equality with the
    lower-cased [<skill>_Q<session>] of every skill and every session from 1
    to [n_sessions], and a match is recorded under the mixed-case name. *)
Theorem backup_scenario_lower_case_label (strptime : string → option Z) :
  strptime "2024-01-01 10:00:00" = Some ten_o_clock →
  lower "Backup_Q1" = "backup_q1" →
  run (short_name (Some "Module backup_q1.")) = (Returned "backup_q1", [])
  ∧ (∃ self',
       run (import_datashop strptime lower backup_module
              (backup_log "Module backup_q1.")) = (Returned self', [])
       ∧ xml_data self' = Some [backup_row])
  ∧ (∃ self' p,
       run (_read_participant_results backup_results (new_participant "u1"))
         = (Returned (self', p), [])
       ∧ cells (answered p) !! (1%nat, "Backup") = Some true
       ∧ cells (correct_first_try p) !! (1%nat, "Backup") = Some true)
  ∧ ∀ skills n name out,
      ∃ m, match_skill lower skills (PyInt n) name out = (Returned m, out)
           ∧ ((m = "" ∧ ∀ skill k, skill ∈ skills → (1 ≤ k ≤ Z.to_nat n)%nat →
                          name ≠ lower (activity_name skill k))
              ∨ (m ≠ "" ∧ name = lower m
                 ∧ ∃ skill k, skill ∈ skills ∧ (1 ≤ k ≤ Z.to_nat n)%nat
                              ∧ m = activity_name skill k)).
Proof.
  intros H Hlower. split; [vm_compute; reflexivity|]. split; [|split].
  - eexists. split;
      [vm_compute; vm_compute in H; rewrite H; vm_compute;
       vm_compute in Hlower; rewrite Hlower; vm_compute; reflexivity
      |reflexivity].
  - do 2 eexists. split; [vm_compute; reflexivity|].
    split; vm_compute; reflexivity.
  - apply match_skill_spec.
Qed.

End matching_facts.

Section matching_examples.
Import Datashop Scenario.

(** [s[:-1]] drops one character, of one byte or of several. *)
Lemma only_continuation_app s c :
  continuation c = false → only_continuation (s +:+ String c "") = false.
Proof.
  intros Hc. induction s as [|a s IH].
  - change (only_continuation (String c "") = false). cbn [only_continuation].
    by rewrite Hc.
  - change (only_continuation (String a (s +:+ String c "")) = false).
    cbn [only_continuation]. rewrite IH. apply andb_false_r.
Qed.

Lemma drop_last_single_byte s c :
  continuation c = false → drop_last (s +:+ String c "") = s.
Proof.
  intros Hc. induction s as [|a s IH]; [done|].
  change (drop_last (String a (s +:+ String c "")) = String a s).
  cbn [drop_last]. rewrite only_continuation_app by done. by rewrite IH.
Qed.

Lemma drop_last_examples :
  drop_last "backup_q1." = "backup_q1"
  ∧ drop_last "backup_q1é" = "backup_q1"
  ∧ drop_last "säkerhet_q1€" = "säkerhet_q1"
  ∧ drop_last "" = "".
Proof. repeat split; reflexivity. Qed.

Lemma backup_scenario_lower_case_label_witness :
  strptime_padded "2024-01-01 10:00:00" = Some ten_o_clock
  ∧ lower_ascii "Backup_Q1" = "backup_q1"
  ∧ ∃ self',
      run (import_datashop strptime_padded lower_ascii backup_module
             (backup_log "Module backup_q1.")) = (Returned self', [])
      ∧ xml_data self' = Some [backup_row].
Proof.
  split; [vm_compute; reflexivity|]. split; [vm_compute; reflexivity|].
  apply (backup_scenario_lower_case_label lower_ascii strptime_padded).
  - vm_compute; reflexivity.
  - vm_compute; reflexivity.
Defined.

End matching_examples.

(** ** The table of the event parser *)

Section datashop_facts.
Import Datashop Scenario.

(** No iteration of the second loop touches the list [attempt_number]. *)
Lemma second_pass_attempt_number lower skills n answers out cols out' :
  second_pass lower skills n answers out = (Returned cols, out') →
  attempt_number cols = [].
Proof.
  unfold second_pass.
  apply (for_each_invariant (λ c, attempt_number c = [])); [|done].
  intros c [anon problem] o c' o' Hc.
  apply (for_each_invariant (λ c, attempt_number c = [])); [|done].
  clear. intros c [name times] o c' o' Hc.
  unfold mbind, py_bind, bind.
  destruct (match_skill lower skills n name o) as [[m|e] o1]; [|done].
  destruct (decide (m = "")); intros [= <- _]; [done|].
  generalize (sorted_items times). intros l. revert c Hc.
  induction l as [|[t outcomes] l IH]; intros c Hc; [done|].
  cbn [foldl]. apply IH. clear IH. revert c Hc.
  induction outcomes as [|b outcomes IH]; intros c Hc; [done|].
  cbn [foldl]. by apply IH.
Qed.

(** C5. The claim: every attempt record the parser produces carries the
    ordinal of its instant among the sorted instants of its subject and
    problem, so that the table has an attempt-number field. The code at the
    log of subject u1 with one correct answer to backup_q1: the second loop
    leaves its list [attempt_number] empty while it fills the four other
    lists with one entry, and the table is built from four lists, none of
    them under the name 'Attempt Number'. *)
Theorem datashop_table_lacks_attempt_number :
  ∃ st cols self',
    run (first_pass strptime_padded (backup_log "Module backup_q1."))
      = (Returned st, [])
    ∧ run (second_pass lower_ascii (skills backup_module)
             (n_sessions backup_module) (answers st)) = (Returned cols, [])
    ∧ IDs cols = [Some "u1"]
    ∧ answer_dates cols = [ten_o_clock]
    ∧ attempt_number cols = []
    ∧ run (import_datashop strptime_padded lower_ascii backup_module
             (backup_log "Module backup_q1.")) = (Returned self', [])
    ∧ xml_data self' = Some [backup_row]
    ∧ "Attempt Number" ∉ xml_data_columns.
Proof.
  do 3 eexists. split; [vm_compute; reflexivity|].
  split; [vm_compute; reflexivity|].
  split; [reflexivity|]. split; [reflexivity|]. split; [reflexivity|].
  split; [vm_compute; reflexivity|]. split; [reflexivity|].
  unfold xml_data_columns. rewrite !elem_of_cons, elem_of_nil.
  intros [?|[?|[?|[?|[]]]]]; discriminate.
Qed.

(** C6. The claim: an evaluation outside CORRECT and INCORRECT is reported
    and appends no record with a guessed outcome, and it is fatal to that
    record only. The code: after a correct answer the evaluation HINT is
    reported and then recorded as a second correct answer; as the first
    evaluation of a log it is reported and then ends the whole import with
    [UnboundLocalError]. *)
Theorem unknown_evaluation_repeats_previous_outcome :
  (∃ self',
     run (import_datashop strptime_padded lower_ascii backup_module hint_log)
       = (Returned self', [not_understood])
     ∧ xml_data self' = Some [backup_row; backup_row])
  ∧ run (import_datashop strptime_padded lower_ascii backup_module hint_first_log)
      = (Raised UnboundLocalError, [not_understood]).
Proof.
  split; [eexists; split; [vm_compute; reflexivity | reflexivity]|].
  vm_compute. reflexivity.
Qed.

End datashop_facts.

(** ** Evaluations the parser does not know *)

Section evaluation_facts.
Import Datashop.

(** A tutor message whose evaluation is neither CORRECT nor INCORRECT prints
    the report and then records the outcome of the previous tutor message,
    [is_correct st], as its own. *)
Lemma unknown_evaluation_step child evaluation rest st out :
  findall "action_evaluation" child = evaluation :: rest →
  text evaluation ≠ Some "CORRECT" →
  text evaluation ≠ Some "INCORRECT" →
  tutor_message child st out
  = match record_outcome st (is_correct st) (out ++ [not_understood])%list with
    | (Returned ans, out') =>
        (Returned {| answers := ans; anon_id := anon_id st; time := time st;
                     problem_name := problem_name st;
                     is_correct := is_correct st;
                     wait_for_next_context_message :=
                       wait_for_next_context_message st |}, out')
    | (Raised e, out') => (Raised e, out')
    end.
Proof.
  intros Hfind Hc Hi. unfold tutor_message. rewrite Hfind.
  unfold mbind, py_bind, bind. cbn [item0 mret py_ret ret].
  rewrite !decide_False by done. reflexivity.
Qed.

(** Without a previous outcome the append raises. *)
Lemma record_outcome_unbound st out :
  is_correct st = None →
  ∃ e, record_outcome st None out = (Raised e, out).
Proof.
  intros _. unfold record_outcome, mbind, py_bind, bind, load, od_item.
  destruct (anon_id st) as [anon|]; [|by eexists].
  cbn. destruct (od_get anon (answers st)) as [per_subject|]; [|by eexists].
  cbn. destruct (problem_name st) as [name|]; [|by eexists].
  cbn. destruct (od_get name per_subject) as [per_problem|]; [|by eexists].
  cbn. destruct (time st) as [t|]; [|by eexists].
  cbn. destruct (od_get t per_problem) as [outcomes|]; by eexists.
Qed.

End evaluation_facts.

(** ** Malformed contexts *)


Section malformed_facts.
Import Datashop Scenario.
Context (strptime : string → option Z).

Lemma silent_read_meta child : silent (read_meta strptime child).
Proof.
  unfold read_meta.
  repeat (apply silent_bind; [try apply silent_item0|intros ?]).
  - unfold parse_time. destruct (text _); [|apply silent_raise].
    destruct (strptime _); [apply silent_ret|apply silent_raise].
  - apply silent_ret.
Qed.

Lemma silent_full_problem_name child : silent (full_problem_name child).
Proof.
  unfold full_problem_name.
  repeat (apply silent_bind; [apply silent_item0|intros ?]). apply silent_ret.
Qed.

(** A malformed context message leaves the parser waiting. *)
Lemma malformed_context_step st child out :
  malformed strptime child →
  ∃ anon t,
    first_pass_step strptime st child out = (Returned (waiting anon t st), out).
Proof.
  intros (Htag & (anon & t & Hmeta) & Hpath). exists anon, t.
  unfold first_pass_step. rewrite decide_True by done.
  unfold context_message, mbind, py_bind, bind, try_except.
  rewrite (silent_read_meta child out), Hmeta.
  rewrite (silent_full_problem_name child out), Hpath.
  by rewrite decide_True.
Qed.

(** While the parser waits, an element that is no context message is
    skipped. *)
Lemma waiting_step_skips st child out :
  tag child ≠ "context_message" →
  wait_for_next_context_message st = true →
  first_pass_step strptime st child out = (Returned st, out).
Proof.
  intros Htag Hwait. unfold first_pass_step.
  rewrite decide_False by done. rewrite Hwait, !andb_false_r. done.
Qed.

(** A context message reads the recorded answers, the problem name and
    the last outcome of the state, not its subject nor its instant. *)
Lemma context_message_alike child st1 st2 out :
  alike st1 st2 →
  context_message strptime child st1 out = context_message strptime child st2 out.
Proof.
  intros (Ha & Hp & Hc & _ & _). unfold context_message, waiting.
  by rewrite Ha, Hp, Hc.
Qed.

Lemma step_alike child st1 st2 out :
  alike st1 st2 →
  first_pass_step strptime st1 child out = first_pass_step strptime st2 child out
  ∨ (first_pass_step strptime st1 child out = (Returned st1, out)
     ∧ first_pass_step strptime st2 child out = (Returned st2, out)).
Proof.
  intros Halike. destruct (decide (tag child = "context_message")) as [Htag|Htag].
  - left. unfold first_pass_step. rewrite !decide_True by done.
    by apply context_message_alike.
  - right. destruct Halike as (_ & _ & _ & H1 & H2).
    by rewrite !waiting_step_skips.
Qed.

(** From alike states the rest of the log gives the same answers, the same
    lines and the same exception. *)
Lemma for_each_alike rest st1 st2 out :
  alike st1 st2 →
  match for_each rest (first_pass_step strptime) st1 out,
        for_each rest (first_pass_step strptime) st2 out with
  | (Returned s1, o1), (Returned s2, o2) => answers s1 = answers s2 ∧ o1 = o2
  | (Raised e1, o1), (Raised e2, o2) => e1 = e2 ∧ o1 = o2
  | _, _ => False
  end.
Proof.
  revert st1 st2 out. induction rest as [|child rest IH]; intros st1 st2 out Ha.
  - cbn. split; [apply Ha|done].
  - rewrite !for_each_cons.
    destruct (step_alike child st1 st2 out Ha) as [Heq|[H1 H2]].
    + rewrite Heq.
      destruct (first_pass_step strptime st2 child out) as [[s|e] o]; [|done].
      destruct (for_each rest (first_pass_step strptime) s o) as [[s'|e] o'];
        done.
    + rewrite H1, H2. by apply IH.
Qed.

(** After a malformed context, elements that are no context message or are
    malformed contexts themselves keep the parser waiting. *)
Lemma skipped_elements st rest out :
  wait_for_next_context_message st = true →
  Forall (λ e, tag e ≠ "context_message" ∨ malformed strptime e) rest →
  ∃ st', for_each rest (first_pass_step strptime) st out = (Returned st', out)
         ∧ alike st' st.
Proof.
  intros Hwait Hrest. revert st Hwait.
  induction Hrest as [|child rest Hchild _ IH]; intros st Hwait.
  - exists st. split; [done|]. by repeat split.
  - rewrite for_each_cons. destruct Hchild as [Htag|Hbad].
    + rewrite waiting_step_skips by done. by apply IH.
    + destruct (malformed_context_step st child out Hbad) as (anon & t & ->).
      destruct (IH (waiting anon t st) eq_refl) as (st' & -> & Ha).
      exists st'. split; [done|].
      destruct Ha as (? & ? & ? & ? & _). by repeat split.
Qed.

(** C9, amended. A context element with readable meta data whose nested
    problem-name path misses a structural field makes the parser skip every
    element up to the next well-formed context element: the tutor messages
    among them change no recorded answer, nothing is printed (no notice
    either), no exception is raised, and the import gives what it gives on
    the log without these elements. *)
Theorem malformed_context_skips_until_next_context
    (st : locals) (child : element) (rest : list element) (out : list string) :
  malformed strptime child →
  Forall (λ e, tag e ≠ "context_message" ∨ malformed strptime e) rest →
  (∃ st',
     for_each (child :: rest) (first_pass_step strptime) st out
       = (Returned st', out)
     ∧ answers st' = answers st
     ∧ wait_for_next_context_message st' = true)
  ∧ (∀ lower self name x pre post o,
       import_datashop strptime lower self
         (Element name x (pre ++ child :: rest ++ post)) o
       = import_datashop strptime lower self
           (Element name x (pre ++ child :: post)) o).
Proof.
  intros Hchild Hrest.
  assert (Hrun : ∀ s o, ∃ anon t s',
            first_pass_step strptime s child o = (Returned (waiting anon t s), o)
            ∧ for_each rest (first_pass_step strptime) (waiting anon t s) o
              = (Returned s', o)
            ∧ alike s' (waiting anon t s)).
  { intros s o.
    destruct (malformed_context_step s child o Hchild) as (anon & t & Hstep).
    destruct (skipped_elements (waiting anon t s) rest o eq_refl Hrest)
      as (s' & Hs' & Ha).
    by exists anon, t, s'. }
  split.
  - destruct (Hrun st out) as (anon & t & st' & Hstep & Hskip & Ha).
    exists st'. rewrite for_each_cons, Hstep. split; [done|].
    destruct Ha as (Hanswers & _ & _ & Hwait & _). done.
  - intros lower self name x pre post o. unfold import_datashop, first_pass.
    cbn [children]. unfold mbind, py_bind, bind.
    rewrite !(for_each_app _ pre).
    destruct (for_each pre (first_pass_step strptime) initial o)
      as [[s|e] o']; [|done].
    destruct (Hrun s o') as (anon & t & s' & Hstep & Hskip & Ha).
    rewrite !for_each_cons, Hstep, for_each_app, Hskip.
    pose proof (for_each_alike post s' (waiting anon t s) o' Ha) as Hpost.
    destruct (for_each post (first_pass_step strptime) s' o')
      as [[s1|e1] o1],
      (for_each post (first_pass_step strptime) (waiting anon t s) o')
      as [[s2|e2] o2]; try done.
    + destruct Hpost as [-> ->]. done.
    + destruct Hpost as [-> ->]. done.
Qed.

End malformed_facts.

Section malformed_examples.
Import Datashop Scenario.

(** The claim of C9 on its notice: a malformed context followed by a tutor
    message is imported without a record, and without a printed line. *)
Lemma malformed_context_prints_nothing :
  ∃ self',
    run (import_datashop strptime_padded lower_ascii backup_module malformed_log)
      = (Returned self', [])
    ∧ xml_data self' = Some []
    ∧ (run (import_datashop strptime_padded lower_ascii backup_module malformed_log)).2
      = [].
Proof.
  eexists. split; [vm_compute; reflexivity|]. split; [reflexivity|].
  vm_compute. reflexivity.
Qed.

Lemma malformed_context_skips_until_next_context_witness :
  malformed strptime_padded (malformed_context "u1" "2024-01-01 10:00:00")
  ∧ Forall (λ e, tag e ≠ "context_message" ∨ malformed strptime_padded e)
      [tutor "CORRECT"]
  ∧ ∃ st',
      for_each [malformed_context "u1" "2024-01-01 10:00:00"; tutor "CORRECT"]
        (first_pass_step strptime_padded) initial []
      = (Returned st', [])
      ∧ answers st' = answers initial
      ∧ wait_for_next_context_message st' = true.
Proof.
  assert (Hchild : malformed strptime_padded
                     (malformed_context "u1" "2024-01-01 10:00:00")).
  { split; [reflexivity|]. split; [|vm_compute; reflexivity].
    exists (Some "u1"), ten_o_clock. vm_compute. reflexivity. }
  assert (Hrest : Forall (λ e, tag e ≠ "context_message"
                               ∨ malformed strptime_padded e) [tutor "CORRECT"]).
  { repeat constructor. discriminate. }
  split; [exact Hchild|]. split; [exact Hrest|].
  exact (proj1 (malformed_context_skips_until_next_context strptime_padded
                  initial _ _ [] Hchild Hrest)).
Defined.

End malformed_examples.

(** ** The session count the parser needs *)

Section session_count_facts.
Import Datashop Scenario.

(** With a [float] for [n_sessions] the first problem of the second loop
    raises [TypeError]. *)
Lemma second_pass_float lower skills c answers cols out :
  skills ≠ [] →
  (∃ anon problem, (anon, problem) ∈ answers ∧ problem ≠ []) →
  for_each answers (λ cols '(anon, problem),
    for_each problem (λ cols '(problem_name, times),
      matched_skill ← match_skill lower skills (PyFloat c) problem_name;
      if decide (matched_skill = "") then mret cols
      else mret (foldl (λ cols '(t, outcomes),
                   foldl (append_answer anon matched_skill t) cols outcomes)
                   cols (sorted_items times))) cols) cols out
  = (Raised TypeError, out).
Proof.
  intros Hskills (anon & problem & Hin & Hproblem).
  destruct skills as [|skill skills]; [done|]. clear Hskills.
  induction answers as [|[anon' problem'] answers IH]; [by apply elem_of_nil in Hin|].
  rewrite for_each_cons. destruct problem' as [|[name times] problem'].
  - cbn [for_each]. unfold ret. apply IH.
    apply elem_of_cons in Hin as [[= -> ->]|Hin]; done.
  - reflexivity.
Qed.

(** C10. When the import reaches the search for a skill with a session count
    that is a float, as the default NaN of a module constructed without
    [n_sessions] is, it raises [TypeError]; it never infers the count; and
    when it returns after reaching the search, the session count is an
    integer, which it leaves as it was. *)
Theorem import_datashop_needs_integer_session_count
    (strptime : string → option Z) (lower : string → string)
    (self : learning_module) (root : element) :
  reaches_skill_matching strptime self root →
  (∀ c, n_sessions self = PyFloat c →
        (run (import_datashop strptime lower self root)).1 = Raised TypeError)
  ∧ (∀ self', (run (import_datashop strptime lower self root)).1 = Returned self' →
              ∃ n, n_sessions self = PyInt n
                   ∧ n_sessions self' = PyInt n
                   ∧ n_sessions_input self' = n_sessions_input self)
  ∧ (∀ competencies,
       run (init competencies default_n_sessions) = (Returned self, []) →
       n_sessions_input self = false
       ∧ (run (import_datashop strptime lower self root)).1 = Raised TypeError).
Proof.
  intros (st & out & Hfirst & Hskills & Hproblem).
  assert (Hfloat : ∀ c, n_sessions self = PyFloat c →
            (run (import_datashop strptime lower self root)).1 = Raised TypeError).
  { intros c Hc. unfold run, import_datashop, mbind, py_bind, bind.
    rewrite Hfirst. unfold second_pass. rewrite Hc.
    by rewrite second_pass_float. }
  split; [done|split].
  - intros self' Hrun. destruct (n_sessions self) as [n|c] eqn:Hn.
    + exists n. split; [done|]. revert Hrun.
      unfold run, import_datashop, mbind, py_bind, bind.
      destruct (first_pass strptime root []) as [[s|e] o]; [|done].
      destruct (second_pass _ _ _ _ o) as [[cols|e] o']; [|done].
      destruct (DataFrame _ _ _ _ o') as [[frame|e] o'']; [|done].
      cbn. intros [= <-]. cbn. by rewrite Hn.
    + rewrite (Hfloat c) in Hrun; done.
  - intros competencies [= <-]. split; [done|]. by apply (Hfloat nan).
Qed.

Lemma import_datashop_needs_integer_session_count_witness :
  run (init [("Security", ["Backup"])] default_n_sessions)
    = (Returned uncounted_module, [])
  ∧ reaches_skill_matching strptime_padded uncounted_module
      (backup_log "Module backup_q1.")
  ∧ (run (import_datashop strptime_padded lower_ascii uncounted_module
            (backup_log "Module backup_q1."))).1 = Raised TypeError.
Proof.
  assert (Hreach : reaches_skill_matching strptime_padded uncounted_module
            (backup_log "Module backup_q1.")).
  { do 2 eexists. split; [vm_compute; reflexivity|]. split; [discriminate|].
    do 2 eexists. split; [left|discriminate]. }
  split; [reflexivity|]. split; [exact Hreach|].
  exact (proj2 (proj2 (proj2 (import_datashop_needs_integer_session_count
                         strptime_padded lower_ascii _ _ Hreach))
                  [("Security", ["Backup"])] eq_refl)).
Defined.

End session_count_facts.

(** ** The identity reconciler *)

Section reconciler_facts.
Import Reconciler Scenario.
Implicit Types (xml : list xml_row) (raw : list attempt)
  (IDs : list (option string)) (pseudonyms : list string)
  (mapping : gmap string (option string)).

Lemma match_found_spec (xml_time : Z) (times : list Z) :
  match_found xml_time times
  = bool_decide (Exists (λ t', Z.abs (xml_time - t') < 60)%Z times).
Proof.
  induction times as [|t' times IH].
  - symmetry. apply bool_decide_eq_false_2. by intros ?%Exists_nil.
  - cbn [match_found]. unfold near.
    destruct (decide (Z.abs (xml_time - t') < 60)%Z) as [Hnear|Hnear].
    + rewrite (bool_decide_eq_true_2 _ Hnear).
      symmetry. apply bool_decide_eq_true_2. by left.
    + rewrite (bool_decide_eq_false_2 _ Hnear), IH.
      apply bool_decide_ext. rewrite Exists_cons. tauto.
Qed.

Lemma count_matches_spec (ID_times times : list Z) :
  count_matches ID_times times
  = (Z.of_nat (length (filter
        (λ t, Exists (λ t', Z.abs (t - t') < 60)%Z times) ID_times)),
     Z.of_nat (length ID_times)).
Proof.
  unfold count_matches.
  enough (∀ m n,
    foldl (λ '(times_matched, total_times) xml_time,
             ((times_matched + (if match_found xml_time times then 1 else 0))%Z,
              (total_times + 1)%Z)) (m, n) ID_times
    = ((m + Z.of_nat (length (filter
          (λ t, Exists (λ t', Z.abs (t - t') < 60)%Z times) ID_times)))%Z,
       (n + Z.of_nat (length ID_times))%Z)) as H by apply H.
  induction ID_times as [|t ID_times IH]; intros m n.
  - cbn. f_equal; lia.
  - cbn [foldl]. rewrite IH, match_found_spec, filter_cons.
    case_bool_decide; [rewrite decide_True by done|rewrite decide_False by done];
      cbn [length]; f_equal; lia.
Qed.

(** The search for a subject that has an instant. *)
Lemma search_spec xml raw ID pseudonyms mapping out :
  ID_times xml ID ≠ [] ∨ pseudonyms = [] →
  search xml raw ID pseudonyms mapping out
  = (Returned (first_match xml raw pseudonyms mapping ID), out).
Proof.
  intros [Htimes| ->]; [|done]. unfold first_match.
  induction pseudonyms as [|p pseudonyms IH]; [done|].
  cbn [search list_find]. rewrite count_matches_spec.
  unfold exceeds_threshold. rewrite decide_False.
  2:{ destruct (ID_times xml ID); [done|]. cbn [length]. lia. }
  unfold mbind, py_bind, bind, mret, py_ret, ret.
  fold (qualifies xml raw ID p). case_bool_decide as Hq.
  - by rewrite decide_True.
  - rewrite decide_False by done. rewrite IH.
    by destruct (list_find (qualifies xml raw ID) pseudonyms) as [[i b]|].
Qed.

(** A subject of the table has an instant there, unless it is the null
    subject, which no comparison finds. *)
Lemma enumerated_ID_has_times xml IDs ID :
  enumerates IDs (xml_student_id <$> xml) →
  ID ∈ IDs → ID ≠ None → ID_times xml ID ≠ [].
Proof.
  intros [_ Hiff] (row & -> & Hrow)%Hiff%list_elem_of_fmap Hsome.
  unfold ID_times. intros Hnil%fmap_nil_inv.
  assert (row ∈ filter (λ r, same_subject (xml_student_id r)
                               (xml_student_id row)) xml) as Hin.
  { apply list_elem_of_filter. split; [|done]. split; [|done].
    by destruct (xml_student_id row). }
  rewrite Hnil in Hin. by apply elem_of_nil in Hin.
Qed.

Lemma null_subject_has_no_times xml : ID_times xml None = [].
Proof.
  unfold ID_times. induction xml as [|row xml IH]; [done|].
  rewrite filter_cons, decide_False; [done|].
  intros [[x Hx] Hnull]. congruence.
Qed.

(** The search for the null subject divides by zero at its first
    candidate. *)
Lemma search_null_subject xml raw pseudonyms mapping out :
  pseudonyms ≠ [] →
  search xml raw None pseudonyms mapping out = (Raised ZeroDivisionError, out).
Proof.
  destruct pseudonyms as [|p pseudonyms]; [done|]. intros _.
  cbn [search]. by rewrite null_subject_has_no_times.
Qed.

Lemma reports_return {A} (l : list A) (silent : A → Prop)
    `{∀ x, Decision (silent x)} (line : A → string) out :
  ∃ out',
    for_each l (λ _ x, if decide (silent x) then mret tt else print (line x))
      tt out = (Returned tt, out').
Proof.
  revert out. induction l as [|x l IH]; intros out; [by eexists|].
  rewrite for_each_cons. case_decide; cbn; apply IH.
Qed.

(** The method returns, with the mapping the searches build in turn. *)
Lemma infer_mapping_run IDs pseudonyms self xml raw :
  xml_data self = Some xml →
  raw_data self = Some raw →
  enumerates IDs (xml_student_id <$> xml) →
  None ∉ IDs ∨ pseudonyms = [] →
  ∃ self' out,
    run (_infer_mapping_pseudonym_ID IDs pseudonyms self) = (Returned self', out)
    ∧ pseudonym_ID_mapping self'
      = Some (foldl (first_match xml raw pseudonyms) ∅ IDs).
Proof.
  intros Hxml Hraw Henum Hnamed.
  unfold run, _infer_mapping_pseudonym_ID. rewrite Hxml, Hraw.
  unfold mbind, py_bind, bind. cbn [mret py_ret ret].
  rewrite (for_each_pure _ (first_match xml raw pseudonyms)).
  2:{ intros m ID o HID. apply search_spec.
      destruct Hnamed as [Hnamed|Hnone]; [left|by right].
      apply (enumerated_ID_has_times xml IDs); [done|done|].
      by intros ->. }
  set (mapping := foldl (first_match xml raw pseudonyms) ∅ IDs).
  destruct (reports_return pseudonyms (λ p, is_Some (mapping !! p))
              (λ p, "Could not match pseudonym " +:+ p) []) as [out1 H1].
  unfold report_pseudonyms. rewrite H1.
  destruct (reports_return IDs (λ ID, ID ∈ (map_to_list mapping).*2)
              (λ ID, "Could not match ID " +:+ show ID) out1) as [out2 H2].
  unfold report_IDs. rewrite H2.
  by do 2 eexists.
Qed.

(** With the null subject among the IDs and a pseudonym to try, the method
    raises [ZeroDivisionError]. *)
Lemma infer_mapping_null_subject IDs pseudonyms self xml raw :
  xml_data self = Some xml →
  raw_data self = Some raw →
  enumerates IDs (xml_student_id <$> xml) →
  None ∈ IDs → pseudonyms ≠ [] →
  (run (_infer_mapping_pseudonym_ID IDs pseudonyms self)).1
  = Raised ZeroDivisionError.
Proof.
  intros Hxml Hraw Henum Hnull Hpseudonyms.
  apply list_elem_of_split in Hnull as (before & after & ->).
  assert (Hbefore : None ∉ before).
  { destruct Henum as [Hnodup _]. apply NoDup_app in Hnodup as (_ & Hno & _).
    intros Hin. apply (Hno _ Hin). by left. }
  unfold run, _infer_mapping_pseudonym_ID. rewrite Hxml, Hraw.
  unfold mbind, py_bind, bind. cbn [mret py_ret ret].
  rewrite for_each_app.
  rewrite (for_each_pure _ (first_match xml raw pseudonyms) before).
  2:{ intros m ID o HID. apply search_spec. left.
      apply (enumerated_ID_has_times xml (before ++ None :: after)%list);
        [done|apply elem_of_app; by left|]. by intros ->. }
  rewrite for_each_cons. by rewrite search_null_subject.
Qed.

(** The claim of C3 on the candidates: with two subjects active at the same
    instant and one pseudonym, the search for the second subject takes the
    pseudonym the first search has mapped, and remaps it; a search over the
    pseudonyms not yet mapped would keep the first match. *)
Lemma mapped_pseudonym_is_a_candidate_again :
  ∃ self',
    run (_infer_mapping_pseudonym_ID [Some "a1"; Some "a2"] ["p"] twins_module)
      = (Returned self', ["Could not match ID a1"])
    ∧ pseudonym_ID_mapping self' = Some {["p" := Some "a2"]}
    ∧ run (spec_mapping twins_xml twins_raw [Some "a1"; Some "a2"] ["p"])
      = (Returned {["p" := Some "a1"]}, [])
    ∧ pseudonym_ID_mapping self'
      ≠ Some (A := gmap string (option string)) {["p" := Some "a1"]}.
Proof.
  eexists. split; [vm_compute; reflexivity|]. split; [vm_compute; reflexivity|].
  split; [vm_compute; reflexivity|]. vm_compute. discriminate.
Qed.

(** C3, amended. For each canonical ID [a], in iteration order, the
    candidates are all the pseudonyms, mapped or not, in iteration order; a
    pseudonym [b] qualifies if and only if the fraction of the instants of
    [a] that have an instant of [b] less than 60 seconds away (absolute
    difference) strictly exceeds 0.9; the first qualifying candidate is
    mapped to [a], replacing an earlier match of that pseudonym, and the
    search for [a] stops there. The method returns the mapping so built,
    unless a record without subject ID meets a pseudonym: the fraction of
    the null subject is 0/0 and the method raises. *)
Theorem reconciler_takes_first_qualifying_candidate
    IDs pseudonyms self xml raw :
  xml_data self = Some xml →
  raw_data self = Some raw →
  enumerates IDs (xml_student_id <$> xml) →
  (None ∉ IDs ∨ pseudonyms = [] →
   ∃ self' out,
     run (_infer_mapping_pseudonym_ID IDs pseudonyms self)
       = (Returned self', out)
     ∧ pseudonym_ID_mapping self'
       = Some (foldl (first_match xml raw pseudonyms) ∅ IDs))
  ∧ (None ∈ IDs → pseudonyms ≠ [] →
     (run (_infer_mapping_pseudonym_ID IDs pseudonyms self)).1
     = Raised ZeroDivisionError)
  ∧ (∀ a mapping,
       (∀ b, b ∈ pseudonyms → ¬ qualifies xml raw a b) →
       first_match xml raw pseudonyms mapping a = mapping)
  ∧ (∀ a mapping before b after,
       pseudonyms = (before ++ b :: after)%list →
       (∀ b', b' ∈ before → ¬ qualifies xml raw a b') →
       qualifies xml raw a b →
       first_match xml raw pseudonyms mapping a = <[b := a]> mapping).
Proof.
  intros Hxml Hraw Henum. split; [by apply infer_mapping_run|].
  split; [by apply (infer_mapping_null_subject IDs pseudonyms self xml raw)|].
  split.
  - intros a mapping Hnone. unfold first_match.
    rewrite (proj2 (list_find_None _ _)); [done|].
    by apply Forall_forall.
  - intros a mapping before b after -> Hbefore Hb. unfold first_match.
    rewrite (list_find_app_r _ _ _ (proj2 (list_find_None _ _)
               (proj2 (Forall_forall _ _) Hbefore))).
    cbn [list_find]. by rewrite decide_True.
Qed.

Lemma reconciler_takes_first_qualifying_candidate_witness :
  xml_data twins_module = Some twins_xml
  ∧ raw_data twins_module = Some twins_raw
  ∧ enumerates [Some "a1"; Some "a2"] (xml_student_id <$> twins_xml)
  ∧ ∃ self' out,
      run (_infer_mapping_pseudonym_ID [Some "a1"; Some "a2"] ["p"] twins_module)
        = (Returned self', out)
      ∧ pseudonym_ID_mapping self'
        = Some (foldl (first_match twins_xml twins_raw ["p"]) ∅
                  [Some "a1"; Some "a2"]).
Proof.
  assert (Henum : enumerates [Some "a1"; Some "a2"]
                    (xml_student_id <$> twins_xml)).
  { split; [|intros x; reflexivity].
    apply (bool_decide_unpack _). vm_compute. exact I. }
  split; [reflexivity|]. split; [reflexivity|]. split; [exact Henum|].
  apply (proj1 (reconciler_takes_first_qualifying_candidate
                  [Some "a1"; Some "a2"] ["p"] twins_module twins_xml twins_raw
                  eq_refl eq_refl Henum)).
  left. apply (bool_decide_unpack _). vm_compute. exact I.
Defined.

(** The mapping after the searches for the subjects of [IDs]: its values
    are among [IDs], each came from a qualifying pair, and no two
    pseudonyms share one. *)
Lemma first_match_fold xml raw pseudonyms IDs :
  NoDup IDs →
  let mapping := foldl (first_match xml raw pseudonyms) ∅ IDs in
  (∀ p a, mapping !! p = Some a →
          a ∈ IDs ∧ p ∈ pseudonyms ∧ qualifies xml raw a p)
  ∧ (∀ p1 p2 a, mapping !! p1 = Some a → mapping !! p2 = Some a → p1 = p2).
Proof.
  induction IDs as [|a IDs IH] using rev_ind; intros Hnodup; cbn zeta.
  - split; [intros p a H | intros p1 p2 a H _];
      cbn [foldl] in H; by rewrite lookup_empty in H.
  - apply NoDup_app in Hnodup as (Hnodup & Hfresh & _).
    destruct (IH Hnodup) as [Hgood Hinj]. clear IH. cbn zeta in Hgood, Hinj.
    rewrite foldl_snoc.
    set (mapping := foldl (first_match xml raw pseudonyms) ∅ IDs) in *.
    assert (Hnew : ∀ p, mapping !! p ≠ Some a).
    { intros p Hp. apply Hgood in Hp as [Hin _].
      apply (Hfresh a Hin). by left. }
    unfold first_match.
    destruct (list_find (qualifies xml raw a) pseudonyms) as [[i b]|] eqn:E.
    + apply list_find_Some in E as (Hb & Hq & _).
      apply list_elem_of_lookup_2 in Hb. split.
      * intros p a'. rewrite lookup_insert. case_decide as Hp.
        -- intros [= <-]. subst p.
           split; [apply elem_of_app; right; by left|done].
        -- intros (Hin & ? & ?)%Hgood.
           split; [apply elem_of_app; by left|done].
      * intros p1 p2 a'. rewrite !lookup_insert.
        repeat case_decide; subst; try done.
        -- intros [= <-] Hp2. by destruct (Hnew p2).
        -- intros Hp1 [= <-]. by destruct (Hnew p1).
        -- apply Hinj.
    + split; [|done]. intros p a' (Hin & ? & ?)%Hgood.
      split; [apply elem_of_app; by left|done].
Qed.

(** C4. The mapping the reconciler produces is an injective partial
    function from pseudonyms to canonical IDs: whenever the method returns,
    two distinct pseudonyms of its mapping have distinct IDs, every entry
    comes from a pair that qualified, and a pseudonym that qualifies for no
    ID is absent from the mapping. The method returns when every record of
    the table carries a subject ID. *)
Theorem reconciler_mapping_is_injective IDs pseudonyms self xml raw :
  xml_data self = Some xml →
  raw_data self = Some raw →
  enumerates IDs (xml_student_id <$> xml) →
  (None ∉ IDs →
   ∃ self' out mapping,
     run (_infer_mapping_pseudonym_ID IDs pseudonyms self)
       = (Returned self', out)
     ∧ pseudonym_ID_mapping self' = Some mapping)
  ∧ ∀ self' out mapping,
      run (_infer_mapping_pseudonym_ID IDs pseudonyms self)
        = (Returned self', out) →
      pseudonym_ID_mapping self' = Some mapping →
      (∀ p1 p2 a1 a2, p1 ≠ p2 →
         mapping !! p1 = Some a1 → mapping !! p2 = Some a2 → a1 ≠ a2)
      ∧ (∀ p a, mapping !! p = Some a →
                a ∈ IDs ∧ p ∈ pseudonyms ∧ qualifies xml raw a p)
      ∧ (∀ p, (∀ a, a ∈ IDs → ¬ qualifies xml raw a p) → mapping !! p = None).
Proof.
  intros Hxml Hraw Henum. split.
  { intros Hnamed.
    destruct (infer_mapping_run IDs pseudonyms self xml raw Hxml Hraw Henum
                (or_introl Hnamed)) as (self' & out & Hrun & Hmapping).
    by exists self', out, (foldl (first_match xml raw pseudonyms) ∅ IDs). }
  intros self' out mapping Hrun Hmapping.
  assert (Hnamed : None ∉ IDs ∨ pseudonyms = []).
  { destruct (decide (None ∈ IDs)) as [Hnull|]; [|by left].
    destruct pseudonyms as [|p pseudonyms]; [by right|].
    pose proof (infer_mapping_null_subject IDs (p :: pseudonyms) self xml raw
                  Hxml Hraw Henum Hnull) as Hraise.
    rewrite Hrun in Hraise. by specialize (Hraise ltac:(done)). }
  destruct (infer_mapping_run IDs pseudonyms self xml raw Hxml Hraw Henum Hnamed)
    as (self0 & out0 & Hrun0 & Hmapping0).
  rewrite Hrun in Hrun0. injection Hrun0 as <- <-.
  rewrite Hmapping in Hmapping0. injection Hmapping0 as ->.
  destruct (first_match_fold xml raw pseudonyms IDs (proj1 Henum))
    as [Hgood Hinj]. cbn zeta in Hgood, Hinj.
  split; [|split; [done|]].
  - intros p1 p2 a1 a2 Hne H1 H2 ->. apply Hne. by apply (Hinj p1 p2 a2).
  - intros p Hnone.
    destruct (foldl (first_match xml raw pseudonyms) ∅ IDs !! p) as [a|] eqn:E;
      [|done].
    apply Hgood in E as (Hin & _ & Hq). by destruct (Hnone a Hin).
Qed.

Lemma reconciler_mapping_is_injective_witness :
  xml_data pair_module = Some pair_xml
  ∧ raw_data pair_module = Some pair_raw
  ∧ enumerates [Some "u1"; Some "u2"] (xml_student_id <$> pair_xml)
  ∧ (None ∉ [Some "u1"; Some "u2"])
  ∧ ∃ self' mapping,
      run (_infer_mapping_pseudonym_ID [Some "u1"; Some "u2"]
             ["p3"; "p1"; "p2"] pair_module)
        = (Returned self', ["Could not match pseudonym p3"])
      ∧ pseudonym_ID_mapping self' = Some mapping
      ∧ mapping !! "p1" = Some (Some "u1")
      ∧ mapping !! "p2" = Some (Some "u2")
      ∧ mapping !! "p3" = None
      ∧ (∀ p1 p2 a1 a2, p1 ≠ p2 →
           mapping !! p1 = Some a1 → mapping !! p2 = Some a2 → a1 ≠ a2)
      ∧ (∀ p a, mapping !! p = Some a →
           a ∈ [Some "u1"; Some "u2"] ∧ p ∈ ["p3"; "p1"; "p2"]
           ∧ qualifies pair_xml pair_raw a p).
Proof.
  assert (Henum : enumerates [Some "u1"; Some "u2"]
                    (xml_student_id <$> pair_xml)).
  { split; [apply (bool_decide_unpack _); vm_compute; exact I|].
    intros x. change (xml_student_id <$> pair_xml)
      with [Some "u1"; Some "u1"; Some "u2"].
    rewrite !elem_of_cons, !elem_of_nil. tauto. }
  assert (Hnamed : None ∉ [Some "u1"; Some "u2"])
    by (apply (bool_decide_unpack _); vm_compute; exact I).
  split; [reflexivity|]. split; [reflexivity|]. split; [exact Henum|].
  split; [exact Hnamed|].
  assert (∃ self' mapping,
            run (_infer_mapping_pseudonym_ID [Some "u1"; Some "u2"]
                   ["p3"; "p1"; "p2"] pair_module)
              = (Returned self', ["Could not match pseudonym p3"])
            ∧ pseudonym_ID_mapping self' = Some mapping
            ∧ mapping !! "p1" = Some (Some "u1")
            ∧ mapping !! "p2" = Some (Some "u2")
            ∧ mapping !! "p3" = None)
    as (self' & mapping & Hrun & Hmapping & Hp1 & Hp2 & Hp3).
  { eexists _, _. split; [vm_compute; reflexivity|].
    split; [reflexivity|]. split; [vm_compute; reflexivity|].
    split; vm_compute; reflexivity. }
  destruct (reconciler_mapping_is_injective
              [Some "u1"; Some "u2"] ["p3"; "p1"; "p2"] pair_module
              pair_xml pair_raw eq_refl eq_refl Henum) as [_ Hinjective].
  destruct (Hinjective self' _ mapping Hrun Hmapping)
    as (Hdistinct & Hqualified & _).
  exists self', mapping.
  split; [exact Hrun|]. split; [exact Hmapping|]. split; [exact Hp1|].
  split; [exact Hp2|]. split; [exact Hp3|].
  split; [exact Hdistinct|exact Hqualified].
Defined.

End reconciler_facts.

(** ** The session resolver *)

Section resolver_facts.
Import Resolver Scenario.

Lemma activity_name_inj skill : Inj (=) (=) (activity_name skill).
Proof.
  intros j k H. unfold activity_name in H.
  apply (inj (String.app skill)), (inj (String.app "_Q")) in H.
  by apply (inj pretty) in H.
Qed.

(** As many activities as sessions probed so far: the table bounds them. *)
Lemma probed_sessions_bounded activities skill n :
  (∀ j, (1 ≤ j ≤ n)%nat → activity_name skill j ∈ activities) →
  (n ≤ length activities)%nat.
Proof.
  intros Hall.
  rewrite <- (length_seq n 1), <- (length_fmap (activity_name skill)).
  apply submseteq_length, NoDup_submseteq.
  - apply NoDup_fmap_2; [apply activity_name_inj | apply NoDup_seq].
  - intros x (j & -> & Hj%elem_of_seq)%list_elem_of_fmap. apply Hall. lia.
Qed.

(** The loop ends within the fuel of one more than the rows of the table,
    at the first gap. *)
Lemma probe_contiguous fuel activities skill n :
  (∀ j, (1 ≤ j ≤ n)%nat → activity_name skill j ∈ activities) →
  (length activities < fuel + n)%nat →
  ∃ k, probe fuel activities skill n = Some k ∧ contiguous activities skill k.
Proof.
  revert n. induction fuel as [|fuel IH]; intros n Hall Hfuel.
  - apply probed_sessions_bounded in Hall. lia.
  - cbn [probe]. case_decide as Hnext.
    + apply IH; [|lia]. intros j Hj.
      destruct (decide (j = n + 1)%nat) as [->|]; [done|]. apply Hall. lia.
    + exists n. done.
Qed.

Lemma contiguous_unique activities skill k k' :
  contiguous activities skill k → contiguous activities skill k' → k = k'.
Proof.
  intros [Hk Hk1] [Hk' Hk1'].
  destruct (decide (k < k')%nat); [destruct Hk1; apply Hk'; lia|].
  destruct (decide (k' < k)%nat); [destruct Hk1'; apply Hk; lia|]. lia.
Qed.

Section od_facts.
Context {K : Type} `{EqDecision K} {V : Type}.
Implicit Types (d : list (K * V)).

Lemma od_get_set_eq k v d : od_get k (od_set k v d) = Some v.
Proof.
  induction d as [|[k' v'] d IH]; cbn; [by rewrite decide_True|].
  case_decide; cbn; [by rewrite decide_True|by rewrite decide_False].
Qed.

Lemma od_get_set_ne k k' v d : k ≠ k' → od_get k' (od_set k v d) = od_get k' d.
Proof.
  intros Hne. induction d as [|[k0 v0] d IH]; cbn; [by rewrite decide_False|].
  destruct (decide (k0 = k)) as [->|]; cbn.
  - by rewrite !decide_False.
  - by rewrite IH.
Qed.

Lemma od_set_values k v d v' : v' ∈ (od_set k v d).*2 → v' = v ∨ v' ∈ d.*2.
Proof.
  induction d as [|[k0 v0] d IH]; cbn.
  - intros ->%list_elem_of_singleton. by left.
  - case_decide; cbn; rewrite !elem_of_cons; [tauto|].
    intros [->|Hin]; [right; by left|]. destruct (IH Hin); tauto.
Qed.

Lemma od_get_values k v d : od_get k d = Some v → v ∈ d.*2.
Proof.
  induction d as [|[k0 v0] d IH]; cbn; [done|].
  case_decide; [intros [= ->]; by left|]. intros Hd. right. by apply IH.
Qed.
End od_facts.

(** The dictionary of the loop over the skills. *)
Lemma counts_spec (count : string → nat) (skills : list string) :
  let counts := foldl (λ d skill, od_set skill (count skill) d) [] skills in
  (∀ v, v ∈ counts.*2 → ∃ skill, skill ∈ skills ∧ v = count skill)
  ∧ (∀ skill, skill ∈ skills → od_get skill counts = Some (count skill)).
Proof.
  induction skills as [|skill skills [IHv IHk]] using rev_ind; cbn zeta.
  - split; intros ? Hin; by apply elem_of_nil in Hin.
  - rewrite foldl_snoc. split.
    + intros v [->|Hin]%od_set_values.
      * exists skill. split; [apply elem_of_app; right; by left|done].
      * destruct (IHv v Hin) as (skill' & Hin' & ->).
        exists skill'. split; [apply elem_of_app; by left|done].
    + intros skill' Hin.
      destruct (decide (skill = skill')) as [->|Hne]; [apply od_get_set_eq|].
      rewrite od_get_set_ne by done.
      apply elem_of_app in Hin as [Hin|Hin%list_elem_of_singleton]; [|done].
      by apply IHk.
Qed.

(** [max] of a list that is not empty: one of its elements, and a bound of
    all. *)
Lemma maximum_spec (values : list nat) out :
  values ≠ [] →
  ∃ n, maximum values out = (Returned n, out)
       ∧ n ∈ values ∧ ∀ v, v ∈ values → (v ≤ n)%nat.
Proof.
  destruct values as [|v values]; [done|]. intros _.
  eexists. split; [reflexivity|].
  revert v. induction values as [|w values IH]; intros v; cbn [foldl].
  - split; [by left|]. by intros ? ->%list_elem_of_singleton.
  - destruct (IH (v `max` w)%nat) as [Hin Hle]. split.
    + apply elem_of_cons in Hin as [Heq|Hin]; [|by do 2 right].
      rewrite Heq. destruct (Nat.max_spec_le v w) as [[_ ->]|[_ ->]];
        [right|]; by left.
    + intros x [->|[->|Hx]%elem_of_cons]%elem_of_cons.
      * etrans; [apply (Nat.le_max_l _ w)|]. apply Hle. by left.
      * etrans; [apply (Nat.le_max_r v)|]. apply Hle. by left.
      * apply Hle. by right.
Qed.

(** C7. When the session count is inferred from a table that has been
    read, with at least one skill configured, the method returns and sets
    [n_sessions] to an integer [n] such that every skill has contiguous
    sessions up to some [k ≤ n] (its probe from 1 upward stops at the first
    gap) and some skill has contiguous sessions up to [n] itself: the
    maximum of the per-skill counts. With Password at sessions 1 and 2 and
    Backup at sessions 1 and 3 the count is 2: the probe of Backup stops
    at 1. *)
Theorem inferred_sessions_are_the_largest_contiguous_run :
  (∀ (self : learning_module) (rows : list attempt),
     results_read self = true →
     full_results self = Some rows →
     skills self ≠ [] →
     ∃ (n : nat) self',
       run (infer_n_sessions_from_full_results self false)
         = (Returned self', [])
       ∧ n_sessions self' = PyInt (Z.of_nat n)
       ∧ n_sessions_input self' = true
       ∧ (∀ skill, skill ∈ skills self →
            ∃ k, contiguous (activity_title <$> rows) skill k ∧ (k ≤ n)%nat)
       ∧ (∃ skill, skill ∈ skills self
                   ∧ contiguous (activity_title <$> rows) skill n))
  ∧ (∃ self',
       run (infer_n_sessions_from_full_results gap_results false)
         = (Returned self', [])
       ∧ n_sessions self' = PyInt 2
       ∧ contiguous (activity_title <$> default [] (full_results gap_results))
           "Password" 2
       ∧ contiguous (activity_title <$> default [] (full_results gap_results))
           "Backup" 1
       ∧ "Backup_Q3" ∈ activity_title <$> default [] (full_results gap_results)).
Proof.
  split.
  - intros self rows Hread Hrows Hskills.
    set (activities := activity_title <$> rows).
    set (count := λ skill,
           default 0%nat (probe (S (length activities)) activities skill 0)).
    assert (Hcount : ∀ skill,
              probe (S (length activities)) activities skill 0
                = Some (count skill)
              ∧ contiguous activities skill (count skill)).
    { intros skill.
      destruct (probe_contiguous (S (length activities)) activities skill 0)
        as (k & Hk & Hcont); [intros j Hj; lia | lia |].
      unfold count. rewrite Hk. done. }
    assert (Hloop : ∀ out,
              for_each (skills self) (count_sessions self) [] out
              = (Returned (foldl (λ d skill, od_set skill (count skill) d)
                             [] (skills self)), out)).
    { intros out. apply for_each_pure. intros d skill o _.
      unfold count_sessions. rewrite Hrows.
      unfold mbind, py_bind, bind, mret, py_ret, ret at 1.
      change (activity_title <$> rows) with activities.
      by rewrite (proj1 (Hcount skill)). }
    destruct (counts_spec count (skills self)) as [Hvalues Hkeys].
    cbn zeta in Hvalues, Hkeys.
    set (counts := foldl (λ d skill, od_set skill (count skill) d)
                     [] (skills self)) in *.
    destruct (maximum_spec (counts.*2) []) as (n & Hmax & Hin & Hle).
    { destruct (skills self) as [|skill skills'] eqn:E; [done|].
      intros Hnil. specialize (Hkeys skill (ltac:(by left))).
      apply od_get_values in Hkeys. rewrite Hnil in Hkeys.
      by apply elem_of_nil in Hkeys. }
    exists n. eexists. split.
    { unfold run, infer_n_sessions_from_full_results.
      rewrite Hread. unfold mbind, py_bind, bind. rewrite Hloop. cbn.
      fold counts. rewrite Hmax. reflexivity. }
    split; [reflexivity|]. split; [reflexivity|]. split.
    + intros skill Hskill. exists (count skill).
      split; [apply Hcount|]. apply Hle. eapply od_get_values. by apply Hkeys.
    + destruct (Hvalues n Hin) as (skill & Hskill & ->).
      exists skill. split; [done|apply Hcount].
  - eexists. split; [vm_compute; reflexivity|]. split; [reflexivity|].
    cbn. unfold contiguous.
    repeat split.
    + intros j Hj. assert (j = 1 ∨ j = 2)%nat as [->| ->] by lia;
        apply (bool_decide_unpack _); vm_compute; exact I.
    + apply (bool_decide_unpack _); vm_compute; exact I.
    + intros j Hj. assert (j = 1)%nat as -> by lia.
      apply (bool_decide_unpack _); vm_compute; exact I.
    + apply (bool_decide_unpack _); vm_compute; exact I.
    + apply (bool_decide_unpack _); vm_compute; exact I.
Qed.

Lemma inferred_sessions_witness :
  results_read gap_results = true
  ∧ skills gap_results ≠ []
  ∧ ∃ (n : nat) self',
      run (infer_n_sessions_from_full_results gap_results false)
        = (Returned self', [])
      ∧ n_sessions self' = PyInt (Z.of_nat n)
      ∧ n_sessions_input self' = true.
Proof.
  split; [reflexivity|]. split; [discriminate|].
  destruct (proj1 inferred_sessions_are_the_largest_contiguous_run
              gap_results _ eq_refl eq_refl)
    as (n & self' & Hrun & Hn & Hinput & _); [discriminate|].
  exists n, self'. split; [exact Hrun|]. split; [exact Hn|exact Hinput].
Defined.

End resolver_facts.

(** ** The outcome aggregator *)

Section aggregator_facts.
Import Aggregator Scenario.

(** C2. The claim: after aggregation [first_answer_date] is the minimum and
    [last_answer_date] the maximum of the first-attempt instants of the
    populated cells. The code for a subject whose only first attempt is at
    2024-01-01 10:00:00: both attributes keep the instants they were
    initialised with, 1900-01-01 and 2200-01-01. *)
Theorem answer_dates_keep_initial_instants :
  ∃ self' p,
    run (_read_participant_results backup_results (new_participant "u1"))
      = (Returned (self', p), [])
    ∧ flatten (answer_date p) = [Some ten_o_clock]
    ∧ earliest p = Some ten_o_clock
    ∧ latest p = Some ten_o_clock
    ∧ first_answer_date p = Some (datetime 1900 1 1 0 0 0)
    ∧ last_answer_date p = Some (datetime 2200 1 1 0 0 0)
    ∧ first_answer_date p ≠ earliest p
    ∧ last_answer_date p ≠ latest p.
Proof.
  do 2 eexists. split; [vm_compute; reflexivity|].
  repeat split; try (vm_compute; reflexivity); vm_compute; discriminate.
Qed.

End aggregator_facts.

(** ** The first and last answer dates in general *)

Section answer_date_facts.
Import Aggregator.

(** Between the two instants a cell leaves the two attributes alone. *)
Lemma read_cell_keeps_bounds rows skill session st out (lo hi : Z) :
  Forall (λ r, lo ≤ date_created r ≤ hi)%Z rows →
  first_answer_date (subject st) = Some lo →
  last_answer_date (subject st) = Some hi →
  ∃ st', read_cell rows skill st session out = (Returned st', out)
         ∧ first_answer_date (subject st') = Some lo
         ∧ last_answer_date (subject st') = Some hi.
Proof.
  intros Hrows Hlo Hhi. unfold read_cell, first_try.
  set (found := filter (λ r, attempt_no r = 1%Z) _).
  assert (Hfound : Forall (λ r, lo ≤ date_created r ≤ hi)%Z found).
  { apply Forall_forall. intros r [_ [_ Hr]%list_elem_of_filter]%list_elem_of_filter.
    rewrite Forall_forall in Hrows. by apply Hrows. }
  destruct found as [|row found];
    unfold mbind, py_bind, bind, try_except, item0, raise, mret, py_ret, ret.
  - rewrite decide_True by done. eexists. split; [reflexivity|]. done.
  - apply Forall_cons in Hfound as [Hrow _].
    rewrite Hlo, Hhi. unfold instant, mret, py_ret, ret.
    rewrite !decide_False by lia. eexists. split; [reflexivity|]. done.
Qed.

(** With every date of the table between 1900-01-01 and 2200-01-01 the
    aggregator returns a participant whose first and last answer dates are
    the two instants it starts from. *)
Lemma answer_dates_stay_initial self p rows n :
  n_sessions_input self = true →
  n_sessions self = PyInt n →
  full_results self = Some rows →
  Forall (λ r, datetime 1900 1 1 0 0 0 ≤ date_created r
               ≤ datetime 2200 1 1 0 0 0)%Z rows →
  ∃ self' p',
    run (_read_participant_results self p) = (Returned (self', p'), [])
    ∧ first_answer_date p' = Some (datetime 1900 1 1 0 0 0)
    ∧ last_answer_date p' = Some (datetime 2200 1 1 0 0 0).
Proof.
  intros Hinput Hn Hrows Hdates.
  unfold run, _read_participant_results. rewrite Hinput.
  unfold mbind, py_bind, bind. cbn [mret py_ret ret]. rewrite Hn. cbn [integer mret py_ret ret].
  rewrite Hrows.
  set (mine := filter (λ r, student_id r = ID p) rows).
  assert (Hmine : Forall (λ r, datetime 1900 1 1 0 0 0 ≤ date_created r
                               ≤ datetime 2200 1 1 0 0 0)%Z mine).
  { apply Forall_forall. intros r [_ Hr]%list_elem_of_filter.
    rewrite Forall_forall in Hdates. by apply Hdates. }
  change ((mret rows : py (list attempt)) []) with (Returned rows, @nil string).
  cbv beta iota.
  fold mine.
  match goal with
  | |- context [for_each (skills self) ?body ?s0 []] =>
      destruct (for_each_total
                  (λ st, first_answer_date (subject st)
                           = Some (datetime 1900 1 1 0 0 0)
                         ∧ last_answer_date (subject st)
                           = Some (datetime 2200 1 1 0 0 0))
                  body (skills self) s0 [])
        as (st & Hst & Hfirst & Hlast)
  end.
  - intros st skill out Hst. apply for_each_total; [|done].
    intros st' session out' [Hfirst Hlast].
    by apply read_cell_keeps_bounds.
  - done.
  - rewrite Hst. do 2 eexists. split; [reflexivity|]. done.
Qed.

End answer_date_facts.

(** ** The cumulative series *)

Section cumulative_facts.
Import Cumulative.
Implicit Types (seen : gmap Z nat) (dates : list Z).

Lemma sum_list_perm (l k : list nat) : l ≡ₚ k → sum_list l = sum_list k.
Proof. induction 1; cbn; lia. Qed.

(** One more date: the tallies stay positive and their sum grows by one. *)
Lemma tally_step seen (date : Z) :
  let seen' := match seen !! date with
               | None => <[date := 1%nat]> seen
               | Some n => <[date := (n + 1)%nat]> seen
               end in
  map_Forall (λ _ n, 1 ≤ n)%nat seen →
  map_Forall (λ _ n, 1 ≤ n)%nat seen'
  ∧ sum_list (map_to_list seen').*2 = S (sum_list (map_to_list seen).*2).
Proof.
  cbn zeta. intros Hpos. destruct (seen !! date) as [n|] eqn:E.
  - split; [apply map_Forall_insert_2; [lia|done]|].
    rewrite <- insert_delete_eq.
    rewrite (sum_list_perm _ _ (fmap_Permutation snd _ _
               (map_to_list_insert (delete date seen) date (n + 1)%nat
                  (lookup_delete_eq seen date)))).
    rewrite <- (sum_list_perm _ _ (fmap_Permutation snd _ _
                  (map_to_list_delete seen date n E))).
    cbn. lia.
  - split; [apply map_Forall_insert_2; [lia|done]|].
    rewrite (sum_list_perm _ _ (fmap_Permutation snd _ _
               (map_to_list_insert seen date 1%nat E))).
    done.
Qed.

Lemma tally_spec (cells : list (option Z)) seen :
  map_Forall (λ _ n, 1 ≤ n)%nat seen →
  map_Forall (λ _ n, 1 ≤ n)%nat (tally cells seen)
  ∧ sum_list (map_to_list (tally cells seen)).*2
    = (sum_list (map_to_list seen).*2 + length (omap id cells))%nat.
Proof.
  unfold tally. revert seen.
  induction cells as [|[date|] cells IH]; intros seen Hpos; cbn [foldl].
  - split; [done|]. cbn. lia.
  - destruct (tally_step seen date Hpos) as [Hpos' Hsum].
    destruct (IH _ Hpos') as [Hpos'' Hsum'']. split; [done|].
    rewrite Hsum'', Hsum.
    change (omap id (Some date :: cells)) with (date :: omap id cells).
    cbn [length]. lia.
  - change (omap id (None :: cells)) with (omap id cells). by apply IH.
Qed.

(** [flatten] lists the cells at the positions of the table, in their
    order. *)
Lemma flatten_positions {V} (t : table V) :
  flatten t = (λ pos, cells t !! pos) <$> positions t.
Proof.
  unfold flatten, positions. destruct t as [sessions skills cs]. cbn.
  induction sessions as [|session sessions IH]; [done|].
  cbn [list_prod mbind list_bind]. rewrite fmap_app, <- IH. f_equal.
  clear IH. induction skills as [|skill skills IH]; [done|].
  cbn. by rewrite IH.
Qed.

Lemma length_omap_filter {A B} (g : A → option B) (l : list A) :
  length (omap g l) = length (filter (λ x, is_Some (g x)) l).
Proof.
  induction l as [|x l IH]; [done|]. rewrite filter_cons. cbn.
  destruct (g x) as [b|]; cbn.
  - rewrite decide_True by done. cbn. by rewrite IH.
  - rewrite decide_False by (by intros [? ?]). done.
Qed.

Lemma omap_id_fmap {A B} (g : A → option B) (l : list A) :
  omap id (g <$> l) = omap g l.
Proof.
  induction l as [|x l IH]; [done|]. cbn. rewrite IH. by destruct (g x).
Qed.

Lemma populated_cons p (participants : list participant) :
  populated (p :: participants)
  = (length (omap id (flatten (answer_date p))) + populated participants)%nat.
Proof.
  unfold populated, populated_cells. cbn [fmap list_fmap sum_list].
  by rewrite flatten_positions, omap_id_fmap, length_omap_filter.
Qed.

Lemma group_tally_spec (participants : list participant) seen :
  map_Forall (λ _ n, 1 ≤ n)%nat seen →
  let seen' := foldl (λ seen p, tally (flatten (answer_date p)) seen)
                 seen participants in
  map_Forall (λ _ n, 1 ≤ n)%nat seen'
  ∧ sum_list (map_to_list seen').*2
    = (sum_list (map_to_list seen).*2 + populated participants)%nat.
Proof.
  cbn zeta. revert seen.
  induction participants as [|p participants IH]; intros seen Hpos; cbn [foldl].
  - split; [done|]. change (populated []) with 0%nat. lia.
  - destruct (tally_spec (flatten (answer_date p)) seen Hpos) as [Hpos' Hsum].
    destruct (IH _ Hpos') as [Hpos'' Hsum'']. split; [done|].
    rewrite Hsum'', Hsum, populated_cons. lia.
Qed.

(** The dates of the series are the sorted keys. *)
Lemma accumulate_dates seen dates accumulated :
  (accumulate seen dates accumulated).*1 = dates.
Proof.
  revert accumulated. induction dates as [|d dates IH]; intros a; [done|].
  cbn. by rewrite IH.
Qed.

(** The counts never fall below the count they start from, nor below an
    earlier count. *)
Lemma accumulate_monotone seen dates accumulated :
  Forall (λ n, accumulated ≤ n)%nat (accumulate seen dates accumulated).*2
  ∧ StronglySorted le (accumulate seen dates accumulated).*2.
Proof.
  revert accumulated. induction dates as [|d dates IH]; intros a; cbn.
  - split; constructor.
  - destruct (IH (a + seen !!! d)%nat) as [Hge Hsorted]. split.
    + constructor; [lia|]. eapply Forall_impl; [exact Hge|]. cbn. lia.
    + constructor; [done|]. done.
Qed.

Lemma accumulate_last seen dates accumulated :
  last (accumulate seen dates accumulated).*2
  = match dates with
    | [] => None
    | _ => Some (accumulated + sum_list ((seen !!!.) <$> dates))%nat
    end.
Proof.
  revert accumulated. induction dates as [|d dates IH]; intros a; [done|].
  cbn [accumulate fmap list_fmap snd]. rewrite last_cons, IH.
  destruct dates; cbn; f_equal; lia.
Qed.

Lemma sorted_dates_perm seen : sorted_dates seen ≡ₚ (map_to_list seen).*1.
Proof. apply merge_sort_Permutation. Qed.

Lemma strictly_sorted (l : list Z) :
  NoDup l → StronglySorted Z.le l → StronglySorted Z.lt l.
Proof.
  induction 2 as [|x l Hl IH Hx]; [constructor|].
  apply NoDup_cons in H as [Hnotin Hnodup].
  constructor; [by apply IH|].
  apply Forall_forall. intros y Hy.
  rewrite Forall_forall in Hx. specialize (Hx y Hy).
  destruct (decide (x = y)) as [->|]; [done|]. lia.
Qed.

Lemma sorted_dates_total seen :
  sum_list ((seen !!!.) <$> sorted_dates seen) = sum_list (map_to_list seen).*2.
Proof.
  rewrite (sum_list_perm _ _ (fmap_Permutation _ _ _ (sorted_dates_perm seen))).
  f_equal. rewrite <- list_fmap_compose. apply list_fmap_ext.
  intros i [d n] Hi. cbn. apply lookup_total_correct.
  apply elem_of_map_to_list, list_elem_of_lookup. eauto.
Qed.

(** C8. The cumulative-answers-by-date series of a group of participants
    has its dates in strictly ascending order and its running counts in
    non-decreasing order, and its final count is the number of populated
    cells of the answer-date tables of the group (the series is empty when
    no cell is populated). The series of a single participant is that of
    the group made of this participant. *)
Theorem cumulative_series_monotone_and_complete
    (participants : list participant) :
  let series := _cumulative_answers_by_date participants in
  StronglySorted Z.lt series.*1
  ∧ StronglySorted le series.*2
  ∧ last series.*2
    = (if decide (populated participants = 0)%nat then None
       else Some (populated participants))
  ∧ (∀ p, accumulated_by_date (participant_cumulative_answers_by_date p)
          = _cumulative_answers_by_date [p])
  ∧ _cumulative_answers_by_date [Scenario.ann; Scenario.ben]
    = [(Scenario.ten_o_clock, 2%nat); ((Scenario.ten_o_clock + 60)%Z, 4%nat)]
  ∧ populated [Scenario.ann; Scenario.ben] = 4%nat.
Proof.
  cbn zeta. unfold _cumulative_answers_by_date at 1 2 3.
  set (seen := foldl (λ seen p, tally (flatten (answer_date p)) seen)
                 ∅ participants).
  destruct (group_tally_spec participants ∅) as [Hpos Hsum];
    [apply map_Forall_empty|]. cbn zeta in Hpos, Hsum. fold seen in Hpos, Hsum.
  rewrite map_to_list_empty in Hsum. cbn in Hsum.
  split; [|split; [|split; [|split; [|split; vm_compute; reflexivity]]]].
  - rewrite accumulate_dates. apply strictly_sorted.
    + rewrite sorted_dates_perm. apply NoDup_fst_map_to_list.
    + apply StronglySorted_merge_sort; apply _.
  - apply accumulate_monotone.
  - rewrite accumulate_last, <- Hsum.
    destruct (sorted_dates seen) as [|d dates] eqn:E.
    + pose proof (sorted_dates_total seen) as Htotal. rewrite E in Htotal.
      cbn in Htotal. rewrite <- Htotal. done.
    + rewrite <- E, sorted_dates_total. cbn.
      assert (d ∈ (map_to_list seen).*1) as ([d' n] & -> & Hin)%list_elem_of_fmap.
      { rewrite <- sorted_dates_perm, E. by left. }
      pose proof Hin as Hn%elem_of_map_to_list%Hpos. cbn in Hn.
      apply list_elem_of_split in Hin as (l1 & l2 & Hsplit).
      rewrite Hsplit, fmap_app, sum_list_with_app. cbn.
      rewrite decide_False by lia. done.
  - done.
Qed.

End cumulative_facts.

(** * Further properties *)

(** ** The table of [import_datashop] *)

Section table_facts.
Import Datashop Table.
Context (lower : string → string).

(** The four lists after the records [rows] have been appended. *)
Lemma append_answers anon m t cols outcomes :
  let cols' := foldl (append_answer anon m t) cols outcomes in
  IDs cols' = (IDs cols ++ ((λ _, anon) <$> outcomes))%list
  ∧ answer_dates cols' = (answer_dates cols ++ ((λ _, t) <$> outcomes))%list
  ∧ activity_titles cols' = (activity_titles cols ++ ((λ _, m) <$> outcomes))%list
  ∧ correct cols' = (correct cols ++ outcomes)%list.
Proof.
  cbn zeta. revert cols. induction outcomes as [|ic outcomes IH]; intros cols.
  - cbn [foldl]. repeat split; symmetry; apply app_nil_r.
  - cbn [foldl]. destruct (IH (append_answer anon m t cols ic)) as (-> & -> & -> & ->).
    rewrite !fmap_cons. cbn [append_answer IDs answer_dates activity_titles correct].
    by rewrite <- !app_assoc.
Qed.

Lemma columns_hold_outcomes anon m t cols rows outcomes :
  columns_hold cols rows →
  columns_hold (foldl (append_answer anon m t) cols outcomes)
    (rows ++ (XmlRow anon t m <$> outcomes)).
Proof.
  intros (Hi & Hd & Ha & Hc).
  destruct (append_answers anon m t cols outcomes) as (Hi' & Hd' & Ha' & Hc').
  cbn zeta in *. unfold columns_hold.
  rewrite Hi', Hd', Ha', Hc', Hi, Hd, Ha, Hc, !fmap_app, <- !list_fmap_compose.
  repeat split; f_equal. by rewrite list_fmap_id.
Qed.

Lemma columns_hold_items anon m cols rows (items : list (Z * list bool)) :
  columns_hold cols rows →
  columns_hold
    (foldl (λ cols '(t, outcomes),
       foldl (append_answer anon m t) cols outcomes) cols items)
    (rows ++ (item ← items; XmlRow anon item.1 m <$> item.2)).
Proof.
  revert cols rows. induction items as [|[t outcomes] items IH];
    intros cols rows Hcols.
  - cbn. by rewrite app_nil_r.
  - cbn [foldl]. rewrite bind_cons, app_assoc. apply IH.
    by apply columns_hold_outcomes.
Qed.

(** With an integer session count the second loop neither prints nor
    raises, and its lists hold the columns of [table]. *)
Lemma second_pass_table skills n answers out :
  ∃ cols, second_pass lower skills (PyInt n) answers out = (Returned cols, out)
          ∧ columns_hold cols (table lower skills n answers).
Proof.
  unfold second_pass, table.
  enough (∀ cols rows, columns_hold cols rows →
    ∃ cols',
      for_each answers (λ cols '(anon, problem),
        for_each problem (λ cols '(problem_name, times),
          matched_skill ← match_skill lower skills (PyInt n) problem_name;
          if decide (matched_skill = "") then mret cols
          else mret (foldl (λ cols '(t, outcomes),
                       foldl (append_answer anon matched_skill t) cols outcomes)
                       cols (sorted_items times))) cols) cols out
      = (Returned cols', out)
      ∧ columns_hold cols'
          (rows ++ (subject ← answers; entry ← subject.2;
                    records lower skills n subject.1 entry))) as H.
  { destruct (H no_columns []) as (cols & Hrun & Hcols); [done|]. by exists cols. }
  induction answers as [|[anon problem] answers IH]; intros cols rows Hcols.
  - exists cols. cbn. by rewrite app_nil_r.
  - rewrite for_each_cons.
    assert (Hproblem : ∀ cols rows, columns_hold cols rows →
      ∃ cols',
        for_each problem (λ cols '(problem_name, times),
          matched_skill ← match_skill lower skills (PyInt n) problem_name;
          if decide (matched_skill = "") then mret cols
          else mret (foldl (λ cols '(t, outcomes),
                       foldl (append_answer anon matched_skill t) cols outcomes)
                       cols (sorted_items times))) cols out
        = (Returned cols', out)
        ∧ columns_hold cols'
            (rows ++ (entry ← problem; records lower skills n anon entry))).
    { clear. induction problem as [|[name times] problem IH]; intros cols rows Hcols.
      - exists cols. cbn. by rewrite app_nil_r.
      - rewrite for_each_cons. unfold mbind at 1, py_bind, bind.
        rewrite match_skill_fold. fold (matched lower skills n name).
        rewrite bind_cons, app_assoc.
        change (records lower skills n anon (name, times))
          with (if decide (matched lower skills n name = "") then []
                else item ← sorted_items times;
                     XmlRow anon item.1 (matched lower skills n name) <$> item.2).
        destruct (decide (matched lower skills n name = "")) as [Hm|Hm].
        + cbn [mret py_ret ret]. rewrite app_nil_r. by apply IH.
        + cbn [mret py_ret ret]. apply IH. by apply columns_hold_items. }
    destruct (Hproblem cols rows Hcols) as (cols1 & -> & Hcols1).
    rewrite bind_cons, app_assoc. cbn [fst snd]. by apply IH.
Qed.

Lemma DataFrame_rows (rows : list xml_row) out :
  DataFrame (xml_student_id <$> rows) (xml_date_created <$> rows)
    (xml_activity_title <$> rows) (xml_correct <$> rows) out
  = (Returned rows, out).
Proof.
  induction rows as [|[i d a c] rows IH]; [done|].
  cbn. unfold mbind, py_bind, bind. cbn in IH. by rewrite IH.
Qed.

End table_facts.

Section import_facts.
Import Datashop Table.
Context (strptime : string → option Z) (lower : string → string).

(** A name that matches is the lower case of a configured activity. *)
Lemma matched_spec skills n name :
  matched lower skills n name ≠ "" →
  name = lower (matched lower skills n name)
  ∧ ∃ skill k, skill ∈ skills ∧ (1 ≤ k ≤ Z.to_nat n)%nat
               ∧ matched lower skills n name = activity_name skill k.
Proof.
  intros Hm. destruct (match_skill_spec lower skills n name [])
    as (m & Hrun & Hcases).
  rewrite match_skill_fold in Hrun. injection Hrun as <-.
  fold (matched lower skills n name) in Hcases.
  destruct Hcases as [[Hempty _]|(_ & Hname & Hskill)]; done.
Qed.

Lemma elem_of_table skills n answers row :
  row ∈ table lower skills n answers ↔
  ∃ problem name times outcomes,
    (xml_student_id row, problem) ∈ answers
    ∧ (name, times) ∈ problem
    ∧ (xml_date_created row, outcomes) ∈ times
    ∧ xml_correct row ∈ outcomes
    ∧ matched lower skills n name ≠ ""
    ∧ xml_activity_title row = matched lower skills n name.
Proof.
  unfold table. rewrite list_elem_of_bind. split.
  - intros ([anon problem] & Hrow & Hsubject). cbn [fst snd] in Hrow.
    apply list_elem_of_bind in Hrow as ([name times] & Hrow & Hentry).
    unfold records in Hrow. cbn [fst snd] in Hrow.
    case_decide as Hm; [by apply elem_of_nil in Hrow|].
    apply list_elem_of_bind in Hrow as ([t outcomes] & Hrow & Hitem).
    apply list_elem_of_fmap in Hrow as (ic & -> & Hic). cbn [fst snd] in *.
    unfold sorted_items in Hitem. rewrite merge_sort_Permutation in Hitem.
    by exists problem, name, times, outcomes.
  - intros (problem & name & times & outcomes & Hs & He & Hi & Hc & Hm & Ht).
    exists (xml_student_id row, problem). split; [|done]. cbn [fst snd].
    apply list_elem_of_bind. exists (name, times). split; [|done].
    unfold records. cbn [fst snd]. rewrite decide_False by done.
    apply list_elem_of_bind. exists (xml_date_created row, outcomes).
    split; [|by unfold sorted_items; rewrite merge_sort_Permutation].
    apply list_elem_of_fmap. exists (xml_correct row). split; [|done].
    destruct row. cbn in *. by subst.
Qed.

(** The import after its first loop. *)
Lemma import_datashop_after_first_pass self root st out n :
  first_pass strptime root [] = (Returned st, out) →
  n_sessions self = PyInt n →
  ∃ self',
    run (import_datashop strptime lower self root) = (Returned self', out)
    ∧ xml_data self' = Some (table lower (skills self) n (answers st))
    ∧ results_read self' = true
    ∧ skills self' = skills self
    ∧ n_sessions self' = n_sessions self
    ∧ full_results self' = full_results self
    ∧ raw_data self' = raw_data self.
Proof.
  intros Hfirst Hn. unfold run, import_datashop, mbind, py_bind, bind.
  rewrite Hfirst, Hn.
  destruct (second_pass_table lower (skills self) n (answers st) out)
    as (cols & -> & Hi & Hd & Ha & Hc).
  rewrite Hi, Hd, Ha, Hc, DataFrame_rows. eexists. split; [reflexivity|].
  cbn. by rewrite ?Hn.
Qed.

(** X1. With an integer session count the import returns whenever its first
    loop does, printing nothing more. Every record of its table is a
    recorded outcome of a problem whose name is the lower case of the
    record's activity, a configured [<skill>_Q<session>] with session from 1
    to [n_sessions]; every recorded outcome of a problem whose name is the
    lower case of such an activity has its record; a problem that matches
    no skill contributes none. *)
Theorem import_datashop_table_holds_matched_outcomes self root st out n :
  first_pass strptime root [] = (Returned st, out) →
  n_sessions self = PyInt n →
  ∃ self' frame,
    run (import_datashop strptime lower self root) = (Returned self', out)
    ∧ xml_data self' = Some frame
    ∧ results_read self' = true
    ∧ (∀ row, row ∈ frame →
         ∃ problem name times outcomes,
           (xml_student_id row, problem) ∈ answers st
           ∧ (name, times) ∈ problem
           ∧ (xml_date_created row, outcomes) ∈ times
           ∧ xml_correct row ∈ outcomes
           ∧ name = lower (xml_activity_title row)
           ∧ ∃ skill k, skill ∈ skills self ∧ (1 ≤ k ≤ Z.to_nat n)%nat
                        ∧ xml_activity_title row = activity_name skill k)
    ∧ (∀ anon problem name times t outcomes ic skill k,
         (anon, problem) ∈ answers st →
         (name, times) ∈ problem →
         (t, outcomes) ∈ times →
         ic ∈ outcomes →
         skill ∈ skills self → (1 ≤ k ≤ Z.to_nat n)%nat →
         name = lower (activity_name skill k) →
         ∃ title, XmlRow anon t title ic ∈ frame ∧ name = lower title).
Proof.
  intros Hfirst Hn.
  destruct (import_datashop_after_first_pass self root st out n Hfirst Hn)
    as (self' & Hrun & Hframe & Hread & _).
  exists self', (table lower (skills self) n (answers st)).
  split; [done|]. split; [done|]. split; [done|]. split.
  - intros row (problem & name & times & outcomes & Hs & He & Hi & Hc & Hm & Ht)
      %elem_of_table.
    exists problem, name, times, outcomes. repeat (split; [done|]).
    rewrite Ht. by apply matched_spec.
  - intros anon problem name times t outcomes ic skill k Hs He Hi Hc Hskill Hk
      Hname.
    assert (Hm : matched lower (skills self) n name ≠ "").
    { intros Hm. destruct (match_skill_spec lower (skills self) n name [])
        as (m & Hrun' & Hcases).
      rewrite match_skill_fold in Hrun'. injection Hrun' as <-.
      fold (matched lower (skills self) n name) in Hcases.
      destruct Hcases as [[_ Hnone]|(Hne & _)]; [|done].
      by apply (Hnone skill k Hskill Hk). }
    exists (matched lower (skills self) n name).
    split; [|by apply matched_spec].
    apply elem_of_table. by exists problem, name, times, outcomes.
Qed.

End import_facts.

(** ** Elements the first loop skips or chokes on *)

Section element_facts.
Import Datashop Table.
Context (strptime : string → option Z) (lower : string → string).

(** An element that is neither a context nor a tutor message leaves the
    locals as they are. *)
Lemma other_element_step st child out :
  tag child ≠ "context_message" → tag child ≠ "tutor_message" →
  first_pass_step strptime st child out = (Returned st, out).
Proof.
  intros Hc Ht. unfold first_pass_step. rewrite decide_False by done.
  rewrite (bool_decide_eq_false_2 (tag child = "tutor_message")) by done.
  cbn [andb]. by destruct (_ && _).
Qed.

Lemma for_each_without_other_elements kids st out :
  for_each kids (first_pass_step strptime) st out
  = for_each (filter (λ e, tag e = "context_message" ∨ tag e = "tutor_message")
                kids) (first_pass_step strptime) st out.
Proof.
  revert st out. induction kids as [|child kids IH]; intros st out; [done|].
  rewrite filter_cons. case_decide as Htag.
  - rewrite !for_each_cons.
    destruct (first_pass_step strptime st child out) as [[st'|e] out']; [|done].
    apply IH.
  - rewrite for_each_cons, other_element_step by tauto. apply IH.
Qed.

(** X2. Tool messages, and all elements other than context and tutor
    messages, are ignored: the import of a log is the import of the log
    without them. *)
Theorem import_datashop_ignores_other_elements self name x kids out :
  import_datashop strptime lower self (Element name x kids) out
  = import_datashop strptime lower self
      (Element name x
         (filter (λ e, tag e = "context_message" ∨ tag e = "tutor_message")
            kids)) out.
Proof.
  unfold import_datashop, first_pass, mbind, py_bind, bind. cbn [children].
  by rewrite for_each_without_other_elements.
Qed.

(** A tutor message while no context has been read raises. *)
Lemma tutor_message_unbound child st out :
  anon_id st = None →
  ∃ out',
    tutor_message child st out
    = (Raised (if findall "action_evaluation" child is [] then IndexError
               else UnboundLocalError), out').
Proof.
  intros Hanon. unfold tutor_message.
  destruct (findall "action_evaluation" child) as [|evaluation rest];
    [by eexists|].
  unfold mbind, py_bind, bind. cbn [item0 mret py_ret ret].
  unfold record_outcome, mbind, py_bind, bind. rewrite Hanon. cbn [load raise].
  repeat case_decide; cbn; by eexists.
Qed.

(** X3. A log whose first context or tutor message is a tutor message
    cannot be imported: the outcome has no context to go to, and the import
    ends in [UnboundLocalError] ([IndexError] when the message has no
    [action_evaluation] child). *)
Theorem import_datashop_tutor_message_before_context
    self name x before child after :
  Forall (λ e, tag e ≠ "context_message" ∧ tag e ≠ "tutor_message") before →
  tag child = "tutor_message" →
  (run (import_datashop strptime lower self
          (Element name x (before ++ child :: after)))).1
  = Raised (if findall "action_evaluation" child is [] then IndexError
            else UnboundLocalError).
Proof.
  intros Hbefore Htag.
  unfold run, import_datashop, first_pass, mbind, py_bind, bind. cbn [children].
  rewrite for_each_app.
  assert (Hskip : for_each before (first_pass_step strptime) initial []
                  = (Returned initial, [])).
  { generalize (@nil string). induction Hbefore as [|e before [Hc Ht] _ IH];
      intros out; [done|].
    rewrite for_each_cons, other_element_step by done. apply IH. }
  rewrite Hskip, for_each_cons.
  unfold first_pass_step at 1. rewrite decide_False by (rewrite Htag; done).
  rewrite (bool_decide_eq_false_2 (tag child = "tool_message"))
    by (rewrite Htag; done).
  rewrite (bool_decide_eq_true_2 (tag child = "tutor_message")) by done.
  cbn [andb negb initial wait_for_next_context_message].
  destruct (tutor_message_unbound child initial [] eq_refl) as (out' & ->).
  done.
Qed.

Lemma split_space_no_space (label : string) :
  Forall (λ c, c ≠ Ascii.Space) (String.list_ascii_of_string label) →
  split_space label = [label].
Proof.
  induction label as [|c label IH]; [done|]. cbn.
  intros [Hc Hlabel]%Forall_cons. rewrite (IH Hlabel).
  destruct (Ascii.eqb_spec c Ascii.Space); done.
Qed.

(** X4. The handler for a missing problem path does not cover the label: a
    context message with readable meta data whose problem name has no space
    ends the import with [IndexError], and one whose [name] element is
    empty with [AttributeError]. *)
Theorem context_label_without_space_aborts child anon t label :
  tag child = "context_message" →
  (run (read_meta strptime child)).1 = Returned (anon, t) →
  (run (full_problem_name child)).1 = Returned label →
  (∀ s, label = Some s →
        Forall (λ c, c ≠ Ascii.Space) (String.list_ascii_of_string s)) →
  (∀ st out, first_pass_step strptime st child out
             = (Raised (if label is Some _ then IndexError
                        else AttributeError), out))
  ∧ ∀ lower self name x before after st out,
      for_each before (first_pass_step strptime) initial [] = (Returned st, out) →
      run (import_datashop strptime lower self
             (Element name x (before ++ child :: after)))
      = (Raised (if label is Some _ then IndexError else AttributeError), out).
Proof.
  intros Htag Hmeta Hpath Hlabel.
  assert (Hstep : ∀ st out, first_pass_step strptime st child out
             = (Raised (if label is Some _ then IndexError
                        else AttributeError), out)).
  { intros st out. unfold first_pass_step. rewrite decide_True by done.
    unfold context_message, mbind, py_bind, bind, try_except.
    rewrite (silent_read_meta strptime child out), Hmeta.
    rewrite (silent_full_problem_name child out), Hpath.
    cbn [mret py_ret ret]. destruct label as [s|]; [|done].
    unfold short_name, mbind, py_bind, bind.
    by rewrite (split_space_no_space s (Hlabel s eq_refl)). }
  split; [done|].
  intros lower' self name x before after st out Hbefore.
  unfold run, import_datashop, first_pass, mbind, py_bind, bind. cbn [children].
  by rewrite for_each_app, Hbefore, for_each_cons, Hstep.
Qed.

End element_facts.

(** ** What a context and its tutor messages record *)

Section recording_facts.
Import Datashop Table.
Context (strptime : string → option Z).
Implicit Types
  (ans : list (option string * list (string * list (Z * list bool)))).

(** Opening an entry empties it and touches no other. *)
Lemma recorded_announce ans anon name t anon' name' t' :
  recorded (announce anon name t ans) anon' name' t'
  = if decide ((anon', name', t') = (anon, name, t)) then Some []
    else recorded ans anon' name' t'.
Proof.
  unfold recorded, announce.
  destruct (decide (anon = anon')) as [<-|Hanon].
  2:{ rewrite od_get_set_ne by done. rewrite decide_False by congruence. done. }
  rewrite od_get_set_eq. cbn [mbind option_bind].
  destruct (decide (name = name')) as [<-|Hname].
  2:{ rewrite od_get_set_ne by done. rewrite decide_False by congruence.
      by destruct (od_get anon ans). }
  rewrite od_get_set_eq. cbn [mbind option_bind].
  destruct (decide (t = t')) as [<-|Ht].
  - rewrite od_get_set_eq. by rewrite decide_True.
  - rewrite od_get_set_ne by done. rewrite decide_False by congruence.
    destruct (od_get anon ans) as [per_subject|]; [|done]. cbn.
    by destruct (od_get name per_subject).
Qed.

(** Appending an outcome to an open entry. *)
Lemma record_outcome_recorded st anon name t acc v out :
  anon_id st = Some anon → problem_name st = Some name → time st = Some t →
  recorded (answers st) anon name t = Some acc →
  ∃ ans', record_outcome st (Some v) out = (Returned ans', out)
          ∧ ∀ anon' name' t',
              recorded ans' anon' name' t'
              = if decide ((anon', name', t') = (anon, name, t))
                then Some (acc ++ [v])%list
                else recorded (answers st) anon' name' t'.
Proof.
  intros Hanon Hname Ht Hacc. unfold recorded in Hacc.
  destruct (od_get anon (answers st)) as [per_subject|] eqn:E1; [|done].
  cbn in Hacc.
  destruct (od_get name per_subject) as [per_problem|] eqn:E2; [|done].
  cbn in Hacc.
  eexists. split.
  - unfold record_outcome, mbind, py_bind, bind, od_item.
    rewrite Hanon, Hname, Ht. cbn [load mret py_ret ret].
    rewrite E1. cbn [mret py_ret ret]. rewrite E2. cbn [mret py_ret ret].
    rewrite Hacc. reflexivity.
  - intros anon' name' t'. unfold recorded.
    destruct (decide (anon = anon')) as [<-|Ha].
    2:{ rewrite od_get_set_ne by done. by rewrite decide_False by congruence. }
    rewrite od_get_set_eq, E1. cbn [mbind option_bind].
    destruct (decide (name = name')) as [<-|Hn].
    2:{ rewrite od_get_set_ne by done. by rewrite decide_False by congruence. }
    rewrite od_get_set_eq, E2. cbn [mbind option_bind].
    destruct (decide (t = t')) as [<-|Hne].
    + rewrite od_get_set_eq. by rewrite decide_True.
    + rewrite od_get_set_ne by done. by rewrite decide_False by congruence.
Qed.

(** A tutor message with a known evaluation, under an open entry. *)
Lemma tutor_message_recorded child evaluation rest st anon name t acc v out :
  tag child = "tutor_message" →
  findall "action_evaluation" child = evaluation :: rest →
  text evaluation = Some (if v : bool then "CORRECT" else "INCORRECT") →
  wait_for_next_context_message st = false →
  anon_id st = Some anon → problem_name st = Some name → time st = Some t →
  recorded (answers st) anon name t = Some acc →
  ∃ st', first_pass_step strptime st child out = (Returned st', out)
         ∧ wait_for_next_context_message st' = false
         ∧ anon_id st' = Some anon ∧ problem_name st' = Some name
         ∧ time st' = Some t
         ∧ ∀ anon' name' t',
             recorded (answers st') anon' name' t'
             = if decide ((anon', name', t') = (anon, name, t))
               then Some (acc ++ [v])%list
               else recorded (answers st) anon' name' t'.
Proof.
  intros Htag Hfind Htext Hwait Hanon Hname Ht Hacc.
  destruct (record_outcome_recorded st anon name t acc v out Hanon Hname Ht Hacc)
    as (ans' & Hrun & Hans').
  unfold first_pass_step. rewrite decide_False by (rewrite Htag; done).
  rewrite (bool_decide_eq_false_2 (tag child = "tool_message"))
    by (rewrite Htag; done).
  rewrite (bool_decide_eq_true_2 (tag child = "tutor_message")) by done.
  rewrite Hwait. cbn [andb negb].
  unfold tutor_message. rewrite Hfind.
  unfold mbind, py_bind, bind. cbn [item0 mret py_ret ret]. rewrite Htext.
  destruct v.
  - rewrite decide_True by done. cbn [mret py_ret ret]. rewrite Hrun.
    eexists. split; [reflexivity|]. done.
  - rewrite decide_False by done. rewrite decide_True by done.
    cbn [mret py_ret ret]. rewrite Hrun.
    eexists. split; [reflexivity|]. done.
Qed.

(** X5. A context message that names a problem, followed by tutor messages
    with the evaluations CORRECT and INCORRECT, records exactly their
    outcomes, in arrival order, for its subject, problem and instant:
    whatever was recorded there before is discarded, every other entry is
    kept, and nothing is printed. *)
Theorem context_records_its_burst
    (st : locals) (child : element) (tutors : list element)
    (outcomes : list bool) (anon : option string) (t : Z)
    (label name : string) (out : list string) :
  tag child = "context_message" →
  (run (read_meta strptime child)).1 = Returned (anon, t) →
  (run (full_problem_name child)).1 = Returned (Some label) →
  (run (short_name (Some label))).1 = Returned name →
  Forall2 (λ tutor (v : bool),
             tag tutor = "tutor_message"
             ∧ ∃ evaluation rest,
                 findall "action_evaluation" tutor = evaluation :: rest
                 ∧ text evaluation
                   = Some (if v then "CORRECT" else "INCORRECT"))
    tutors outcomes →
  ∃ st',
    for_each (child :: tutors) (first_pass_step strptime) st out
      = (Returned st', out)
    ∧ ∀ anon' name' t',
        recorded (answers st') anon' name' t'
        = if decide ((anon', name', t') = (anon, name, t)) then Some outcomes
          else recorded (answers st) anon' name' t'.
Proof.
  intros Htag Hmeta Hpath Hname Htutors.
  rewrite for_each_cons.
  assert (Hstep : first_pass_step strptime st child out
    = (Returned {| answers := announce anon name t (answers st);
                   anon_id := Some anon; time := Some t;
                   problem_name := Some name; is_correct := is_correct st;
                   wait_for_next_context_message := false |}, out)).
  { unfold first_pass_step. rewrite decide_True by done.
    unfold context_message, mbind, py_bind, bind, try_except.
    rewrite (silent_read_meta strptime child out), Hmeta.
    rewrite (silent_full_problem_name child out), Hpath.
    cbn [mret py_ret ret].
    assert (Hsilent : silent (short_name (Some label))).
    { unfold short_name. apply silent_bind; [|intros ?; apply silent_ret].
      unfold item1. by repeat case_match. }
    by rewrite (Hsilent out), Hname. }
  rewrite Hstep. clear Hstep.
  set (st1 := {| answers := announce anon name t (answers st) |}).
  enough (∀ acc s,
    wait_for_next_context_message s = false →
    anon_id s = Some anon → problem_name s = Some name → time s = Some t →
    recorded (answers s) anon name t = Some acc →
    ∃ st', for_each tutors (first_pass_step strptime) s out = (Returned st', out)
           ∧ ∀ anon' name' t',
               recorded (answers st') anon' name' t'
               = if decide ((anon', name', t') = (anon, name, t))
                 then Some (acc ++ outcomes)%list
                 else recorded (answers s) anon' name' t') as H.
  { destruct (H [] st1) as (st' & Hrun & Hrec); try done.
    { unfold st1. cbn [answers]. rewrite recorded_announce.
      by rewrite decide_True. }
    exists st'. split; [done|]. intros anon' name' t'.
    rewrite Hrec. case_decide; [done|].
    unfold st1. cbn [answers]. rewrite recorded_announce.
    by rewrite decide_False. }
  clear st1. induction Htutors as [|tutor v tutors outcomes Htutor _ IH];
    intros acc s Hwait Hanon Hn Ht Hacc.
  - exists s. split; [done|]. intros anon' name' t'. rewrite app_nil_r.
    case_decide as Heq; [|done]. by injection Heq as -> -> ->.
  - destruct Htutor as (Htag' & evaluation & rest & Hfind & Htext).
    destruct (tutor_message_recorded tutor evaluation rest s anon name t acc v
                out Htag' Hfind Htext Hwait Hanon Hn Ht Hacc)
      as (s1 & Hs1 & Hwait1 & Hanon1 & Hn1 & Ht1 & Hrec1).
    rewrite for_each_cons, Hs1.
    destruct (IH (acc ++ [v])%list s1 Hwait1 Hanon1 Hn1 Ht1) as (st' & -> & Hrec).
    { rewrite Hrec1. by rewrite decide_True. }
    exists st'. split; [done|]. intros anon' name' t'.
    rewrite Hrec, Hrec1, <- app_assoc. by case_decide.
Qed.

End recording_facts.

Section parser_witnesses.
Import Datashop Table Scenario.

Lemma import_datashop_table_holds_matched_outcomes_witness :
  ∃ st,
    first_pass strptime_padded (backup_log "Module backup_q1.") []
      = (Returned st, [])
    ∧ n_sessions backup_module = PyInt 1
    ∧ ∃ self' frame,
        run (import_datashop strptime_padded lower_ascii backup_module
               (backup_log "Module backup_q1.")) = (Returned self', [])
        ∧ xml_data self' = Some frame
        ∧ results_read self' = true.
Proof.
  assert (∃ st, first_pass strptime_padded (backup_log "Module backup_q1.") []
                = (Returned st, [])) as [st Hst]
    by (eexists; vm_compute; reflexivity).
  exists st. split; [exact Hst|]. split; [reflexivity|].
  destruct (import_datashop_table_holds_matched_outcomes strptime_padded lower_ascii
              backup_module (backup_log "Module backup_q1.") st [] 1 Hst eq_refl)
    as (self' & frame & Hrun & Hframe & Hread & _).
  exists self', frame. split; [exact Hrun|]. split; [exact Hframe|exact Hread].
Defined.

Lemma import_datashop_tutor_message_before_context_witness :
  Forall (λ e, tag e ≠ "context_message" ∧ tag e ≠ "tutor_message")
    [node "tool_message" []]
  ∧ tag (tutor "CORRECT") = "tutor_message"
  ∧ (run (import_datashop strptime_padded lower_ascii backup_module
            (Element "log" None
               ([node "tool_message" []] ++ tutor "CORRECT"
                  :: [context "u1" "2024-01-01 10:00:00" "Module backup_q1."]))
         )).1
    = Raised UnboundLocalError.
Proof.
  assert (Hbefore : Forall (λ e, tag e ≠ "context_message"
                                 ∧ tag e ≠ "tutor_message")
                      [node "tool_message" []]).
  { repeat constructor; discriminate. }
  split; [exact Hbefore|]. split; [reflexivity|].
  exact (import_datashop_tutor_message_before_context strptime_padded lower_ascii
           backup_module "log" None [node "tool_message" []] (tutor "CORRECT")
           [context "u1" "2024-01-01 10:00:00" "Module backup_q1."]
           Hbefore eq_refl).
Defined.

Lemma context_label_without_space_aborts_witness :
  tag (context "u1" "2024-01-01 10:00:00" "backup_q1.") = "context_message"
  ∧ (run (read_meta strptime_padded
            (context "u1" "2024-01-01 10:00:00" "backup_q1."))).1
    = Returned (Some "u1", ten_o_clock)
  ∧ (run (full_problem_name
            (context "u1" "2024-01-01 10:00:00" "backup_q1."))).1
    = Returned (Some "backup_q1.")
  ∧ Forall (λ c, c ≠ Ascii.Space) (String.list_ascii_of_string "backup_q1.")
  ∧ first_pass_step strptime_padded initial
      (context "u1" "2024-01-01 10:00:00" "backup_q1.") []
    = (Raised IndexError, []).
Proof.
  assert (Hlabel : Forall (λ c, c ≠ Ascii.Space)
                     (String.list_ascii_of_string "backup_q1."))
    by (apply (bool_decide_unpack _); vm_compute; exact I).
  split; [reflexivity|]. split; [vm_compute; reflexivity|].
  split; [vm_compute; reflexivity|]. split; [exact Hlabel|].
  apply (proj1 (context_label_without_space_aborts strptime_padded
                  (context "u1" "2024-01-01 10:00:00" "backup_q1.")
                  (Some "u1") ten_o_clock (Some "backup_q1.")
                  eq_refl ltac:(vm_compute; reflexivity)
                  ltac:(vm_compute; reflexivity)
                  (λ s Hs, eq_ind _ (λ x, Forall (λ c, c ≠ Ascii.Space)
                                      (String.list_ascii_of_string x)) Hlabel _
                             (Some_inj _ _ Hs)))).
Defined.

Lemma context_records_its_burst_witness :
  tag (context "u1" "2024-01-01 10:00:00" "Module backup_q1.")
    = "context_message"
  ∧ Forall2 (λ tutor (v : bool),
               tag tutor = "tutor_message"
               ∧ ∃ evaluation rest,
                   findall "action_evaluation" tutor = evaluation :: rest
                   ∧ text evaluation
                     = Some (if v then "CORRECT" else "INCORRECT"))
      [tutor "INCORRECT"; tutor "CORRECT"] [false; true]
  ∧ ∃ st',
      for_each (context "u1" "2024-01-01 10:00:00" "Module backup_q1."
                  :: [tutor "INCORRECT"; tutor "CORRECT"])
        (first_pass_step strptime_padded) initial []
        = (Returned st', [])
      ∧ recorded (answers st') (Some "u1") "backup_q1" ten_o_clock
        = Some [false; true].
Proof.
  assert (Htutors : Forall2 (λ tutor (v : bool),
               tag tutor = "tutor_message"
               ∧ ∃ evaluation rest,
                   findall "action_evaluation" tutor = evaluation :: rest
                   ∧ text evaluation
                     = Some (if v then "CORRECT" else "INCORRECT"))
      [tutor "INCORRECT"; tutor "CORRECT"] [false; true]).
  { repeat constructor; do 2 eexists; split; reflexivity. }
  split; [reflexivity|]. split; [exact Htutors|].
  destruct (context_records_its_burst strptime_padded initial
              (context "u1" "2024-01-01 10:00:00" "Module backup_q1.")
              [tutor "INCORRECT"; tutor "CORRECT"] [false; true]
              (Some "u1") ten_o_clock "Module backup_q1." "backup_q1" []
              eq_refl ltac:(vm_compute; reflexivity)
              ltac:(vm_compute; reflexivity) ltac:(vm_compute; reflexivity)
              Htutors) as (st' & Hrun & Hrecorded).
  exists st'. split; [exact Hrun|].
  rewrite Hrecorded. apply decide_True. reflexivity.
Defined.

End parser_witnesses.

(** ** The reconciler's diagnostics and threshold *)

Section reconciler_reports.
Import Reconciler Scenario.
Implicit Types (xml : list xml_row) (raw : list attempt)
  (IDs : list (option string)) (pseudonyms : list string)
  (mapping : gmap string (option string)).

(** A reporting loop prints one line for each element it does not pass
    over, in order. *)
Lemma reports_output {A} (l : list A) (quiet : A → Prop)
    `{∀ x, Decision (quiet x)} (line : A → string) out :
  for_each l (λ _ x, if decide (quiet x) then mret tt else print (line x))
    tt out
  = (Returned tt, (out ++ (line <$> filter (λ x, ¬ quiet x) l))%list).
Proof.
  revert out. induction l as [|x l IH]; intros out.
  - cbn. by rewrite app_nil_r.
  - rewrite for_each_cons, filter_cons. destruct (decide (quiet x)) as [Hx|Hx].
    + rewrite decide_False by tauto. cbn [mret py_ret ret]. apply IH.
    + rewrite decide_True by done. cbn [print]. rewrite IH, fmap_cons.
      by rewrite <- app_assoc.
Qed.

(** The reconciler from any lines printed before. *)
Lemma infer_mapping_output IDs pseudonyms self xml raw out :
  xml_data self = Some xml →
  raw_data self = Some raw →
  enumerates IDs (xml_student_id <$> xml) →
  None ∉ IDs ∨ pseudonyms = [] →
  let mapping := foldl (first_match xml raw pseudonyms) ∅ IDs in
  ∃ self',
    pseudonym_ID_mapping self' = Some mapping
    ∧ raw_data self' = Some raw
    ∧ _infer_mapping_pseudonym_ID IDs pseudonyms self out
      = (Returned self',
         (out ++ ((λ p, "Could not match pseudonym " +:+ p)
                    <$> filter (λ p, mapping !! p = None) pseudonyms)
          ++ ((λ a, "Could not match ID " +:+ show a)
                <$> filter (λ a, map_Forall (λ _ a', a' ≠ a) mapping) IDs))%list).
Proof.
  intros Hxml Hraw Henum Hnamed mapping.
  eexists. split; [shelve|]. split; [shelve|].
  unfold _infer_mapping_pseudonym_ID. rewrite Hxml, Hraw.
  unfold mbind, py_bind, bind. cbn [mret py_ret ret].
  rewrite (for_each_pure _ (first_match xml raw pseudonyms)).
  2:{ intros m ID o HID. apply search_spec.
      destruct Hnamed as [Hnamed|Hnone]; [left|by right].
      apply (enumerated_ID_has_times xml IDs); [done|done|].
      by intros ->. }
  fold mapping. unfold report_pseudonyms, report_IDs.
  rewrite !reports_output.
  rewrite (list_filter_iff (λ p, ¬ is_Some (mapping !! p))
             (λ p, mapping !! p = None)).
  2:{ intros p. by rewrite eq_None_not_Some. }
  rewrite (list_filter_iff (λ a, ¬ a ∈ (map_to_list mapping).*2)
             (λ a, map_Forall (λ _ a', a' ≠ a) mapping)).
  2:{ intros a. rewrite list_elem_of_fmap. split.
      - intros Hno p a' Hp ->. apply Hno. exists (p, a).
        split; [done|]. by apply elem_of_map_to_list.
      - intros Hall ([p a'] & -> & Hin%elem_of_map_to_list).
        by apply (Hall p a'). }
  rewrite <- app_assoc. reflexivity.
  Unshelve. all: cbn; done.
Qed.

(** X6. When the reconciler returns, it has printed, in this order, one line
    'Could not match pseudonym p' for each pseudonym without an entry in the
    mapping and one line 'Could not match ID a' for each canonical ID that
    is the value of no entry, and nothing else. *)
Theorem reconciler_reports_the_unmatched IDs pseudonyms self xml raw :
  xml_data self = Some xml →
  raw_data self = Some raw →
  enumerates IDs (xml_student_id <$> xml) →
  None ∉ IDs ∨ pseudonyms = [] →
  ∃ self' mapping,
    pseudonym_ID_mapping self' = Some mapping
    ∧ run (_infer_mapping_pseudonym_ID IDs pseudonyms self)
      = (Returned self',
         (((λ p, "Could not match pseudonym " +:+ p)
             <$> filter (λ p, mapping !! p = None) pseudonyms)
          ++ ((λ a, "Could not match ID " +:+ show a)
                <$> filter (λ a, map_Forall (λ _ a', a' ≠ a) mapping) IDs))%list).
Proof.
  intros Hxml Hraw Henum Hnamed.
  destruct (infer_mapping_output IDs pseudonyms self xml raw [] Hxml Hraw Henum
              Hnamed) as (self' & Hmapping & _ & Hrun).
  by exists self', (foldl (first_match xml raw pseudonyms) ∅ IDs).
Qed.

Lemma length_filter_eq {A} (P : A → Prop) `{∀ x, Decision (P x)} (l : list A) :
  length (filter P l) = length l ↔ Forall P l.
Proof.
  induction l as [|x l IH]; [by split; [constructor|]|].
  rewrite filter_cons, Forall_cons. pose proof (length_filter P l) as Hle.
  case_decide as Hx; cbn [length].
  - rewrite <- IH. split; [intros ?; split; [done|lia] | intros [_ ?]; lia].
  - split; [lia | by intros [? _]].
Qed.

(** Below 11 instants, the fraction exceeds 0.9 only at 1. *)
Lemma qualifies_small xml raw a b :
  (length (ID_times xml a) ≤ 10)%nat →
  qualifies xml raw a b ↔
  ID_times xml a ≠ []
  ∧ Forall (λ t, Exists (λ t', Z.abs (t - t') < 60)%Z (pseudonym_times raw b))
      (ID_times xml a).
Proof.
  intros Hsmall. unfold qualifies.
  match goal with
  | |- context [length (@filter _ _ _ ?P ?H ?l)] =>
      pose proof (@length_filter_eq _ P H l) as Hiff;
      pose proof (@length_filter _ P H l) as Hle;
      generalize dependent (length (@filter _ _ _ P H l))
  end.
  intros m Hiff Hle. rewrite <- Hiff.
  destruct (ID_times xml a) as [|t ts]; cbn [length] in *.
  - split; [lia|by intros [? _]].
  - split; [intros Hq; split; [done|lia]|]. intros [_ ->]. lia.
Qed.

Lemma qualifies_all_near xml raw a b :
  ID_times xml a ≠ [] →
  Forall (λ t, Exists (λ t', Z.abs (t - t') < 60)%Z (pseudonym_times raw b))
    (ID_times xml a) →
  qualifies xml raw a b.
Proof.
  intros Hne Hall. unfold qualifies.
  match goal with
  | |- context [length (@filter _ _ _ ?P ?H ?l)] =>
      rewrite (proj2 (@length_filter_eq _ P H l) Hall)
  end.
  destruct (ID_times xml a); [done|]. cbn [length]. lia.
Qed.

(** The search among one candidate, in terms of [qualifies]. *)
Lemma search_one xml raw a b mapping out :
  ID_times xml a ≠ [] →
  search xml raw a [b] mapping out
  = (Returned (if decide (qualifies xml raw a b) then <[b := a]> mapping
               else mapping), out).
Proof.
  intros Hne. rewrite search_spec by (by left). unfold first_match.
  cbn [list_find]. by case_decide.
Qed.

(** X7. The threshold of 0.9 leaves no room for a miss below 11 instants.
    For a canonical ID with at least one and at most 10 instants in the XML
    table, the counters of the loop over its instants make
    [times_matched / total_times > 0.9] true exactly when they are equal,
    and the search of the reconciler among one candidate pseudonym enters
    the pseudonym in the mapping if and only if each instant of the ID has
    an instant of the pseudonym less than 60 seconds away; otherwise it
    leaves the mapping as it was. With any number of instants, every
    instant being near suffices. An ID without an instant makes the
    quotient raise [ZeroDivisionError]. *)
Theorem small_subjects_need_every_instant_matched xml raw a b mapping out :
  (length (ID_times xml a) ≤ 10)%nat →
  (ID_times xml a ≠ [] →
   (∀ times_matched total_times,
      count_matches (ID_times xml a) (pseudonym_times raw b)
        = (times_matched, total_times) →
      exceeds_threshold times_matched total_times out
      = (Returned (bool_decide (times_matched = total_times)), out))
   ∧ search xml raw a [b] mapping out
     = (Returned
          (if decide (Forall (λ t, Exists (λ t', Z.abs (t - t') < 60)%Z
                                     (pseudonym_times raw b))
                        (ID_times xml a))
           then <[b := a]> mapping else mapping), out))
  ∧ (ID_times xml a = [] →
     search xml raw a [b] mapping out = (Raised ZeroDivisionError, out))
  ∧ (∀ xml', ID_times xml' a ≠ [] →
       Forall (λ t, Exists (λ t', Z.abs (t - t') < 60)%Z
                      (pseudonym_times raw b)) (ID_times xml' a) →
       search xml' raw a [b] mapping out
       = (Returned (<[b := a]> mapping), out)).
Proof.
  intros Hsmall. split; [|split].
  - intros Hne. split.
    + intros times_matched total_times. rewrite count_matches_spec.
      intros [= <- <-]. unfold exceeds_threshold.
      rewrite decide_False
        by (destruct (ID_times xml a); [done|cbn [length]; lia]).
      unfold mret, py_ret, ret. do 2 f_equal. apply bool_decide_ext.
      assert (0 < length (ID_times xml a))%nat as Hpos
        by (destruct (ID_times xml a); [done|cbn [length]; lia]).
      match goal with
      | |- context [length (@filter _ _ _ ?P ?H ?l)] =>
          pose proof (@length_filter _ P H l) as Hle;
          generalize dependent (length (@filter _ _ _ P H l))
      end.
      intros m Hle. lia.
    + rewrite search_one by done.
      pose proof (qualifies_small xml raw a b Hsmall) as Hiff.
      destruct (decide (qualifies xml raw a b)) as [Hq|Hq].
      * rewrite decide_True; [done|]. by apply Hiff.
      * rewrite decide_False; [done|]. intros Hall. apply Hq, Hiff. done.
  - intros Hnil. cbn [search]. by rewrite Hnil.
  - intros xml' Hne Hall. rewrite search_one by done.
    rewrite decide_True; [done|]. by apply qualifies_all_near.
Qed.

Lemma reconciler_reports_the_unmatched_witness :
  xml_data twins_module = Some twins_xml
  ∧ raw_data twins_module = Some twins_raw
  ∧ enumerates [Some "a1"; Some "a2"] (xml_student_id <$> twins_xml)
  ∧ ∃ self' mapping,
      pseudonym_ID_mapping self' = Some mapping
      ∧ (run (_infer_mapping_pseudonym_ID [Some "a1"; Some "a2"] ["p"]
                twins_module)).2
        = (((λ p, "Could not match pseudonym " +:+ p)
              <$> filter (λ p, mapping !! p = None) ["p"])
           ++ ((λ a, "Could not match ID " +:+ show a)
                 <$> filter (λ a, map_Forall (λ _ a', a' ≠ a) mapping)
                       [Some "a1"; Some "a2"]))%list.
Proof.
  assert (Henum : enumerates [Some "a1"; Some "a2"]
                    (xml_student_id <$> twins_xml)).
  { split; [|intros x; reflexivity].
    apply (bool_decide_unpack _). vm_compute. exact I. }
  split; [reflexivity|]. split; [reflexivity|]. split; [exact Henum|].
  destruct (reconciler_reports_the_unmatched
              [Some "a1"; Some "a2"] ["p"] twins_module twins_xml twins_raw
              eq_refl eq_refl Henum) as (self' & mapping & Hmapping & Hrun).
  { left. apply (bool_decide_unpack _). vm_compute. exact I. }
  exists self', mapping. split; [exact Hmapping|]. rewrite Hrun. reflexivity.
Defined.

Lemma small_subjects_need_every_instant_matched_witness :
  (length (ID_times pair_xml (Some "u1")) ≤ 10)%nat
  ∧ ID_times pair_xml (Some "u1") = [ten_o_clock; (ten_o_clock + 300)%Z]
  ∧ count_matches (ID_times pair_xml (Some "u1")) (pseudonym_times pair_raw "p1")
    = (2%Z, 2%Z)
  ∧ run (exceeds_threshold 2 2) = (Returned true, [])
  ∧ run (search pair_xml pair_raw (Some "u1") ["p1"] ∅)
    = (Returned {["p1" := Some "u1"]}, [])
  ∧ count_matches (ID_times pair_xml (Some "u1")) (pseudonym_times pair_raw "p2")
    = (0%Z, 2%Z)
  ∧ run (search pair_xml pair_raw (Some "u1") ["p2"] ∅) = (Returned ∅, []).
Proof.
  assert (Hsmall : (length (ID_times pair_xml (Some "u1")) ≤ 10)%nat)
    by (vm_compute; lia).
  assert (Htimes : ID_times pair_xml (Some "u1") ≠ [])
    by (vm_compute; discriminate).
  assert (Hcount : count_matches (ID_times pair_xml (Some "u1"))
                     (pseudonym_times pair_raw "p1") = (2%Z, 2%Z))
    by (vm_compute; reflexivity).
  destruct (proj1 (small_subjects_need_every_instant_matched
                     pair_xml pair_raw (Some "u1") "p1" ∅ [] Hsmall) Htimes)
    as [Hthreshold Hp1].
  destruct (proj1 (small_subjects_need_every_instant_matched
                     pair_xml pair_raw (Some "u1") "p2" ∅ [] Hsmall) Htimes)
    as [_ Hp2].
  split; [exact Hsmall|]. split; [vm_compute; reflexivity|].
  split; [exact Hcount|]. split; [exact (Hthreshold 2%Z 2%Z Hcount)|].
  split; [|split; [vm_compute; reflexivity|]].
  - unfold run. rewrite Hp1. rewrite decide_True; [reflexivity|].
    apply (bool_decide_unpack _). vm_compute. exact I.
  - unfold run. rewrite Hp2. rewrite decide_False; [reflexivity|].
    apply (bool_decide_unpack _). vm_compute. exact I.
Defined.

End reconciler_reports.

(** ** The unified table of [import_data] *)

Section import_data_facts.
Import Datashop Reconciler ImportData Table.

Lemma DataFrame5_rows (rows : list result_row) out :
  DataFrame5 (result_student_id <$> rows) (result_date_created <$> rows)
    (result_activity_title <$> rows) (result_attempt_number <$> rows)
    (result_correct <$> rows) out
  = (Returned rows, out).
Proof.
  induction rows as [|[i d a k c] rows IH]; [done|].
  cbn. unfold mbind, py_bind, bind. cbn in IH. by rewrite IH.
Qed.

Lemma join_lists mapping raw (rows : list result_row) :
  let acc := foldl (join_step mapping)
               (Lists (result_student_id <$> rows) (result_date_created <$> rows)
                  (result_activity_title <$> rows)
                  (result_attempt_number <$> rows) (result_correct <$> rows))
               raw in
  let rows' := (rows ++ omap (relabel mapping) raw)%list in
  acc = Lists (result_student_id <$> rows') (result_date_created <$> rows')
          (result_activity_title <$> rows') (result_attempt_number <$> rows')
          (result_correct <$> rows').
Proof.
  cbn zeta. revert rows. induction raw as [|row raw IH]; intros rows.
  - cbn. by rewrite app_nil_r.
  - cbn [foldl omap list_omap].
    destruct (mapping !! student_id row) as [ID|] eqn:E.
    + assert (relabel mapping row
              = Some (ResultRow ID (date_created row) (activity_title row)
                        (attempt_no row) (is_right row))) as ->
        by (unfold relabel; by rewrite E).
      specialize (IH (rows ++ [ResultRow ID (date_created row)
                (activity_title row) (attempt_no row) (is_right row)])%list).
      rewrite <- app_assoc in IH. cbn [app] in IH. rewrite <- IH. f_equal.
      unfold join_step. rewrite E. cbn. by rewrite !fmap_app.
    + assert (relabel mapping row = None) as ->
        by (unfold relabel; by rewrite E).
      rewrite <- IH. f_equal. unfold join_step. by rewrite E.
Qed.

(** Building the frame of the join never fails. *)
Lemma joined_returns mapping raw out :
  joined mapping raw out = (Returned (omap (relabel mapping) raw), out).
Proof.
  unfold joined. pose proof (join_lists mapping raw []) as H.
  cbn zeta in H. cbn [fmap list_fmap app] in H.
  change no_lists with (Lists [] [] [] [] []). rewrite H. cbn.
  apply DataFrame5_rows.
Qed.

(** X8. The table [import_data] builds holds, in the order of the raw table,
    exactly the raw rows whose pseudonym has an entry in the mapping, each
    under the canonical ID of its pseudonym and otherwise unchanged; rows of
    unmatched pseudonyms are dropped, and building the frame never fails. *)
Theorem joined_table_relabels_matched_rows mapping raw out :
  joined mapping raw out = (Returned (omap (relabel mapping) raw), out)
  ∧ (∀ row, row ∈ omap (relabel mapping) raw ↔
       ∃ r ID, r ∈ raw ∧ mapping !! student_id r = Some ID
               ∧ row = ResultRow ID (date_created r) (activity_title r)
                         (attempt_no r) (is_right r))
  ∧ (length (omap (relabel mapping) raw)
     = length (filter (λ r, is_Some (mapping !! student_id r)) raw)).
Proof.
  split; [apply joined_returns|split].
  - intros row. rewrite list_elem_of_omap. split.
    + intros (r & Hr & Hrow). unfold relabel in Hrow.
      destruct (mapping !! student_id r) as [ID|] eqn:E; [|done].
      injection Hrow as <-. by exists r, ID.
    + intros (r & ID & Hr & HID & ->). exists r. split; [done|].
      unfold relabel. by rewrite HID.
  - induction raw as [|r raw IH]; [done|].
    rewrite filter_cons. cbn [omap list_omap]. unfold relabel at 1.
    destruct (mapping !! student_id r) as [ID|]; cbn.
    + rewrite decide_True by done. cbn. by rewrite IH.
    + rewrite decide_False by (by intros [? ?]). apply IH.
Qed.

End import_data_facts.

Section import_data_composition.
Import Datashop Reconciler ImportData Table.
Context (strptime : string → option Z) (lower : string → string).

(** A search that returns leaves no null ID in the mapping: the search for
    a null ID divides by zero as soon as there is a pseudonym. *)
Lemma search_named xml raw ID pseudonyms mapping out mapping' out' :
  map_Forall (λ _ a, is_Some a) mapping →
  search xml raw ID pseudonyms mapping out = (Returned mapping', out') →
  map_Forall (λ _ a, is_Some a) mapping'.
Proof.
  intros Hmapping. destruct ID as [a|].
  - induction pseudonyms as [|p pseudonyms IH]; cbn [search].
    + by intros [= <- _].
    + destruct (count_matches _ _) as [times_matched total_times].
      unfold exceeds_threshold, mbind, py_bind, bind.
      destruct (decide (total_times = 0)); [done|].
      cbn [mret py_ret ret]. case_bool_decide.
      * intros [= <- _]. by apply map_Forall_insert_2.
      * exact IH.
  - destruct pseudonyms as [|p pseudonyms]; [by intros [= <- _]|].
    by rewrite search_null_subject.
Qed.

Lemma infer_mapping_named IDs pseudonyms self out self' out' mapping :
  _infer_mapping_pseudonym_ID IDs pseudonyms self out = (Returned self', out') →
  pseudonym_ID_mapping self' = Some mapping →
  map_Forall (λ _ a, is_Some a) mapping.
Proof.
  unfold _infer_mapping_pseudonym_ID.
  destruct (xml_data self) as [xml|]; [|done].
  destruct (raw_data self) as [raw|]; [|done].
  unfold mbind at 1, py_bind, bind. cbn [mret py_ret ret].
  unfold mbind at 1, py_bind, bind. cbn [mret py_ret ret].
  unfold mbind at 1, py_bind, bind.
  destruct (for_each IDs _ ∅ out) as [[m|e] out1] eqn:Hloop; [|done].
  assert (map_Forall (λ _ a, is_Some a) m) as Hm.
  { revert Hloop. apply for_each_invariant; [|apply map_Forall_empty].
    intros m0 ID o m1 o1 Hm0 Hsearch. by eapply search_named. }
  unfold mbind, py_bind, bind.
  destruct (report_pseudonyms pseudonyms m out1) as [[[]|e] out2]; [|done].
  destruct (report_IDs IDs m out2) as [[[]|e] out3]; [|done].
  cbn [mret py_ret ret]. intros [= <- _] [= <-]. exact Hm.
Qed.

(** The rows of [full_results]: with no null ID in the mapping every row of
    the joined table has its counterpart. *)
Lemma named_rows mapping raw acc out :
  map_Forall (λ _ a, is_Some a) mapping →
  for_each (omap (relabel mapping) raw)
    (λ rows row, r ← named row; mret (rows ++ [r])%list) acc out
  = (Returned (acc ++ omap (renamed mapping) raw)%list, out).
Proof.
  intros Hmapping. revert acc.
  induction raw as [|r raw IH]; intros acc.
  - cbn. by rewrite app_nil_r.
  - cbn [omap list_omap]. unfold relabel at 1, renamed at 1.
    destruct (mapping !! student_id r) as [ID|] eqn:E; cbn [mbind option_bind].
    + destruct (Hmapping _ _ E) as [a ->].
      rewrite for_each_cons. unfold named at 1. cbn [result_student_id].
      unfold mbind at 1, py_bind, bind. cbn [mret py_ret ret].
      fold (omap (relabel mapping) raw). fold (omap (renamed mapping) raw).
      rewrite IH. by rewrite <- app_assoc.
    + apply IH.
Qed.

(** The reconciler on a table with a null ID and a pseudonym, whatever was
    printed before. *)
Lemma infer_mapping_divides_by_zero IDs pseudonyms self xml raw out :
  xml_data self = Some xml →
  raw_data self = Some raw →
  enumerates IDs (xml_student_id <$> xml) →
  None ∈ IDs → pseudonyms ≠ [] →
  _infer_mapping_pseudonym_ID IDs pseudonyms self out
  = (Raised ZeroDivisionError, out).
Proof.
  intros Hxml Hraw Henum Hnull Hpseudonyms.
  apply list_elem_of_split in Hnull as (before & after & ->).
  unfold _infer_mapping_pseudonym_ID. rewrite Hxml, Hraw.
  unfold mbind, py_bind, bind. cbn [mret py_ret ret].
  rewrite for_each_app.
  rewrite (for_each_pure _ (first_match xml raw pseudonyms) before).
  2:{ intros m ID o HID. apply search_spec. left.
      apply (enumerated_ID_has_times xml (before ++ None :: after)%list);
        [done|apply elem_of_app; by left|].
      intros ->. destruct Henum as [Hnodup _].
      apply NoDup_app in Hnodup as (_ & Hno & _).
      apply (Hno _ HID). by left. }
  rewrite for_each_cons. by rewrite search_null_subject.
Qed.

(** The method returns whenever its calls of the import and of the
    reconciler do: the rows of [full_results] all have their counterpart,
    so the exception of the model is never raised. *)
Lemma import_data_after_reconciler IDs pseudonyms raw root self out self1 out1
    self2 out2 :
  import_datashop strptime lower (import_raw_analytics raw self) root out
    = (Returned self1, out1) →
  _infer_mapping_pseudonym_ID IDs pseudonyms self1
    (out1 ++ ["Figuring out mapping between pseudonyms in raw_analytics file and IDs in Datashop file."; "This may take a while..."])%list
    = (Returned self2, out2) →
  ∃ mapping raw',
    pseudonym_ID_mapping self2 = Some mapping
    ∧ raw_data self2 = Some raw'
    ∧ map_Forall (λ _ a, is_Some a) mapping
    ∧ import_data strptime lower IDs pseudonyms raw root self out
      = (Returned
           {| skills := skills self2; n_sessions := n_sessions self2;
              n_sessions_input := n_sessions_input self2;
              raw_data := raw_data self2; xml_data := xml_data self2;
              full_results := Some (omap (renamed mapping) raw');
              results_read := results_read self2;
              pseudonym_ID_mapping := pseudonym_ID_mapping self2;
              flags := flags self2 |}, out2).
Proof.
  intros Himport Hreconciler.
  assert (∃ mapping raw', pseudonym_ID_mapping self2 = Some mapping
                          ∧ raw_data self2 = Some raw')
    as (mapping & raw' & Hmapping & Hraw).
  { revert Hreconciler. unfold _infer_mapping_pseudonym_ID.
    destruct (xml_data self1) as [xml|]; [|done].
    destruct (raw_data self1) as [raw1|]; [|done].
    unfold mbind, py_bind, bind. cbn [mret py_ret ret].
    destruct (for_each IDs _ ∅ _) as [[m|e] o1]; [|done].
    destruct (report_pseudonyms pseudonyms m o1) as [[[]|e] o2]; [|done].
    destruct (report_IDs IDs m o2) as [[[]|e] o3]; [|done].
    intros [= <- _]. by eauto. }
  pose proof (infer_mapping_named _ _ _ _ _ _ _ Hreconciler Hmapping) as Hnamed.
  exists mapping, raw'. split; [done|]. split; [done|]. split; [done|].
  unfold import_data.
  unfold mbind at 1, py_bind, bind. rewrite Himport.
  unfold mbind at 1, py_bind, bind. cbn [print].
  unfold mbind at 1, py_bind, bind. cbn [print].
  rewrite <- app_assoc. cbn [app].
  unfold mbind at 1, py_bind, bind. rewrite Hreconciler.
  rewrite Hmapping, Hraw.
  unfold mbind at 1, py_bind, bind. cbn [mret py_ret ret].
  unfold mbind at 1, py_bind, bind. cbn [mret py_ret ret].
  unfold mbind at 1, py_bind, bind. rewrite joined_returns.
  unfold mbind at 1, py_bind, bind. rewrite named_rows by done.
  reflexivity.
Qed.

(** X9. [import_data] end to end, when the pass over the XML log returns
    and the session count is an integer. If no record of the XML table has
    a null subject (or there is no pseudonym), the method returns and
    [full_results] holds, in the order of the raw table, the raw rows of the
    matched pseudonyms under their canonical IDs: every matched row is
    there, every ID is an ID of the XML table, and two raw rows that receive
    the same canonical ID had the same pseudonym, so that the records of two
    pseudonyms are never merged under one subject. If a record has a null
    subject and there is a pseudonym, the method ends in
    [ZeroDivisionError] after its two lines. *)
Theorem import_data_keeps_pseudonyms_apart
    IDs pseudonyms raw root self st out n :
  first_pass strptime root [] = (Returned st, out) →
  n_sessions self = PyInt n →
  enumerates IDs
    (xml_student_id <$> table lower (skills self) n (answers st)) →
  (None ∉ IDs ∨ pseudonyms = [] →
   ∃ self' mapping out',
     run (import_data strptime lower IDs pseudonyms raw root self)
       = (Returned self', out')
     ∧ pseudonym_ID_mapping self' = Some mapping
     ∧ mapping
       = foldl (first_match (table lower (skills self) n (answers st)) raw
                  pseudonyms) ∅ IDs
     ∧ full_results self' = Some (omap (renamed mapping) raw)
     ∧ (∀ r a, r ∈ raw → mapping !! student_id r = Some a →
          ∃ ID, a = Some ID
                ∧ Attempt ID (date_created r) (activity_title r)
                    (attempt_no r) (is_right r)
                  ∈ omap (renamed mapping) raw)
     ∧ (∀ row, row ∈ omap (renamed mapping) raw →
          Some (student_id row)
            ∈ xml_student_id <$> table lower (skills self) n (answers st)
          ∧ ∃ r, r ∈ raw
                 ∧ mapping !! student_id r = Some (Some (student_id row))
                 ∧ row = Attempt (student_id row) (date_created r)
                           (activity_title r) (attempt_no r) (is_right r))
     ∧ (∀ r1 r2 ID, mapping !! student_id r1 = Some ID →
                    mapping !! student_id r2 = Some ID →
                    student_id r1 = student_id r2))
  ∧ (None ∈ IDs → pseudonyms ≠ [] →
     run (import_data strptime lower IDs pseudonyms raw root self)
     = (Raised ZeroDivisionError,
        (out ++ ["Figuring out mapping between pseudonyms in raw_analytics file and IDs in Datashop file."; "This may take a while..."])%list)).
Proof.
  intros Hfirst Hn Henum.
  set (xml := table lower (skills self) n (answers st)) in *.
  destruct (import_datashop_after_first_pass strptime lower
              (import_raw_analytics raw self) root st out n Hfirst Hn)
    as (self1 & Hrun1 & Hxml1 & _ & _ & _ & _ & Hraw1).
  cbn [import_raw_analytics skills raw_data] in Hxml1, Hraw1. fold xml in Hxml1.
  set (out1 := (out ++ ["Figuring out mapping between pseudonyms in raw_analytics file and IDs in Datashop file."; "This may take a while..."])%list).
  split.
  - intros Hnamed.
    destruct (infer_mapping_output IDs pseudonyms self1 xml raw out1
                Hxml1 Hraw1 Henum Hnamed) as (self2 & Hmapping & Hraw2 & Hrun2).
    cbn zeta in Hmapping, Hrun2.
    set (mapping := foldl (first_match xml raw pseudonyms) ∅ IDs) in *.
    destruct (first_match_fold xml raw pseudonyms IDs (proj1 Henum))
      as [Hgood Hinj]. cbn zeta in Hgood, Hinj. fold mapping in Hgood, Hinj.
    destruct (import_data_after_reconciler IDs pseudonyms raw root self []
                self1 out self2 _ Hrun1 Hrun2)
      as (mapping' & raw' & Hmapping' & Hraw' & Hsome & Hrun).
    assert (mapping' = mapping) as -> by congruence.
    assert (raw' = raw) as -> by congruence.
    eexists _, mapping, _. split; [exact Hrun|].
    cbn [pseudonym_ID_mapping full_results].
    split; [done|]. split; [done|]. split; [done|]. split; [|split].
    + intros r a Hr Ha. destruct (Hsome _ _ Ha) as [ID ->].
      exists ID. split; [done|]. apply list_elem_of_omap. exists r.
      split; [done|]. unfold renamed. by rewrite Ha.
    + intros row (r & Hr & Hrow)%list_elem_of_omap. unfold renamed in Hrow.
      destruct (mapping !! student_id r) as [[ID|]|] eqn:E; [|done|done].
      injection Hrow as <-. cbn [student_id]. split.
      * destruct (Hgood _ _ E) as (HID & _). by apply (proj2 Henum).
      * by exists r.
    + intros r1 r2 ID H1 H2. by apply (Hinj _ _ ID).
  - intros Hnull Hpseudonyms. unfold run, import_data.
    unfold run in Hrun1. unfold mbind at 1, py_bind, bind. rewrite Hrun1.
    unfold mbind at 1, py_bind, bind. cbn [print].
    unfold mbind at 1, py_bind, bind. cbn [print].
    rewrite <- app_assoc. cbn [app]. fold out1.
    unfold mbind at 1, py_bind, bind.
    by rewrite (infer_mapping_divides_by_zero IDs pseudonyms self1 xml raw out1).
Qed.

End import_data_composition.

(** ** No null ID reaches [full_results] *)

Section null_facts.
Import Datashop Reconciler ImportData.

Lemma avoids_ret {A} e (a : A) : avoids e (mret a).
Proof. intros out out'. discriminate. Qed.

Lemma avoids_raise {A} e e' : e' ≠ e → avoids e (raise (A := A) e').
Proof. intros Hne out out' [= ->]. done. Qed.

Lemma avoids_print e line : avoids e (print line).
Proof. intros out out'. discriminate. Qed.

Lemma avoids_bind {A B} e (m : py A) (k : A → py B) :
  avoids e m → (∀ a, avoids e (k a)) → avoids e (m ≫= k).
Proof.
  intros Hm Hk out out'. unfold mbind, py_bind, bind.
  destruct (m out) as [[a|e'] o] eqn:E.
  - apply Hk.
  - intros [= -> ->]. by apply (Hm out out').
Qed.

Lemma avoids_for_each {A S} e (body : S → A → py S) l s :
  (∀ s x, avoids e (body s x)) → avoids e (for_each l body s).
Proof.
  intros Hbody. revert s. induction l as [|x l IH]; intros s.
  - apply avoids_ret.
  - apply (avoids_bind e (body s x) (for_each l body)); [apply Hbody|apply IH].
Qed.

Lemma avoids_try_except {A} e e' (m handler : py A) :
  avoids e m → avoids e handler → avoids e (try_except m e' handler).
Proof.
  intros Hm Hhandler out out'. unfold try_except.
  destruct (m out) as [[a|e''] o] eqn:E; [discriminate|].
  case_decide; [apply Hhandler|]. intros [= -> ->]. by apply (Hm out out').
Qed.

Ltac avoid :=
  repeat first
    [ apply avoids_ret
    | apply avoids_print
    | apply avoids_raise; discriminate
    | apply avoids_try_except
    | apply avoids_for_each; intros ? ?
    | apply avoids_bind; [|intros ?]
    | progress case_match ].

Lemma avoids_item0 {A} (l : list A) : avoids NullID (item0 l).
Proof. destruct l; [apply (avoids_raise NullID IndexError)|apply avoids_ret]; done. Qed.

Lemma avoids_item1 {A} (l : list A) : avoids NullID (item1 l).
Proof.
  destruct l as [|? [|? ?]];
    [apply (avoids_raise NullID IndexError)
    |apply (avoids_raise NullID IndexError)|apply avoids_ret]; done.
Qed.

Lemma avoids_load {A} (v : option A) : avoids NullID (load v).
Proof.
  destruct v; [apply avoids_ret|apply (avoids_raise NullID UnboundLocalError)];
    done.
Qed.

Lemma avoids_od_item {K V} `{EqDecision K} (k : K) (d : list (K * V)) :
  avoids NullID (od_item k d).
Proof.
  unfold od_item. destruct (od_get k d);
    [apply avoids_ret|apply (avoids_raise NullID KeyError)]; done.
Qed.

Lemma avoids_range x : avoids NullID (range x).
Proof.
  destruct x; [apply avoids_ret|apply (avoids_raise NullID TypeError)]; done.
Qed.

Lemma avoids_first_pass strptime root :
  avoids NullID (first_pass strptime root).
Proof.
  unfold first_pass. apply avoids_for_each. intros st child.
  unfold first_pass_step.
  assert (Hcontext : avoids NullID (context_message strptime child st)).
  { unfold context_message.
    apply avoids_bind.
    - unfold read_meta. repeat (apply avoids_bind; [apply avoids_item0|intros ?]).
      apply avoids_bind; [|intros ?; apply avoids_ret].
      unfold parse_time. avoid.
    - intros [anon t]. apply avoids_bind.
      + apply avoids_try_except; [|apply avoids_ret].
        apply avoids_bind; [|intros ?; apply avoids_ret].
        unfold full_problem_name.
        repeat (apply avoids_bind; [apply avoids_item0|intros ?]).
        apply avoids_ret.
      + intros [full|]; [|apply avoids_ret].
        apply avoids_bind; [|intros ?; apply avoids_ret].
        unfold short_name. destruct full; [|avoid].
        apply avoids_bind; [apply avoids_item1|intros ?; apply avoids_ret]. }
  assert (Htutor : avoids NullID (tutor_message child st)).
  { unfold tutor_message. apply avoids_bind; [apply avoids_item0|intros ?].
    apply avoids_bind; [avoid|intros ic].
    apply avoids_bind; [|intros ?; apply avoids_ret].
    unfold record_outcome.
    repeat (apply avoids_bind;
            [first [apply avoids_load|apply avoids_od_item]|intros ?]).
    apply avoids_ret. }
  repeat case_match; first [done|apply avoids_ret].
Qed.

Lemma avoids_second_pass lower skills n answers :
  avoids NullID (second_pass lower skills n answers).
Proof.
  unfold second_pass. apply avoids_for_each. intros cols [anon problem].
  apply avoids_for_each. intros cols' [name times].
  apply avoids_bind.
  - unfold match_skill. apply avoids_for_each. intros m skill.
    apply avoids_bind; [apply avoids_range|intros sessions].
    apply avoids_for_each. intros m' session. apply avoids_ret.
  - intros matched. case_decide; apply avoids_ret.
Qed.

Lemma avoids_DataFrame ids dates titles outcomes :
  avoids NullID (DataFrame ids dates titles outcomes).
Proof.
  revert dates titles outcomes.
  induction ids as [|i ids IH]; intros [|d dates] [|a titles] [|c outcomes];
    cbn [DataFrame];
    try (apply (avoids_raise NullID ValueError); done);
    try apply avoids_ret.
  apply avoids_bind; [apply IH|intros ?; apply avoids_ret].
Qed.

Lemma avoids_import_datashop strptime lower self root :
  avoids NullID (import_datashop strptime lower self root).
Proof.
  unfold import_datashop.
  apply avoids_bind; [apply avoids_first_pass|intros st].
  apply avoids_bind; [apply avoids_second_pass|intros cols].
  apply avoids_bind; [apply avoids_DataFrame|intros frame]. apply avoids_ret.
Qed.

Lemma avoids_search xml raw ID pseudonyms mapping :
  avoids NullID (search xml raw ID pseudonyms mapping).
Proof.
  induction pseudonyms as [|p pseudonyms IH]; [apply avoids_ret|].
  cbn [search].
  destruct (count_matches _ _) as [times_matched total_times].
  apply avoids_bind.
  - unfold exceeds_threshold.
    case_decide; [apply (avoids_raise NullID ZeroDivisionError); done
                 |apply avoids_ret].
  - intros [|]; [apply avoids_ret|apply IH].
Qed.

Lemma avoids_infer_mapping IDs pseudonyms self :
  avoids NullID (_infer_mapping_pseudonym_ID IDs pseudonyms self).
Proof.
  unfold _infer_mapping_pseudonym_ID.
  apply avoids_bind; [avoid|intros xml].
  apply avoids_bind; [avoid|intros raw].
  apply avoids_bind;
    [apply avoids_for_each; intros ? ?; apply avoids_search|intros mapping].
  apply avoids_bind.
  { unfold report_pseudonyms. apply avoids_for_each. intros ? ?.
    case_decide; [apply avoids_ret|apply avoids_print]. }
  intros _. apply avoids_bind.
  { unfold report_IDs. apply avoids_for_each. intros ? ?.
    case_decide; [apply avoids_ret|apply avoids_print]. }
  intros _. apply avoids_ret.
Qed.

(** The exception of the model is never raised: every row of the joined
    table carries an ID, because the reconciler, which divides by the
    number of instants of an ID, has not returned a mapping to the null
    ID. *)
Lemma import_data_never_null strptime lower IDs pseudonyms raw root self :
  avoids NullID (import_data strptime lower IDs pseudonyms raw root self).
Proof.
  intros out out' Hraised.
  destruct (import_datashop strptime lower (import_raw_analytics raw self)
              root out) as [[self1|e] out1] eqn:Himport.
  2:{ unfold import_data in Hraised.
      unfold mbind at 1, py_bind, bind in Hraised. rewrite Himport in Hraised.
      injection Hraised as -> ->.
      by apply (avoids_import_datashop _ _ _ _ _ _ Himport). }
  destruct (_infer_mapping_pseudonym_ID IDs pseudonyms self1
              (out1 ++ ["Figuring out mapping between pseudonyms in raw_analytics file and IDs in Datashop file."; "This may take a while..."])%list)
    as [[self2|e] out2] eqn:Hreconciler.
  - destruct (import_data_after_reconciler strptime lower IDs pseudonyms raw
                root self out self1 out1 self2 out2 Himport Hreconciler)
      as (mapping & raw' & _ & _ & _ & Hrun).
    rewrite Hrun in Hraised. discriminate.
  - unfold import_data in Hraised.
    unfold mbind at 1, py_bind, bind in Hraised. rewrite Himport in Hraised.
    unfold mbind at 1, py_bind, bind in Hraised. cbn [print] in Hraised.
    unfold mbind at 1, py_bind, bind in Hraised. cbn [print] in Hraised.
    rewrite <- app_assoc in Hraised. cbn [app] in Hraised.
    unfold mbind at 1, py_bind, bind in Hraised.
    rewrite Hreconciler in Hraised. injection Hraised as -> ->.
    by apply (avoids_infer_mapping _ _ _ _ _ Hreconciler).
Qed.

End null_facts.

Section import_data_witness.
Import Datashop Reconciler ImportData Table Scenario.

Lemma import_data_keeps_pseudonyms_apart_witness :
  ∃ st,
    first_pass strptime_padded pair_log [] = (Returned st, [])
    ∧ n_sessions backup_module = PyInt 1
    ∧ enumerates [Some "u1"; Some "u2"]
        (xml_student_id
           <$> table lower_ascii (skills backup_module) 1 (answers st))
    ∧ (None ∉ [Some "u1"; Some "u2"])
    ∧ ∃ self' mapping out',
        run (import_data strptime_padded lower_ascii [Some "u1"; Some "u2"]
               ["p3"; "p1"; "p2"] pair_raw pair_log backup_module)
          = (Returned self', out')
        ∧ pseudonym_ID_mapping self' = Some mapping
        ∧ mapping !! "p1" = Some (Some "u1")
        ∧ mapping !! "p2" = Some (Some "u2")
        ∧ mapping !! "p3" = None
        ∧ full_results self'
          = Some [Attempt "u1" (ten_o_clock + 10) "Backup_Q1" 1 true;
                  Attempt "u1" (ten_o_clock + 320) "Backup_Q1" 2 false;
                  Attempt "u2" (ten_o_clock + 3630) "Backup_Q1" 1 false].
Proof.
  assert (∃ st, first_pass strptime_padded pair_log [] = (Returned st, [])
                ∧ table lower_ascii (skills backup_module) 1 (answers st)
                  = pair_xml)
    as (st & Hst & Htable).
  { eexists. split; [vm_compute; reflexivity|]. vm_compute. reflexivity. }
  assert (Henum : enumerates [Some "u1"; Some "u2"]
            (xml_student_id
               <$> table lower_ascii (skills backup_module) 1 (answers st))).
  { rewrite Htable. split; [apply (bool_decide_unpack _); vm_compute; exact I|].
    intros x. change (xml_student_id <$> pair_xml)
      with [Some "u1"; Some "u1"; Some "u2"].
    rewrite !elem_of_cons, !elem_of_nil. tauto. }
  assert (Hnamed : None ∉ [Some "u1"; Some "u2"])
    by (apply (bool_decide_unpack _); vm_compute; exact I).
  exists st. split; [exact Hst|]. split; [reflexivity|].
  split; [exact Henum|]. split; [exact Hnamed|].
  destruct (proj1 (import_data_keeps_pseudonyms_apart strptime_padded
                     lower_ascii [Some "u1"; Some "u2"] ["p3"; "p1"; "p2"]
                     pair_raw pair_log backup_module st [] 1 Hst eq_refl Henum)
              (or_introl Hnamed))
    as (self' & mapping & out' & Hrun & Hmapping & Hfold & Hfull & _).
  exists self', mapping, out'. split; [exact Hrun|]. split; [exact Hmapping|].
  rewrite Htable in Hfold. rewrite Hfull. subst mapping.
  split; [vm_compute; reflexivity|]. split; [vm_compute; reflexivity|].
  split; [vm_compute; reflexivity|]. vm_compute. reflexivity.
Defined.

End import_data_witness.

(** ** The tables and flags of [_read_participant_results] *)

Section reading_facts.
Import Aggregator Reading.

(** A loop whose body always returns and prints nothing, with an invariant
    that knows which elements have been visited. *)
Lemma for_each_visited {A S} (P : list A → S → Prop) (body : S → A → py S)
    l visited s out :
  (∀ visited s x out, P visited s →
     ∃ s', body s x out = (Returned s', out) ∧ P (visited ++ [x])%list s') →
  P visited s →
  ∃ s', for_each l body s out = (Returned s', out) ∧ P (visited ++ l)%list s'.
Proof.
  intros Hbody. revert visited s. induction l as [|x l IH]; intros visited s Hs.
  - exists s. by rewrite app_nil_r.
  - rewrite for_each_cons. destruct (Hbody visited s x out Hs) as (s1 & -> & Hs1).
    rewrite (cons_middle x), app_assoc. by apply IH.
Qed.

Lemma first_try_first_attempt rows ID name out :
  first_try (filter (λ r, student_id r = ID) rows) name out
  = match first_attempt rows ID name with
    | Some row => (Returned row, out)
    | None => (Raised IndexError, out)
    end.
Proof.
  unfold first_try, first_attempt.
  assert (filter (λ r, attempt_no r = 1%Z)
            (filter (λ r, activity_title r = name)
               (filter (λ r, student_id r = ID) rows))
          = filter (λ r, student_id r = ID ∧ activity_title r = name
                         ∧ attempt_no r = 1%Z) rows) as ->.
  { induction rows as [|r rows IH]; [done|].
    rewrite !filter_cons.
    destruct (decide (student_id r = ID)) as [H1|H1].
    - rewrite filter_cons. destruct (decide (activity_title r = name)) as [H2|H2].
      + rewrite filter_cons. destruct (decide (attempt_no r = 1%Z)) as [H3|H3].
        * rewrite decide_True by done. by rewrite IH.
        * rewrite decide_False by tauto. done.
      + rewrite decide_False by tauto. done.
    - rewrite decide_False by tauto. done. }
  by destruct (filter _ rows).
Qed.

Lemma questions_snoc skills skill n :
  questions (skills ++ [skill]) n
  = (questions skills n ++ ((skill,.) <$> seq 1 (Z.to_nat n)))%list.
Proof.
  unfold questions. rewrite bind_app. f_equal. cbn. rewrite app_nil_r.
  induction (seq 1 (Z.to_nat n)) as [|x l IH]; [done|]. cbn. by rewrite <- IH.
Qed.

Lemma elem_of_questions skills n skill session :
  (skill, session) ∈ questions skills n
  ↔ skill ∈ skills ∧ (1 ≤ session)%nat ∧ (Z.of_nat session ≤ n)%Z.
Proof.
  unfold questions. rewrite list_elem_of_bind. split.
  - intros (skill' & (session' & Hq & Hs)%list_elem_of_bind & Hskill).
    apply list_elem_of_singleton in Hq as [= -> ->].
    apply elem_of_seq in Hs. split; [done|]. lia.
  - intros (Hskill & H1 & Hn). exists skill. split; [|done].
    apply list_elem_of_bind. exists session. split; [by left|].
    apply elem_of_seq. lia.
Qed.

Lemma length_questions skills n :
  (0 ≤ n)%Z →
  Z.of_nat (length (questions skills n)) = (n * Z.of_nat (length skills))%Z.
Proof.
  intros Hn. unfold questions. induction skills as [|skill skills IH]; cbn.
  - lia.
  - rewrite length_app, Nat2Z.inj_add, IH.
    assert (length (session ← seq 1 (Z.to_nat n); [(skill, session)])
            = Z.to_nat n) as ->.
    { clear. generalize (Z.to_nat n) 1%nat.
      induction n0 as [|k IHk]; intros start; cbn; [done|]. by rewrite IHk. }
    lia.
Qed.

(** One cell: the loop body returns, prints nothing, and stores what the
    first attempt at the activity says. *)
Lemma read_cell_reads rows p skills sessions visited st skill session out :
  reads rows p skills sessions visited st →
  ∃ st',
    read_cell (filter (λ r, student_id r = ID p) rows) skill st session out
      = (Returned st', out)
    ∧ reads rows p skills sessions (visited ++ [(skill, session)])%list st'.
Proof.
  intros (HID & Hacc & [lo Hlo] & [hi Hhi] & Hi1 & Hl1 & Hi2 & Hl2 & Hi3 & Hl3
          & Hcount & Hcells).
  unfold read_cell, try_except.
  unfold mbind at 1, py_bind, bind.
  unfold mbind at 1, py_bind, bind. rewrite first_try_first_attempt.
  destruct (first_attempt rows (ID p) (activity_name skill session))
    as [row|] eqn:E.
  - cbn [mret py_ret ret]. rewrite Hlo, Hhi.
    unfold instant, mbind, py_bind, bind. cbn [mret py_ret ret].
    eexists. split; [reflexivity|].
    unfold reads. cbn [subject n_answers store ID accumulated_by_date
      first_answer_date last_answer_date answered answer_date correct_first_try
      loc_set index labels cells].
    repeat (split; [by eauto|]). split.
    + rewrite filter_app, length_app, Hcount.
      rewrite filter_cons, decide_True; [done|].
      unfold has_answered. cbn. by rewrite E.
    + intros skill' session'. cbn zeta. specialize (Hcells skill' session').
      cbn zeta in Hcells.
      destruct (decide ((skill', session') = (skill, session))) as [[= -> ->]|Hne].
      * rewrite decide_True by (apply elem_of_app; right; by left).
        rewrite !lookup_partial_alter_eq, E. done.
      * rewrite !lookup_partial_alter_ne by congruence.
        destruct (decide ((skill', session') ∈ visited)) as [Hin|Hin].
        -- rewrite decide_True by (apply elem_of_app; by left). done.
        -- rewrite decide_False; [done|].
           intros [?|?%list_elem_of_singleton]%elem_of_app; done.
  - rewrite decide_True by done. cbn [mret py_ret ret].
    eexists. split; [reflexivity|].
    unfold reads. cbn [subject n_answers store ID accumulated_by_date
      first_answer_date last_answer_date answered answer_date correct_first_try
      loc_set index labels cells].
    repeat (split; [by eauto|]). split.
    + rewrite filter_app, length_app, Hcount.
      rewrite filter_cons, decide_False; [cbn; lia|].
      unfold has_answered. cbn. rewrite E. by intros [? ?].
    + intros skill' session'. cbn zeta. specialize (Hcells skill' session').
      cbn zeta in Hcells.
      destruct (decide ((skill', session') = (skill, session))) as [[= -> ->]|Hne].
      * rewrite decide_True by (apply elem_of_app; right; by left).
        rewrite !lookup_partial_alter_eq, E. done.
      * rewrite !lookup_partial_alter_ne by congruence.
        destruct (decide ((skill', session') ∈ visited)) as [Hin|Hin].
        -- rewrite decide_True by (apply elem_of_app; by left). done.
        -- rewrite decide_False; [done|].
           intros [?|?%list_elem_of_singleton]%elem_of_app; done.
Qed.

(** The whole method, for a module whose session count is given: it
    returns, whatever was printed before stays as it is, and the state of
    the loops has read every question. *)
Lemma read_participant_results_run self p rows n out :
  n_sessions_input self = true →
  n_sessions self = PyInt n →
  full_results self = Some rows →
  ∃ st,
    reads rows p (skills self) (seq 1 (Z.to_nat n))
      (questions (skills self) n) st
    ∧ _read_participant_results self p out
      = (Returned
           ({| skills := skills self; n_sessions := n_sessions self;
               n_sessions_input := n_sessions_input self;
               raw_data := raw_data self; xml_data := xml_data self;
               full_results := full_results self;
               results_read := results_read self;
               pseudonym_ID_mapping := pseudonym_ID_mapping self;
               flags :=
                 <[ID p :=
                     {| started := true;
                        answered_once := bool_decide (0 < n_answers st)%nat;
                        finished :=
                          bool_decide (Z.of_nat (n_answers st)
                                       = n * Z.of_nat (length (skills self)))%Z
                     |}]> (flags self) |},
            Cumulative.participant_cumulative_answers_by_date (subject st)),
         out).
Proof.
  intros Hinput Hn Hrows.
  unfold _read_participant_results. rewrite Hinput.
  unfold mbind at 1, py_bind, bind. cbn [mret py_ret ret].
  rewrite Hn. unfold mbind at 1, py_bind, bind. cbn [integer mret py_ret ret].
  rewrite Hrows. unfold mbind at 1, py_bind, bind. cbn [mret py_ret ret].
  set (sessions := seq 1 (Z.to_nat n)).
  set (mine := filter (λ r, student_id r = ID p) rows).
  match goal with
  | |- context [for_each (skills self) ?body ?s0] =>
      destruct (for_each_visited
                  (λ visited st,
                     reads rows p (skills self) sessions
                       (questions visited n) st)
                  body (skills self) [] s0 out)
        as (st & Hst & Hreads)
  end.
  - intros visited st skill out' Hreads.
    destruct (for_each_visited
                (λ seen st,
                   reads rows p (skills self) sessions
                     (questions visited n ++ ((skill,.) <$> seen))%list st)
                (read_cell mine skill) sessions [] st out')
      as (st' & Hst' & Hreads').
    + intros seen st1 session out1 Hst1.
      destruct (read_cell_reads rows p (skills self) sessions _ st1 skill
                  session out1 Hst1) as (st2 & Hrun & Hst2).
      exists st2. split; [exact Hrun|].
      by rewrite fmap_app, app_assoc.
    + cbn. by rewrite app_nil_r.
    + exists st'. split; [exact Hst'|]. by rewrite questions_snoc.
  - unfold reads. cbn. repeat (split; [by eauto|]).
    by rewrite !lookup_empty.
  - exists st. split; [exact Hreads|].
    unfold mbind at 1, py_bind, bind. rewrite Hst.
    cbn [mret py_ret ret]. by rewrite Hinput.
Qed.

(** X10. [_read_participant_results] for a module whose session count is
    given and whose table is present: it returns and prints nothing. The
    three tables of the participant have the sessions 1..n as rows and the
    skills as columns. For a skill of the module and a session in 1..n the
    cell says whether the table holds a first attempt (attempt number 1) of
    this participant at [<skill>_Q<session>], and if so the date and the
    outcome of the first such row in table order; otherwise the outcome is
    [False] and the date is null. No other cell is set. *)
Theorem read_participant_results_fills_cells_from_first_attempts
    self p rows n :
  n_sessions_input self = true →
  n_sessions self = PyInt n →
  full_results self = Some rows →
  ∃ self' p',
    run (_read_participant_results self p) = (Returned (self', p'), [])
    ∧ ID p' = ID p
    ∧ (index (answered p'), labels (answered p'))
      = (seq 1 (Z.to_nat n), skills self)
    ∧ (index (answer_date p'), labels (answer_date p'))
      = (seq 1 (Z.to_nat n), skills self)
    ∧ (index (correct_first_try p'), labels (correct_first_try p'))
      = (seq 1 (Z.to_nat n), skills self)
    ∧ ∀ skill session,
        let attempt := first_attempt rows (ID p) (activity_name skill session) in
        (skill ∈ skills self → (1 ≤ session)%nat → (Z.of_nat session ≤ n)%Z →
           cells (answered p') !! (session, skill)
             = Some (bool_decide (is_Some attempt))
           ∧ cells (correct_first_try p') !! (session, skill)
             = Some (from_option is_right false attempt)
           ∧ cells (answer_date p') !! (session, skill)
             = date_created <$> attempt)
        ∧ (¬ (skill ∈ skills self ∧ (1 ≤ session)%nat
              ∧ (Z.of_nat session ≤ n)%Z) →
           cells (answered p') !! (session, skill) = None
           ∧ cells (correct_first_try p') !! (session, skill) = None
           ∧ cells (answer_date p') !! (session, skill) = None).
Proof.
  intros Hinput Hn Hrows.
  destruct (read_participant_results_run self p rows n [] Hinput Hn Hrows)
    as (st & Hreads & Hrun).
  destruct Hreads as (HID & _ & _ & _ & Hi1 & Hl1 & Hi2 & Hl2 & Hi3 & Hl3
                      & _ & Hcells).
  do 2 eexists. split; [exact Hrun|].
  cbn [Cumulative.participant_cumulative_answers_by_date ID answered
       answer_date correct_first_try].
  split; [done|]. rewrite Hi1, Hl1, Hi2, Hl2, Hi3, Hl3.
  do 3 (split; [done|]).
  intros skill session. cbn zeta. specialize (Hcells skill session).
  cbn zeta in Hcells. split.
  - intros Hskill H1 Hle. rewrite decide_True in Hcells; [done|].
    by apply elem_of_questions.
  - intros Hout. rewrite decide_False in Hcells; [done|].
    by rewrite elem_of_questions.
Qed.

(** X11. The flags row [_read_participant_results] writes for the
    participant, under the same conditions: [started] is always set;
    [answered once] is set exactly when some question of the module has a
    first attempt of the participant in the table; with a session count
    that is not negative, [finished] is set exactly when every question has
    one. Every other row of the flags and every other attribute of the
    module is left as it was. *)
Theorem read_participant_results_flags self p rows n :
  n_sessions_input self = true →
  n_sessions self = PyInt n →
  full_results self = Some rows →
  ∃ self' p' row,
    run (_read_participant_results self p) = (Returned (self', p'), [])
    ∧ flags self' = <[ID p := row]> (flags self)
    ∧ started row = true
    ∧ (answered_once row = true
       ↔ ∃ q, q ∈ questions (skills self) n ∧ has_answered rows (ID p) q)
    ∧ ((0 ≤ n)%Z →
       (finished row = true
        ↔ ∀ q, q ∈ questions (skills self) n → has_answered rows (ID p) q))
    ∧ (skills self', n_sessions self', n_sessions_input self', raw_data self',
       xml_data self', full_results self', results_read self',
       pseudonym_ID_mapping self')
      = (skills self, n_sessions self, n_sessions_input self, raw_data self,
         xml_data self, full_results self, results_read self,
         pseudonym_ID_mapping self).
Proof.
  intros Hinput Hn Hrows.
  destruct (read_participant_results_run self p rows n [] Hinput Hn Hrows)
    as (st & Hreads & Hrun).
  destruct Hreads as (_ & _ & _ & _ & _ & _ & _ & _ & _ & _ & Hcount & _).
  do 3 eexists. split; [exact Hrun|].
  cbn [flags started answered_once finished skills n_sessions n_sessions_input
       raw_data xml_data full_results results_read pseudonym_ID_mapping].
  split; [done|]. split; [done|]. rewrite Hcount. split; [|split; [|done]].
  - cbn [answered_once]. rewrite bool_decide_eq_true. split.
    + intros Hpos.
      destruct (filter (has_answered rows (ID p)) (questions (skills self) n))
        as [|q l] eqn:E; [cbn in Hpos; lia|].
      assert (q ∈ filter (has_answered rows (ID p))
                    (questions (skills self) n)) as Hq by (rewrite E; by left).
      apply list_elem_of_filter in Hq as [Hq Hin]. by exists q.
    + intros (q & Hin & Hq).
      assert (q ∈ filter (has_answered rows (ID p))
                    (questions (skills self) n)) as Hq'
        by by apply list_elem_of_filter.
      destruct (filter _ _); [by apply elem_of_nil in Hq'|cbn; lia].
  - intros Hpos. cbn [finished].
    rewrite bool_decide_eq_true, <- length_questions by done.
    rewrite Nat2Z.inj_iff, length_filter_eq, Forall_forall. done.
Qed.

Lemma read_participant_results_fills_cells_from_first_attempts_witness :
  n_sessions_input Scenario.backup_results = true
  ∧ n_sessions Scenario.backup_results = PyInt 1
  ∧ ∃ self' p',
      run (_read_participant_results Scenario.backup_results
             (new_participant "u1")) = (Returned (self', p'), [])
      ∧ cells (answered p') !! (1%nat, "Backup") = Some true
      ∧ cells (answer_date p') !! (1%nat, "Backup")
        = Some Scenario.ten_o_clock.
Proof.
  split; [reflexivity|]. split; [reflexivity|].
  destruct (read_participant_results_fills_cells_from_first_attempts
              Scenario.backup_results (new_participant "u1") _ 1
              eq_refl eq_refl eq_refl)
    as (self' & p' & Hrun & _ & _ & _ & _ & Hcells).
  exists self', p'. split; [exact Hrun|].
  destruct (proj1 (Hcells "Backup" 1%nat)) as (Hanswered & _ & Hdate).
  - apply (bool_decide_unpack _). vm_compute. exact I.
  - lia.
  - lia.
  - split; [exact Hanswered|exact Hdate].
Defined.

Lemma read_participant_results_flags_witness :
  n_sessions_input Scenario.backup_results = true
  ∧ n_sessions Scenario.backup_results = PyInt 1
  ∧ ∃ self' p' row,
      run (_read_participant_results Scenario.backup_results
             (new_participant "u1")) = (Returned (self', p'), [])
      ∧ flags self' = <[ID (new_participant "u1") := row]>
                        (flags Scenario.backup_results)
      ∧ started row = true.
Proof.
  split; [reflexivity|]. split; [reflexivity|].
  destruct (read_participant_results_flags
              Scenario.backup_results (new_participant "u1") _ 1
              eq_refl eq_refl eq_refl)
    as (self' & p' & row & Hrun & Hflags & Hstarted & _).
  exists self', p', row. split; [exact Hrun|]. split; [exact Hflags|exact Hstarted].
Defined.

End reading_facts.

(** ** The cumulative series, date by date *)

Section series_facts.
Import Cumulative Series.

Lemma length_filter_ext_in {A} (P Q : A → Prop) `{∀ x, Decision (P x)}
    `{∀ x, Decision (Q x)} (l : list A) :
  (∀ x, x ∈ l → P x ↔ Q x) →
  length (filter P l) = length (filter Q l).
Proof.
  induction l as [|x l IH]; intros Hext; [done|].
  rewrite !filter_cons.
  assert (length (filter P l) = length (filter Q l)) as Hl.
  { apply IH. intros y Hy. apply Hext. by right. }
  specialize (Hext x (ltac:(by left))).
  destruct (decide (P x)), (decide (Q x)); cbn [length]; tauto || lia.
Qed.

Lemma tally_tallied (cells : list (option Z)) seen dates :
  tallied seen dates → tallied (tally cells seen) (dates ++ omap id cells)%list.
Proof.
  unfold tally. revert seen dates.
  induction cells as [|[date|] cells IH]; intros seen dates Hseen; cbn [foldl].
  - by rewrite app_nil_r.
  - change (omap id (Some date :: cells)) with (date :: omap id cells).
    rewrite (cons_middle date), app_assoc. apply IH.
    intros d. pose proof (Hseen d) as Hd. pose proof (Hseen date) as Hdate.
    rewrite filter_app, length_app, filter_cons, filter_nil.
    destruct (decide (date = d)) as [->|Hne]; cbn [length].
    + destruct (seen !! d) as [k|] eqn:E.
      * rewrite lookup_insert_eq. case_decide; [done|].
        injection Hd as ->. rewrite decide_False by lia. f_equal.
      * rewrite lookup_insert_eq. case_decide as H0; [|done].
        rewrite H0. done.
    + rewrite Nat.add_0_r.
      destruct (seen !! date); rewrite lookup_insert_ne by done; exact Hd.
  - apply IH, Hseen.
Qed.

Lemma group_tallied (participants : list participant) seen dates :
  tallied seen dates →
  tallied (foldl (λ seen p, tally (flatten (answer_date p)) seen)
             seen participants)
    (dates ++ answer_dates participants)%list.
Proof.
  revert seen dates.
  induction participants as [|p participants IH]; intros seen dates Hseen;
    cbn [foldl].
  - by rewrite app_nil_r.
  - unfold answer_dates. cbn [mbind list_bind]. rewrite app_assoc.
    apply IH. rewrite <- omap_id_fmap, <- flatten_positions.
    by apply tally_tallied.
Qed.

Lemma tallied_total seen dates d :
  tallied seen dates → seen !!! d = length (filter (λ t, t = d) dates).
Proof.
  intros Hseen. rewrite lookup_total_alt, (Hseen d).
  case_decide as H0; cbn; [by rewrite H0|done].
Qed.

Lemma tallied_keys seen dates d :
  tallied seen dates → d ∈ (map_to_list seen).*1 ↔ d ∈ dates.
Proof.
  intros Hseen. rewrite list_elem_of_fmap. split.
  - intros ([d' k] & -> & Hin%elem_of_map_to_list). cbn in *.
    rewrite (Hseen d') in Hin. case_decide as H0; [done|].
    destruct (filter (λ t, t = d') dates) as [|t l] eqn:E; [done|].
    assert (t ∈ filter (λ t, t = d') dates) as [-> ?]%list_elem_of_filter
      by (rewrite E; by left). done.
  - intros Hin. exists (d, length (filter (λ t, t = d) dates)).
    split; [done|]. apply elem_of_map_to_list. rewrite (Hseen d).
    rewrite decide_False; [done|].
    assert (d ∈ filter (λ t, t = d) dates) as Hd by by apply list_elem_of_filter.
    destruct (filter _ dates); [by apply elem_of_nil in Hd|done].
Qed.

Lemma length_filter_split (d0 : Z) (rest all : list Z) :
  d0 ∉ rest →
  length (filter (λ t, t ∉ rest) all)
  = (length (filter (λ t, t ∉ d0 :: rest) all)
     + length (filter (λ t, t = d0) all))%nat.
Proof.
  intros Hd0. induction all as [|t all IH]; [done|].
  rewrite !filter_cons.
  destruct (decide (t = d0)) as [->|Hne].
  - rewrite decide_True by done.
    rewrite (decide_False (P := d0 ∉ d0 :: rest)) by (intros H; apply H; by left).
    cbn [length]. lia.
  - destruct (decide (t ∉ rest)) as [Hin|Hin].
    + rewrite decide_True by (by intros [?|?]%elem_of_cons). cbn [length]. lia.
    + rewrite decide_False; [lia|]. intros H. apply Hin. intros ?. apply H.
      by right.
Qed.

(** The accumulating loop over dates in strictly ascending order: the count
    stored at a date is the number of instants up to that date. *)
Lemma accumulate_counts (all : list Z) seen dates acc :
  (∀ d, seen !!! d = length (filter (λ t, t = d) all)) →
  StronglySorted Z.lt dates →
  (∀ t, t ∈ all → t ∉ dates → Forall (λ d, t < d)%Z dates) →
  acc = length (filter (λ t, t ∉ dates) all) →
  ∀ d c, (d, c) ∈ accumulate seen dates acc →
         c = length (filter (λ t, t ≤ d)%Z all).
Proof.
  intros Hseen. revert acc.
  induction dates as [|d0 rest IH]; intros acc Hsorted Hbelow Hacc d c Hin.
  - by apply elem_of_nil in Hin.
  - apply StronglySorted_inv in Hsorted as [Hrest Hd0].
    assert (d0 ∉ rest) as Hfresh.
    { intros Hin'. rewrite Forall_forall in Hd0. specialize (Hd0 _ Hin'). lia. }
    assert ((acc + seen !!! d0)%nat = length (filter (λ t, t ∉ rest) all))
      as Hacc'.
    { rewrite Hseen, Hacc. symmetry. by apply length_filter_split. }
    cbn [accumulate] in Hin. apply elem_of_cons in Hin as [[= -> ->]|Hin].
    + rewrite Hacc'. apply length_filter_ext_in. intros t Ht. split.
      * intros Hnot. destruct (decide (t = d0)) as [->|Hne]; [lia|].
        assert (t ∉ d0 :: rest) as Hout by (by intros [?|?]%elem_of_cons).
        specialize (Hbelow t Ht Hout). apply Forall_cons in Hbelow as [? _]. lia.
      * intros Hle Hin'. rewrite Forall_forall in Hd0.
        specialize (Hd0 _ Hin'). lia.
    + apply (IH (acc + seen !!! d0)%nat); [done| |done|done].
      intros t Ht Hout. destruct (decide (t = d0)) as [->|Hne]; [done|].
      assert (t ∉ d0 :: rest) as Hout' by (by intros [?|?]%elem_of_cons).
      specialize (Hbelow t Ht Hout'). by apply Forall_cons in Hbelow as [_ ?].
Qed.

(** The series of a group: its dates and its counts. *)
Lemma series_entries (participants : list participant) :
  let series := _cumulative_answers_by_date participants in
  (∀ d, d ∈ series.*1 ↔ d ∈ answer_dates participants)
  ∧ (∀ d c, (d, c) ∈ series →
       c = length (filter (λ t, t ≤ d)%Z (answer_dates participants))).
Proof.
  cbn zeta. unfold _cumulative_answers_by_date.
  set (seen := foldl (λ seen p, tally (flatten (answer_date p)) seen)
                 ∅ participants).
  assert (Hseen : tallied seen (answer_dates participants)).
  { apply (group_tallied participants ∅ []). intros d. cbn.
    by rewrite lookup_empty. }
  split.
  - intros d. rewrite accumulate_dates, sorted_dates_perm.
    by apply tallied_keys.
  - apply accumulate_counts.
    + intros d. by apply tallied_total.
    + apply strictly_sorted.
      * rewrite sorted_dates_perm. apply NoDup_fst_map_to_list.
      * apply StronglySorted_merge_sort; apply _.
    + intros t Ht Hout. exfalso. apply Hout.
      rewrite sorted_dates_perm. by apply (tallied_keys _ _ _ Hseen).
    + destruct (filter (λ t, t ∉ sorted_dates seen)
                  (answer_dates participants)) as [|t l] eqn:E; [done|].
      assert (t ∈ filter (λ t, t ∉ sorted_dates seen)
                    (answer_dates participants)) as [Hout Ht]%list_elem_of_filter
        by (rewrite E; by left).
      exfalso. apply Hout.
      rewrite sorted_dates_perm. by apply (tallied_keys _ _ _ Hseen).
Qed.

(** X12. The cumulative series of a group, entry by entry, where
    [answer_dates] lists the instants found in the cells of the answer-date
    tables at the positions (session, skill) of each table: the dates of the
    series are exactly these instants, and the count stored at a date is the
    number of populated cells whose instant is not later than that date. The
    series of one participant is the series of the group that consists of
    this participant. For Ann (Backup at 10:00 in session 1, Password and
    Backup at 10:01 in sessions 1 and 2) and Ben (Backup at 10:00) the
    instants are 10:00, 10:01, 10:01, 10:00 and the series is 2 at 10:00
    and 4 at 10:01. *)
Theorem cumulative_series_counts_cells_up_to_each_date
    (participants : list participant) :
  let series := _cumulative_answers_by_date participants in
  (∀ d, d ∈ series.*1 ↔ d ∈ answer_dates participants)
  ∧ (∀ d c, (d, c) ∈ series →
            c = length (filter (λ t, t ≤ d)%Z (answer_dates participants)))
  ∧ (∀ p d c,
       (d, c) ∈ accumulated_by_date (participant_cumulative_answers_by_date p)
       → c = length (filter (λ t, t ≤ d)%Z (answer_dates [p])))
  ∧ answer_dates [Scenario.ann; Scenario.ben]
    = [Scenario.ten_o_clock; (Scenario.ten_o_clock + 60)%Z;
       (Scenario.ten_o_clock + 60)%Z; Scenario.ten_o_clock]
  ∧ _cumulative_answers_by_date [Scenario.ann; Scenario.ben]
    = [(Scenario.ten_o_clock, 2%nat); ((Scenario.ten_o_clock + 60)%Z, 4%nat)].
Proof.
  cbn zeta. split; [apply series_entries|]. split; [apply series_entries|].
  split; [|split; vm_compute; reflexivity].
  intros p d c Hin. by apply (proj2 (series_entries [p])).
Qed.

End series_facts.

(** ** When the session count can be inferred, and what is printed *)

Section inference_facts.
Import Resolver.

Lemma for_each_print_entries (counts : list (string * nat)) out :
  for_each counts
    (λ (_ : unit) '(skill_name, n), print (skill_name +:+ ": " +:+ pretty n))
    tt out
  = (Returned tt,
     (out ++ ((λ '(skill, k), skill +:+ ": " +:+ pretty k) <$> counts))%list).
Proof.
  revert out. induction counts as [|[skill k] counts IH]; intros out.
  - cbn. by rewrite app_nil_r.
  - rewrite for_each_cons. cbn [print]. rewrite IH, fmap_cons.
    by rewrite <- app_assoc.
Qed.

Lemma od_set_fresh {V} (k : string) (v : V) d :
  k ∉ d.*1 → od_set k v d = (d ++ [(k, v)])%list.
Proof.
  induction d as [|[k' v'] d IH]; intros Hk; [done|].
  cbn in *. apply not_elem_of_cons in Hk as [Hne Hk].
  rewrite decide_False by done. by rewrite IH.
Qed.

Lemma od_set_keys {V} (k : string) (v : V) d :
  k ∈ d.*1 → (od_set k v d).*1 = d.*1.
Proof.
  induction d as [|[k' v'] d IH]; intros Hk; [by apply elem_of_nil in Hk|].
  cbn in *. destruct (decide (k' = k)) as [->|Hne]; [done|].
  apply elem_of_cons in Hk as [?|Hk]; [done|]. cbn. by rewrite IH.
Qed.

Lemma od_set_entries {V} (k : string) (v : V) d k' v' :
  (k', v') ∈ od_set k v d → (k', v') = (k, v) ∨ (k', v') ∈ d.
Proof.
  induction d as [|[k1 v1] d IH]; cbn.
  - intros ?%list_elem_of_singleton. by left.
  - destruct (decide (k1 = k)) as [->|Hne].
    + intros [?|?]%elem_of_cons; [by left|right; by right].
    + intros [->|Hin]%elem_of_cons; [right; by left|].
      destruct (IH Hin); [by left|right; by right].
Qed.

(** The dictionary of the counts: one entry for each distinct skill, holding
    the count of that skill; in the order of the skills when no skill is
    listed twice. *)
Lemma counts_entries {V} (count : string → V) (skills : list string) :
  let counts := foldl (λ d skill, od_set skill (count skill) d) [] skills in
  NoDup counts.*1
  ∧ (∀ skill, skill ∈ counts.*1 ↔ skill ∈ skills)
  ∧ (∀ skill k, (skill, k) ∈ counts → k = count skill)
  ∧ (NoDup skills → counts = (λ skill, (skill, count skill)) <$> skills).
Proof.
  induction skills as [|skill skills (IHnodup & IHkeys & IHvalues & IHorder)]
    using rev_ind; cbn zeta.
  - split; [constructor|]. split; [done|]. split; [|done].
    intros ? ? Hin. by apply elem_of_nil in Hin.
  - rewrite foldl_snoc.
    set (counts := foldl (λ d skill, od_set skill (count skill) d) [] skills)
      in *.
    destruct (decide (skill ∈ counts.*1)) as [Hin|Hout].
    + rewrite od_set_keys by done. split; [done|]. split; [|split].
      * intros s. rewrite IHkeys, elem_of_app, list_elem_of_singleton.
        split; [by left|]. intros [?| ->]; [done|]. by apply IHkeys.
      * intros s k [[= -> ->]|Hk]%od_set_entries; [done|]. by apply IHvalues.
      * intros [_ [Hfresh _]]%NoDup_app. exfalso.
        apply (Hfresh skill); [by apply IHkeys|by left].
    + rewrite od_set_fresh by done. rewrite fmap_app. split; [|split; [|split]].
      * apply NoDup_app. split; [done|]. split; [|apply NoDup_singleton].
        intros s Hs ->%list_elem_of_singleton. done.
      * intros s. rewrite !elem_of_app, IHkeys. done.
      * intros s k [Hk|[= -> ->]%list_elem_of_singleton]%elem_of_app; [|done].
        by apply IHvalues.
      * intros [Hnodup _]%NoDup_app. rewrite fmap_app. by rewrite IHorder.
Qed.

(** The method on a module that has read results, has a table and has a
    skill: it returns, and with [verbose] it prints the heading and one line
    for each entry of the dictionary. *)
Lemma infer_sessions_run self rows verbose out :
  results_read self = true →
  full_results self = Some rows →
  skills self ≠ [] →
  let activities := activity_title <$> rows in
  let count := λ skill,
    default 0%nat (probe (S (length activities)) activities skill 0) in
  let counts :=
    foldl (λ d skill, od_set skill (count skill) d) [] (skills self) in
  (∀ skill, contiguous activities skill (count skill))
  ∧ ∃ n,
      n ∈ counts.*2 ∧ (∀ v, v ∈ counts.*2 → (v ≤ n)%nat)
      ∧ infer_n_sessions_from_full_results self verbose out
        = (Returned
             {| skills := skills self; n_sessions := PyInt (Z.of_nat n);
                n_sessions_input := true;
                raw_data := raw_data self; xml_data := xml_data self;
                full_results := full_results self;
                results_read := results_read self;
                pseudonym_ID_mapping := pseudonym_ID_mapping self;
                flags := flags self |},
           (out ++ (if verbose
                    then "Number of sessions registered:"
                         :: ((λ '(skill, k), skill +:+ ": " +:+ pretty k)
                               <$> counts)
                    else []))%list).
Proof.
  intros Hread Hrows Hskills. cbn zeta.
  set (activities := activity_title <$> rows).
  set (count := λ skill,
         default 0%nat (probe (S (length activities)) activities skill 0)).
  assert (Hcount : ∀ skill,
            probe (S (length activities)) activities skill 0
              = Some (count skill)
            ∧ contiguous activities skill (count skill)).
  { intros skill.
    destruct (probe_contiguous (S (length activities)) activities skill 0)
      as (k & Hk & Hcont); [intros j Hj; lia | lia |].
    unfold count. rewrite Hk. done. }
  split; [intros skill; apply Hcount|].
  assert (Hloop : ∀ out,
            for_each (skills self) (count_sessions self) [] out
            = (Returned (foldl (λ d skill, od_set skill (count skill) d)
                           [] (skills self)), out)).
  { intros out'. apply for_each_pure. intros d skill o _.
    unfold count_sessions. rewrite Hrows.
    unfold mbind, py_bind, bind, mret, py_ret, ret at 1.
    change (activity_title <$> rows) with activities.
    by rewrite (proj1 (Hcount skill)). }
  destruct (counts_spec count (skills self)) as [Hvalues Hkeys].
  cbn zeta in Hvalues, Hkeys.
  set (counts := foldl (λ d skill, od_set skill (count skill) d)
                   [] (skills self)) in *.
  assert (Hne : counts.*2 ≠ []).
  { destruct (skills self) as [|skill skills'] eqn:E; [done|].
    intros Hnil. specialize (Hkeys skill (ltac:(by left))).
    apply od_get_values in Hkeys. rewrite Hnil in Hkeys.
    by apply elem_of_nil in Hkeys. }
  destruct verbose.
  - destruct (maximum_spec (counts.*2)
                (out ++ "Number of sessions registered:"
                   :: ((λ '(skill, k), skill +:+ ": " +:+ pretty k) <$> counts))
                Hne) as (n & Hmax & Hin & Hle).
    exists n. split; [done|]. split; [done|].
    unfold infer_n_sessions_from_full_results. rewrite Hread.
    unfold mbind at 1, py_bind, bind.
    unfold mbind at 1, py_bind, bind. rewrite Hloop. cbn [mret py_ret ret].
    unfold mbind at 1, py_bind, bind.
    unfold mbind at 1, py_bind, bind. cbn [print].
    unfold mbind at 1, py_bind, bind. cbn [load ret]. fold counts.
    rewrite for_each_print_entries, <- app_assoc.
    change ((["Number of sessions registered:"] ++ ?l)%list)
      with ("Number of sessions registered:" :: l).
    unfold mbind at 1, py_bind, bind. cbn [load ret].
    unfold mbind at 1, py_bind, bind. rewrite Hmax. reflexivity.
  - destruct (maximum_spec (counts.*2) out Hne) as (n & Hmax & Hin & Hle).
    exists n. split; [done|]. split; [done|].
    unfold infer_n_sessions_from_full_results. rewrite Hread.
    unfold mbind at 1, py_bind, bind.
    unfold mbind at 1, py_bind, bind. rewrite Hloop. cbn [mret py_ret ret].
    unfold mbind at 1, py_bind, bind. cbn [mret py_ret ret].
    unfold mbind at 1, py_bind, bind. cbn [load ret]. fold counts.
    unfold mbind at 1, py_bind, bind. rewrite Hmax. by rewrite app_nil_r.
Qed.

(** X13. When [infer_n_sessions_from_full_results] returns at all: exactly
    when results have been read, the table is present and the module has a
    skill. Otherwise no session count is stored: without results read the
    message is printed and the dictionary of the counts is not bound
    ([UnboundLocalError], after the heading when [verbose]); without skills
    the maximum of nothing is taken ([ValueError]); with skills but without
    a table the table cannot be indexed ([TypeError]). The search for the
    next activity always ends. *)
Theorem inference_returns_iff_results_table_and_skills self verbose :
  ((∃ self' out,
      run (infer_n_sessions_from_full_results self verbose)
        = (Returned self', out))
   ↔ results_read self = true ∧ skills self ≠ []
     ∧ is_Some (full_results self))
  ∧ (results_read self = false →
     run (infer_n_sessions_from_full_results self verbose)
     = (Raised UnboundLocalError,
        "Must read a file of results first!"
          :: (if verbose then ["Number of sessions registered:"] else [])))
  ∧ (results_read self = true → skills self = [] →
     run (infer_n_sessions_from_full_results self verbose)
     = (Raised ValueError,
        if verbose then ["Number of sessions registered:"] else []))
  ∧ (results_read self = true → skills self ≠ [] → full_results self = None →
     run (infer_n_sessions_from_full_results self verbose)
     = (Raised TypeError, [])).
Proof.
  assert (Hunread : results_read self = false →
     run (infer_n_sessions_from_full_results self verbose)
     = (Raised UnboundLocalError,
        "Must read a file of results first!"
          :: (if verbose then ["Number of sessions registered:"] else []))).
  { intros Hread. unfold run, infer_n_sessions_from_full_results.
    rewrite Hread. by destruct verbose. }
  assert (Hempty : results_read self = true → skills self = [] →
     run (infer_n_sessions_from_full_results self verbose)
     = (Raised ValueError,
        if verbose then ["Number of sessions registered:"] else [])).
  { intros Hread Hskills. unfold run, infer_n_sessions_from_full_results.
    rewrite Hread, Hskills. by destruct verbose. }
  assert (Hmissing : results_read self = true → skills self ≠ [] →
     full_results self = None →
     run (infer_n_sessions_from_full_results self verbose)
     = (Raised TypeError, [])).
  { intros Hread Hskills Hrows.
    unfold run, infer_n_sessions_from_full_results. rewrite Hread.
    destruct (skills self) as [|skill skills']; [done|].
    unfold mbind at 1, py_bind, bind.
    unfold mbind at 1, py_bind, bind. rewrite for_each_cons.
    unfold count_sessions at 1. rewrite Hrows. reflexivity. }
  split; [|done]. split.
  - intros (self' & out & Hrun).
    destruct (results_read self) eqn:Hread;
      [|rewrite Hunread in Hrun by done; discriminate].
    destruct (decide (skills self = [])) as [Hskills|Hskills];
      [rewrite Hempty in Hrun by done; discriminate|].
    destruct (full_results self) as [rows|] eqn:Hrows;
      [|rewrite Hmissing in Hrun by done; discriminate].
    by eauto.
  - intros (Hread & Hskills & [rows Hrows]).
    destruct (infer_sessions_run self rows verbose [] Hread Hrows Hskills)
      as (_ & n & _ & _ & Hrun).
    do 2 eexists. exact Hrun.
Qed.

(** X14. What [verbose] adds to the inference: the module that is returned
    is the same, and after the heading one line '<skill>: <k>' is printed
    for each distinct skill, [k] being the length of the contiguous run of
    sessions of that skill in the table; the lines follow the order of the
    skills when no skill is listed twice. The count that is stored is the
    largest of these, and never more than the number of rows of the
    table. *)
Theorem verbose_inference_lists_the_count_of_each_skill self rows :
  results_read self = true →
  full_results self = Some rows →
  skills self ≠ [] →
  ∃ self' (counts : list (string * nat)) (n : nat),
    run (infer_n_sessions_from_full_results self false) = (Returned self', [])
    ∧ run (infer_n_sessions_from_full_results self true)
      = (Returned self',
         "Number of sessions registered:"
           :: ((λ '(skill, k), skill +:+ ": " +:+ pretty k) <$> counts))
    ∧ NoDup counts.*1
    ∧ (∀ skill, skill ∈ counts.*1 ↔ skill ∈ skills self)
    ∧ (∀ skill k, (skill, k) ∈ counts →
         contiguous (activity_title <$> rows) skill k)
    ∧ (NoDup (skills self) → counts.*1 = skills self)
    ∧ n_sessions self' = PyInt (Z.of_nat n)
    ∧ n ∈ counts.*2 ∧ (∀ k, k ∈ counts.*2 → (k ≤ n)%nat)
    ∧ (n ≤ length rows)%nat.
Proof.
  intros Hread Hrows Hskills.
  destruct (infer_sessions_run self rows false [] Hread Hrows Hskills)
    as (Hcont & n & Hin & Hle & Hquiet).
  destruct (infer_sessions_run self rows true [] Hread Hrows Hskills)
    as (_ & n' & Hin' & Hle' & Hverbose).
  cbn zeta in *.
  set (activities := activity_title <$> rows) in *.
  set (count := λ skill,
         default 0%nat (probe (S (length activities)) activities skill 0)) in *.
  destruct (counts_entries count (skills self))
    as (Hnodup & Hkeys & Hvalues & Horder). cbn zeta in *.
  set (counts := foldl (λ d skill, od_set skill (count skill) d)
                   [] (skills self)) in *.
  assert (n' = n) as -> by (apply Nat.le_antisymm; [by apply Hle|by apply Hle']).
  eexists _, counts, n. split; [exact Hquiet|]. split; [exact Hverbose|].
  split; [done|]. split; [done|]. split.
  { intros skill k ->%Hvalues. apply Hcont. }
  split.
  { intros Hskills'. rewrite (Horder Hskills'), <- list_fmap_compose.
    apply list_fmap_id. }
  split; [done|]. split; [done|]. split; [done|].
  apply list_elem_of_fmap in Hin as ([skill k] & -> & Hk). cbn.
  apply Hvalues in Hk as ->.
  rewrite <- (length_fmap activity_title rows).
  apply (probed_sessions_bounded activities skill). apply Hcont.
Qed.

Lemma verbose_inference_lists_the_count_of_each_skill_witness :
  results_read Scenario.gap_results = true
  ∧ skills Scenario.gap_results ≠ []
  ∧ ∃ self' (counts : list (string * nat)),
      run (infer_n_sessions_from_full_results Scenario.gap_results true)
      = (Returned self',
         "Number of sessions registered:"
           :: ((λ '(skill, k), skill +:+ ": " +:+ pretty k) <$> counts))
      ∧ counts.*1 = skills Scenario.gap_results.
Proof.
  split; [reflexivity|]. split; [discriminate|].
  destruct (verbose_inference_lists_the_count_of_each_skill
              Scenario.gap_results _ eq_refl eq_refl)
    as (self' & counts & n & _ & Hrun & _ & _ & _ & Horder & _);
    [discriminate|].
  exists self', counts. split; [exact Hrun|]. apply Horder.
  apply (bool_decide_unpack _). vm_compute. exact I.
Defined.

Lemma inference_returns_iff_results_table_and_skills_witness :
  results_read Scenario.backup_module = false
  ∧ run (infer_n_sessions_from_full_results Scenario.backup_module false)
    = (Raised UnboundLocalError, ["Must read a file of results first!"]).
Proof.
  split; [reflexivity|].
  exact (proj1 (proj2 (inference_returns_iff_results_table_and_skills
                         Scenario.backup_module false)) eq_refl).
Defined.

(** X15. [_read_participant_results] on a module without a session count,
    with results read, a table and a skill: it prints the one line that
    announces the inference, stores the inferred count [n] (the longest
    contiguous run of sessions among the skills), and builds the tables of
    the participant with the sessions 1..n. The module it returns has its
    session count, so reading a further participant prints nothing. *)
Theorem read_participant_results_infers_sessions_once self p rows :
  n_sessions_input self = false →
  results_read self = true →
  full_results self = Some rows →
  skills self ≠ [] →
  ∃ self' p' (n : nat),
    run (Aggregator._read_participant_results self p)
      = (Returned (self', p'),
         ["Inferring number of sessions from OLI-Torus output"])
    ∧ n_sessions self' = PyInt (Z.of_nat n)
    ∧ n_sessions_input self' = true
    ∧ (∃ skill, skill ∈ skills self
                ∧ contiguous (activity_title <$> rows) skill n)
    ∧ (∀ skill, skill ∈ skills self →
         ∃ k, contiguous (activity_title <$> rows) skill k ∧ (k ≤ n)%nat)
    ∧ index (answered p') = seq 1 n
    ∧ labels (answered p') = skills self
    ∧ ∀ q, ∃ self'' q',
        run (Aggregator._read_participant_results self' q)
          = (Returned (self'', q'), []).
Proof.
  intros Hinput Hread Hrows Hskills.
  destruct (infer_sessions_run self rows false
              ["Inferring number of sessions from OLI-Torus output"]
              Hread Hrows Hskills) as (Hcont & n & Hin & Hle & Hrun).
  cbn zeta in *.
  set (activities := activity_title <$> rows) in *.
  set (count := λ skill,
         default 0%nat (probe (S (length activities)) activities skill 0)) in *.
  destruct (counts_entries count (skills self))
    as (_ & Hkeys & Hvalues & _). cbn zeta in *.
  set (counts := foldl (λ d skill, od_set skill (count skill) d)
                   [] (skills self)) in *.
  match type of Hrun with
  | _ = (Returned ?m, _) => set (self1 := m) in *
  end.
  destruct (read_participant_results_run self1 p rows (Z.of_nat n)
              ["Inferring number of sessions from OLI-Torus output"]
              eq_refl eq_refl Hrows) as (st & Hreads & Hrun1).
  destruct Hreads as (_ & _ & _ & _ & Hi1 & Hl1 & _).
  do 2 eexists. exists n. split.
  { unfold run, Aggregator._read_participant_results. rewrite Hinput.
    unfold mbind at 1, py_bind, bind.
    unfold mbind at 1, py_bind, bind. cbn [print app].
    rewrite Hrun. fold self1.
    unfold Aggregator._read_participant_results in Hrun1.
    change (n_sessions_input self1) with true in Hrun1.
    unfold mbind at 1, py_bind, bind in Hrun1. cbn [mret py_ret ret] in Hrun1.
    exact Hrun1. }
  cbn [n_sessions n_sessions_input Cumulative.participant_cumulative_answers_by_date answered].
  split; [done|]. split; [done|]. split.
  { apply list_elem_of_fmap in Hin as ([skill k] & -> & Hk). cbn.
    pose proof Hk as ->%Hvalues. exists skill. split; [|apply Hcont].
    apply Hkeys, list_elem_of_fmap. by exists (skill, count skill). }
  split.
  { intros skill Hskill. exists (count skill). split; [apply Hcont|].
    apply Hle. apply Hkeys in Hskill.
    apply list_elem_of_fmap in Hskill as ([skill' k] & -> & Hk). cbn.
    pose proof Hk as ->%Hvalues. apply list_elem_of_fmap.
    by exists (skill', count skill'). }
  rewrite Hi1, Hl1, Nat2Z.id. split; [done|]. split; [done|].
  intros q.
  destruct (read_participant_results_run
              {| skills := skills self1; n_sessions := n_sessions self1;
                 n_sessions_input := n_sessions_input self1;
                 raw_data := raw_data self1; xml_data := xml_data self1;
                 full_results := full_results self1;
                 results_read := results_read self1;
                 pseudonym_ID_mapping := pseudonym_ID_mapping self1;
                 flags := <[ID p :=
                   {| started := true;
                      answered_once :=
                        bool_decide (0 < Aggregator.n_answers st)%nat;
                      finished :=
                        bool_decide
                          (Z.of_nat (Aggregator.n_answers st)
                           = Z.of_nat n * Z.of_nat (length (skills self1)))%Z
                   |}]> (flags self1) |}
              q rows (Z.of_nat n) [] eq_refl eq_refl Hrows)
    as (st' & _ & Hrun2).
  do 2 eexists. exact Hrun2.
Qed.

Lemma read_participant_results_infers_sessions_once_witness :
  n_sessions_input Scenario.gap_results = false
  ∧ results_read Scenario.gap_results = true
  ∧ skills Scenario.gap_results ≠ []
  ∧ ∃ self' p' (n : nat),
      run (Aggregator._read_participant_results Scenario.gap_results
             (new_participant "u1"))
        = (Returned (self', p'),
           ["Inferring number of sessions from OLI-Torus output"])
      ∧ n_sessions self' = PyInt (Z.of_nat n).
Proof.
  split; [reflexivity|]. split; [reflexivity|]. split; [discriminate|].
  destruct (read_participant_results_infers_sessions_once
              Scenario.gap_results (new_participant "u1") _
              eq_refl eq_refl eq_refl)
    as (self' & p' & n & Hrun & Hn & _); [discriminate|].
  exists self', p', n. split; [exact Hrun|exact Hn].
Defined.

End inference_facts.

(** ** The participants of a module and the script that reads them *)

(** The constructor on an integer that [np.isfinite] cannot convert, and on
    the arguments of the scenario. *)
Lemma init_wide_integer competencies n :
  ¬ (- 2 ^ 63 ≤ n < 2 ^ 64)%Z →
  run (init competencies (PyInt n)) = (Raised TypeError, []).
Proof.
  intros Hn. unfold run, init.
  unfold mbind, py_bind, bind. cbn [isfinite]. by rewrite decide_False.
Qed.

Lemma init_backup_module :
  run (init [("Security", ["Backup"])] (PyInt 1))
  = (Returned Scenario.backup_module, []).
Proof. reflexivity. Qed.

Section roster_facts.
Import Roster.

Lemma init_backup_roster participants :
  run (init [("Security", ["Backup"])] (PyInt 1) participants)
  = (Returned (backup_roster participants), []).
Proof. reflexivity. Qed.

Lemma init_roster_wide_integer competencies participants n :
  ¬ (- 2 ^ 63 ≤ n < 2 ^ 64)%Z →
  run (init competencies (PyInt n) participants) = (Raised TypeError, []).
Proof.
  intros Hn. pose proof (init_wide_integer competencies n Hn) as Hinit.
  unfold run in *. unfold init. unfold mbind at 1, py_bind, bind.
  by rewrite Hinit.
Qed.

(** Inferring the participants of a module that has results: one new
    participant for each ID, in the order in which the set is iterated. *)
Lemma infer_participants_run IDs self rows out :
  results_read (module self) = true →
  full_results (module self) = Some rows →
  NoDup IDs →
  infer_participants_from_full_results IDs self out
  = (Returned
       {| module := module self;
          participants := Some ((λ ID, (ID, new_participant ID)) <$> IDs);
          participants_input := true;
          n_participants := PyInt (Z.of_nat (length IDs));
          module_accumulated_by_date := module_accumulated_by_date self |},
     out).
Proof.
  intros Hread Hrows Hnodup. unfold infer_participants_from_full_results.
  rewrite Hread, Hrows.
  destruct (counts_entries new_participant IDs) as (_ & _ & _ & Horder).
  cbn zeta in Horder. specialize (Horder Hnodup).
  unfold mbind, py_bind, bind. cbn [mret py_ret ret].
  rewrite Horder, length_fmap. reflexivity.
Qed.

(** X16. [PP_XML_KL_script.py] cannot get past its call of
    [infer_participants_from_full_results]: [import_datashop] sets
    [results_read] but leaves [full_results] as [__init__] made it, [None],
    so once the XML log has been parsed the inference of the participants
    raises [TypeError]; when parsing the log fails, the script ends with
    that exception. In no case does the script reach its end. Calling
    [read_participants_results] on the module as the import leaves it only
    prints 'No results have been read!'. *)
Theorem PP_XML_KL_script_stops_at_the_participants
    (strptime : string → option Z) (lower : string → string)
    (IDs : list string) (root : element) :
  ∃ md0,
    run (init competencies (PyInt 1) None) = (Returned md0, [])
    ∧ (∀ st out, Datashop.first_pass strptime root [] = (Returned st, out) →
         run (PP_XML_KL_script strptime lower IDs root)
         = (Raised TypeError, out)
         ∧ ∃ m, run (Datashop.import_datashop strptime lower (module md0) root)
                = (Returned m, out)
                ∧ ∀ self out', module self = m →
                    read_participants_results self out'
                    = (Returned self,
                       (out' ++ ["No results have been read!"])%list))
    ∧ (∀ e out, Datashop.first_pass strptime root [] = (Raised e, out) →
         run (PP_XML_KL_script strptime lower IDs root) = (Raised e, out))
    ∧ (∀ md out,
         run (PP_XML_KL_script strptime lower IDs root) ≠ (Returned md, out)).
Proof.
  eexists. split; [reflexivity|].
  match goal with
  | |- context [Datashop.import_datashop _ _ (module ?r) _] => set (md0 := r)
  end.
  assert (Hscript : ∀ out,
            PP_XML_KL_script strptime lower IDs root out
            = match Datashop.import_datashop strptime lower (module md0) root out
              with
              | (Returned m, out1) =>
                  (md ← infer_participants_from_full_results IDs
                          {| module := m; participants := participants md0;
                             participants_input := participants_input md0;
                             n_participants := n_participants md0;
                             module_accumulated_by_date :=
                               module_accumulated_by_date md0 |};
                   md ← read_participants_results md;
                   describe_module md;;
                   mret md) out1
              | (Raised e, out1) => (Raised e, out1)
              end) by reflexivity.
  assert (Hparsed : ∀ st out,
            Datashop.first_pass strptime root [] = (Returned st, out) →
            run (PP_XML_KL_script strptime lower IDs root)
            = (Raised TypeError, out)
            ∧ ∃ m, run (Datashop.import_datashop strptime lower
                          (module md0) root)
                   = (Returned m, out)
                   ∧ ∀ self out', module self = m →
                       read_participants_results self out'
                       = (Returned self,
                          (out' ++ ["No results have been read!"])%list)).
  { intros st out Hfirst.
    destruct (import_datashop_after_first_pass strptime lower
                (module md0) root st out 1 Hfirst eq_refl)
      as (m & Hrun & _ & Hread & _ & _ & Hrows & _).
    change (full_results (module md0)) with (@None (list attempt)) in Hrows.
    split.
    - unfold run. rewrite Hscript. unfold run in Hrun. rewrite Hrun.
      unfold mbind at 1, py_bind, bind.
      unfold infer_participants_from_full_results.
      cbn [module]. rewrite Hread, Hrows. reflexivity.
    - exists m. split; [exact Hrun|]. intros self out' <-.
      unfold read_participants_results. rewrite Hrows. reflexivity. }
  assert (Hfailed : ∀ e out,
            Datashop.first_pass strptime root [] = (Raised e, out) →
            run (PP_XML_KL_script strptime lower IDs root) = (Raised e, out)).
  { intros e out Hfirst. unfold run. rewrite Hscript.
    unfold Datashop.import_datashop.
    unfold mbind at 1, py_bind, bind. rewrite Hfirst. reflexivity. }
  split; [exact Hparsed|]. split; [exact Hfailed|].
  intros md out Hrun.
  destruct (Datashop.first_pass strptime root []) as [[st|e] out1] eqn:Hfirst.
  - rewrite (proj1 (Hparsed st out1 eq_refl)) in Hrun. discriminate.
  - rewrite (Hfailed e out1 eq_refl) in Hrun. discriminate.
Qed.

Lemma PP_XML_KL_script_stops_at_the_participants_witness :
  ∃ st,
    Datashop.first_pass strptime_padded
      (Scenario.backup_log "Module backup_q1.") [] = (Returned st, [])
    ∧ run (PP_XML_KL_script strptime_padded lower_ascii ["u1"]
             (Scenario.backup_log "Module backup_q1."))
      = (Raised TypeError, []).
Proof.
  assert (∃ st, Datashop.first_pass strptime_padded
                  (Scenario.backup_log "Module backup_q1.") []
                = (Returned st, [])) as [st Hst]
    by (eexists; vm_compute; reflexivity).
  exists st. split; [exact Hst|].
  destruct (PP_XML_KL_script_stops_at_the_participants
              strptime_padded lower_ascii ["u1"]
              (Scenario.backup_log "Module backup_q1."))
    as (md0 & _ & Hparsed & _).
  exact (proj1 (Hparsed st [] Hst)).
Defined.

Lemma census_cons m f key keys :
  census m f (key :: keys)
  = ((if flag m f key then 1 else 0) + census m f keys)%nat.
Proof.
  unfold census. rewrite filter_cons.
  destruct (flag m f key); [by rewrite decide_True|].
  by rewrite decide_False by (by intros []).
Qed.

(** The loop of [describe_module] over participants that all have a row in
    the flags. *)
Lemma describe_loop m (l : list (string * participant)) c out :
  results_read m = true →
  (∀ key, key ∈ l.*1 → is_Some (flags m !! key)) →
  for_each l (describe_entry m) c out
  = (Returned
       (Counters
          (signed c
           + census m (λ r, finished r || answered_once r || started r) l.*1)
          (n_started c + census m (λ r, finished r || answered_once r) l.*1)
          (n_finished c + census m finished l.*1)),
     out).
Proof.
  intros Hread. revert c.
  induction l as [|[key p] l IH]; intros c Hrows.
  - cbn. destruct c. by rewrite !Nat.add_0_r.
  - rewrite for_each_cons. unfold describe_entry at 1. rewrite Hread.
    destruct (Hrows key (ltac:(by left))) as [row Hrow].
    assert (Htail : ∀ k, k ∈ l.*1 → is_Some (flags m !! k)).
    { intros k Hk. apply Hrows. by right. }
    rewrite fmap_cons, !census_cons. unfold flag.
    cbn [fst]. rewrite Hrow. unfold mbind, py_bind, bind.
    cbn [mret py_ret ret from_option].
    destruct (finished row), (answered_once row), (started row);
      cbn [orb mret py_ret ret]; rewrite IH by done;
      cbn [signed n_started n_finished]; do 2 f_equal; f_equal; lia.
Qed.

Lemma describe_loop_unread m (l : list (string * participant)) c out :
  results_read m = false →
  for_each l (describe_entry m) c out = (Returned c, out).
Proof.
  intros Hread. induction l as [|entry l IH]; [done|].
  rewrite for_each_cons. unfold describe_entry at 1. by rewrite Hread.
Qed.

Lemma describe_loop_missing m (l : list (string * participant)) c out :
  results_read m = true →
  Exists (λ entry, flags m !! entry.1 = None) l →
  for_each l (describe_entry m) c out = (Raised KeyError, out).
Proof.
  intros Hread Hmissing. revert c.
  induction l as [|entry l IH]; intros c; [by apply Exists_nil in Hmissing|].
  rewrite for_each_cons. unfold describe_entry at 1. rewrite Hread.
  destruct (flags m !! entry.1) as [row|] eqn:Hrow; [|done].
  apply Exists_cons in Hmissing as [Hhere|Hlater]; [congruence|].
  unfold mbind, py_bind, bind. cbn [mret py_ret ret].
  destruct (finished row), (answered_once row), (started row);
    cbn [mret py_ret ret]; by apply IH.
Qed.

(** [describe_module] on a module with results read whose participants
    all have a row in the flags. *)
Lemma describe_module_run self d :
  participants_input self = true →
  participants self = Some d →
  results_read (module self) = true →
  (∀ key, key ∈ d.*1 → is_Some (flags (module self) !! key)) →
  run (describe_module self)
  = (Returned tt,
     ["There are " +:+ pretty (length d) +:+ " participants:";
      pretty (census (module self)
                (λ r, finished r || answered_once r || started r) d.*1)
        +:+ " have signed up";
      pretty (census (module self) (λ r, finished r || answered_once r) d.*1)
        +:+ " have started";
      pretty (census (module self) finished d.*1) +:+ " have finished"]).
Proof.
  intros Hinput Hd Hread Hrows.
  assert (Hsorted : merge_sort by_ID d ≡ₚ d) by apply merge_sort_Permutation.
  assert (Hcensus : ∀ f, census (module self) f (merge_sort by_ID d).*1
                         = census (module self) f d.*1).
  { intros f. unfold census. by rewrite Hsorted. }
  unfold run, describe_module. rewrite Hinput, Hd.
  cbn [negb]. unfold mbind at 1, py_bind, bind. cbn [mret py_ret ret].
  unfold mbind at 1, py_bind, bind. cbn [print app].
  unfold mbind at 1, py_bind, bind.
  rewrite describe_loop; [|done|].
  - cbn [signed n_started n_finished Nat.add]. rewrite !Hcensus.
    reflexivity.
  - intros key Hkey. apply Hrows. by rewrite <- Hsorted.
Qed.

(** X17. What [describe_module] prints for a module with participants. When
    results have been read and every participant has a row in the flags:
    the number of participants, then the number of those flagged finished,
    answered once or started as signed up, the number of those flagged
    finished or answered once as started, and the number of those flagged
    finished. When no results have been read the three counts are 0. When
    results have been read and a participant has no row in the flags, the
    method raises [KeyError] after its first line. *)
Theorem describe_module_counts_by_flags self d :
  participants_input self = true →
  participants self = Some d →
  let m := module self in
  let heading := "There are " +:+ pretty (length d) +:+ " participants:" in
  (results_read m = true →
   (∀ key, key ∈ d.*1 → is_Some (flags m !! key)) →
   run (describe_module self)
   = (Returned tt,
      [heading;
       pretty (census m (λ r, finished r || answered_once r || started r) d.*1)
         +:+ " have signed up";
       pretty (census m (λ r, finished r || answered_once r) d.*1)
         +:+ " have started";
       pretty (census m finished d.*1) +:+ " have finished"]))
  ∧ (results_read m = false →
     run (describe_module self)
     = (Returned tt,
        [heading; "0 have signed up"; "0 have started"; "0 have finished"]))
  ∧ (results_read m = true →
     (∃ key, key ∈ d.*1 ∧ flags m !! key = None) →
     run (describe_module self) = (Raised KeyError, [heading])).
Proof.
  intros Hinput Hd. cbn zeta.
  assert (Hsorted : merge_sort by_ID d ≡ₚ d) by apply merge_sort_Permutation.
  split; [|split].
  - intros Hread Hrows. by apply describe_module_run.
  - intros Hread. unfold run, describe_module. rewrite Hinput, Hd.
    cbn [negb]. unfold mbind at 1, py_bind, bind. cbn [mret py_ret ret].
    unfold mbind at 1, py_bind, bind. cbn [print app].
    unfold mbind at 1, py_bind, bind.
    rewrite describe_loop_unread by done. reflexivity.
  - intros Hread (key & Hkey & Hrow). unfold run, describe_module.
    rewrite Hinput, Hd.
    cbn [negb]. unfold mbind at 1, py_bind, bind. cbn [mret py_ret ret].
    unfold mbind at 1, py_bind, bind. cbn [print app].
    unfold mbind at 1, py_bind, bind.
    rewrite describe_loop_missing; [done|done|].
    apply Exists_exists.
    apply list_elem_of_fmap in Hkey as (entry & -> & Hentry).
    exists entry. split; [by rewrite Hsorted|done].
Qed.

(** Reading the participants of a dictionary one after the other. *)
Lemma read_entries_run m rows n (d : list (string * participant)) out :
  n_sessions_input m = true →
  n_sessions m = PyInt n →
  full_results m = Some rows →
  ∃ st, for_each d read_entry (m, []) out = (Returned st, out)
        ∧ entries_read rows n m d st.
Proof.
  intros Hinput Hn Hrows.
  apply (for_each_visited (entries_read rows n m) read_entry d [] (m, []) out).
  - intros visited [m1 acc] [key p] out1 (Hsame & Hflags & Hacc).
    cbn [fst snd] in Hsame, Hflags, Hacc.
    injection Hsame as Hs Hns Hi Hraw Hxml Hfull Hread Hmap.
    destruct (read_participant_results_run m1 p rows n out1) as (st & Hreads & Hrun);
      [congruence..|].
    eexists. split.
    { unfold read_entry. cbn [fst snd].
      unfold mbind at 1, py_bind, bind. rewrite Hrun. reflexivity. }
    pose proof Hreads as (HID & _ & _ & _ & _ & _ & _ & _ & _ & _ & Hcount & _).
    split; [|split]; cbn [fst snd skills n_sessions n_sessions_input raw_data
      xml_data full_results results_read pseudonym_ID_mapping flags].
    + congruence.
    + intros k. rewrite fmap_app. cbn [fmap list_fmap snd].
      destruct (decide (k = ID p)) as [->|Hne].
      * rewrite lookup_insert_eq.
        rewrite decide_True by (apply elem_of_app; right; by left).
        unfold flags_row. rewrite Hcount, Hs. done.
      * rewrite lookup_insert_ne by done. rewrite Hflags.
        destruct (decide (k ∈ (λ entry, ID entry.2) <$> visited)) as [Hin|Hin].
        -- rewrite decide_True by (apply elem_of_app; by left). done.
        -- rewrite decide_False; [done|].
           intros [?|?%list_elem_of_singleton]%elem_of_app; done.
    + apply Forall2_app; [done|]. constructor; [|constructor].
      split; [done|]. exists st. cbn [snd]. rewrite <- Hs. done.
  - split; [done|]. split; [|constructor].
    intros key. cbn. rewrite decide_False by apply not_elem_of_nil. done.
Qed.

(** X18. [read_participants_results] on a module that has a table, a given
    session count and a dictionary of participants: it returns and prints
    nothing. The dictionary keeps its keys and their order; every
    participant keeps its ID and has its table of answered questions
    filled from the first attempts in the table. The flags get the row of
    each participant that was read, under the ID of the participant, and
    keep their other rows. The series of the module is the cumulative
    series of the participants as read. Without a table the method prints
    'No results have been read!' and changes nothing; with a table but
    without a dictionary it raises [AttributeError]. *)
Theorem read_participants_results_reads_everyone self rows n d :
  full_results (module self) = Some rows →
  n_sessions_input (module self) = true →
  n_sessions (module self) = PyInt n →
  participants self = Some d →
  (∃ self' d',
     run (read_participants_results self) = (Returned self', [])
     ∧ participants self' = Some d'
     ∧ d'.*1 = d.*1
     ∧ Forall2 (λ entry entry',
          ID entry'.2 = ID entry.2
          ∧ ∀ skill session,
              skill ∈ skills (module self) → (1 ≤ session)%nat →
              (Z.of_nat session ≤ n)%Z →
              cells (answered entry'.2) !! (session, skill)
              = Some (bool_decide
                        (Reading.has_answered rows (ID entry.2)
                           (skill, session)))) d d'
     ∧ (∀ key, flags (module self') !! key
               = if decide (key ∈ (λ entry, ID entry.2) <$> d)
                 then Some (flags_row rows (skills (module self)) n key)
                 else flags (module self) !! key)
     ∧ module_accumulated_by_date self'
       = Cumulative._cumulative_answers_by_date d'.*2
     ∧ (participants_input self', n_participants self')
       = (participants_input self, n_participants self))
  ∧ (∀ other, full_results (module other) = None →
       run (read_participants_results other)
       = (Returned other, ["No results have been read!"]))
  ∧ (∀ other, is_Some (full_results (module other)) →
       participants other = None →
       run (read_participants_results other) = (Raised AttributeError, [])).
Proof.
  intros Hrows Hinput Hn Hd. split; [|split].
  - destruct (read_entries_run (module self) rows n d [] Hinput Hn Hrows)
      as ([m' d'] & Hrun & Hsame & Hflags & Hentries).
    cbn [fst snd] in Hsame, Hflags, Hentries.
    exists {| module := m'; participants := Some d';
              participants_input := participants_input self;
              n_participants := n_participants self;
              module_accumulated_by_date :=
                Cumulative._cumulative_answers_by_date d'.*2 |}, d'.
    split.
    { unfold run, read_participants_results. rewrite Hrows, Hd.
      unfold mbind at 1, py_bind, bind. cbn [mret py_ret ret].
      unfold mbind at 1, py_bind, bind. rewrite Hrun. reflexivity. }
    cbn [module participants participants_input n_participants
         module_accumulated_by_date].
    split; [done|]. split.
    { clear -Hentries. induction Hentries as [|e e' l l' [He _] _ IH]; [done|].
      cbn. by rewrite He, IH. }
    split; [|done].
    eapply Forall2_impl; [exact Hentries|].
    intros entry entry' (_ & st & Hreads & ->).
    destruct Hreads as (HID & _ & _ & _ & _ & _ & _ & _ & _ & _ & _ & Hcells).
    cbn [Cumulative.participant_cumulative_answers_by_date ID answered].
    split; [done|]. intros skill session Hskill H1 Hle.
    specialize (Hcells skill session). cbn zeta in Hcells.
    rewrite decide_True in Hcells by by apply elem_of_questions.
    exact (proj1 Hcells).
  - intros other Hnone. unfold run, read_participants_results.
    by rewrite Hnone.
  - intros other [rows' Hsome] Hnone. unfold run, read_participants_results.
    by rewrite Hsome, Hnone.
Qed.

(** X19. The three calls that follow an import, on a module that has
    results, a table and a given session count: inferring the participants,
    reading their results and describing the module. Nothing but the four
    lines of the description is printed. There is one participant for each
    distinct ID of the table, under its ID; each has a row in the flags and
    is counted as signed up, so the description reports as many signed up
    as there are participants. *)
Theorem inferred_participants_are_all_signed_up self rows n IDs :
  results_read (module self) = true →
  full_results (module self) = Some rows →
  n_sessions_input (module self) = true →
  n_sessions (module self) = PyInt n →
  Reconciler.enumerates IDs (student_id <$> rows) →
  ∃ self' d,
    run (self ← infer_participants_from_full_results IDs self;
         self ← read_participants_results self;
         describe_module self;; mret self)
    = (Returned self',
       ["There are " +:+ pretty (length IDs) +:+ " participants:";
        pretty (length IDs) +:+ " have signed up";
        pretty (census (module self')
                  (λ r, finished r || answered_once r) IDs)
          +:+ " have started";
        pretty (census (module self') finished IDs) +:+ " have finished"])
    ∧ participants self' = Some d
    ∧ d.*1 = IDs
    ∧ Forall (λ entry, ID entry.2 = entry.1) d
    ∧ n_participants self' = PyInt (Z.of_nat (length IDs))
    ∧ participants_input self' = true
    ∧ (∀ key, key ∈ IDs →
         flags (module self') !! key
         = Some (flags_row rows (skills (module self)) n key)).
Proof.
  intros Hread Hrows Hinput Hn [Hnodup Hcolumn].
  set (self1 :=
         {| module := module self;
            participants := Some ((λ ID, (ID, new_participant ID)) <$> IDs);
            participants_input := true;
            n_participants := PyInt (Z.of_nat (length IDs));
            module_accumulated_by_date := module_accumulated_by_date self |}).
  set (d1 := (λ ID, (ID, new_participant ID)) <$> IDs).
  assert (Hkeys1 : d1.*1 = IDs).
  { unfold d1. rewrite <- list_fmap_compose. apply list_fmap_id. }
  assert (HIDs1 : (λ entry : string * participant, ID entry.2) <$> d1 = IDs).
  { unfold d1. rewrite <- list_fmap_compose. apply list_fmap_id. }
  destruct (read_entries_run (module self) rows n d1 [] Hinput Hn Hrows)
    as ([m' d'] & Hrun & Hsame & Hflags & Hentries).
  cbn [fst snd] in Hsame, Hflags, Hentries.
  injection Hsame as Hs Hns Hi Hraw Hxml Hfull Hread' Hmap.
  set (self2 :=
         {| module := m'; participants := Some d';
            participants_input := true;
            n_participants := PyInt (Z.of_nat (length IDs));
            module_accumulated_by_date :=
              Cumulative._cumulative_answers_by_date d'.*2 |}).
  assert (Hkeys : d'.*1 = IDs).
  { rewrite <- Hkeys1. clear -Hentries.
    induction Hentries as [|e e' l l' [He _] _ IH]; [done|].
    cbn. by rewrite He, IH. }
  assert (Hrow : ∀ key, key ∈ IDs →
            flags m' !! key
            = Some (flags_row rows (skills (module self)) n key)).
  { intros key Hkey. rewrite Hflags, HIDs1. by rewrite decide_True. }
  assert (Hsigned : census m' (λ r, finished r || answered_once r || started r)
                      IDs = length IDs).
  { unfold census. apply length_filter_eq, Forall_forall. intros key Hkey.
    unfold flag. rewrite (Hrow key Hkey). cbn.
    by rewrite orb_true_r. }
  pose proof (describe_module_run self2 d' eq_refl eq_refl) as Hdescribe.
  cbn [module self2] in Hdescribe.
  rewrite Hkeys, Hsigned in Hdescribe.
  assert (length d' = length IDs) as Hlen by (by rewrite <- Hkeys, length_fmap).
  rewrite Hlen in Hdescribe.
  exists self2, d'. split.
  { unfold run. unfold mbind at 1, py_bind, bind.
    rewrite (infer_participants_run IDs self rows [] Hread Hrows Hnodup).
    fold d1. fold self1.
    unfold mbind at 1, py_bind, bind.
    unfold read_participants_results at 1. cbn [self1 module participants].
    rewrite Hrows. unfold mbind at 1, py_bind, bind. cbn [mret py_ret ret].
    unfold mbind at 1, py_bind, bind. rewrite Hrun.
    cbn [mret py_ret ret participants_input n_participants].
    fold self2. unfold mbind at 1, py_bind, bind.
    unfold run in Hdescribe. rewrite Hdescribe; [reflexivity|congruence|].
    intros key Hkey. rewrite (Hrow key Hkey). eauto. }
  cbn [participants n_participants participants_input module self2].
  split; [done|]. split; [done|]. split; [|done].
  clear -Hentries. unfold d1 in Hentries.
  induction IDs as [|key IDs IH] in d', Hentries |- *.
  - apply Forall2_nil_inv_l in Hentries as ->. constructor.
  - cbn in Hentries.
    apply Forall2_cons_inv_l in Hentries
      as ([key' p'] & d'' & [Hkey (st & Hreads & Hp)] & Htail & ->).
    constructor; [|by apply IH].
    cbn in *. subst.
    destruct Hreads as (HID & _). cbn. by rewrite HID.
Qed.

Lemma describe_module_counts_by_flags_witness :
  ∃ self d,
    participants_input self = true
    ∧ participants self = Some d
    ∧ results_read (module self) = false
    ∧ run (describe_module self)
      = (Returned tt,
         ["There are 1 participants:"; "0 have signed up"; "0 have started";
          "0 have finished"]).
Proof.
  exists (backup_roster (Some [("u1", new_participant "u1")])),
         [("u1", new_participant "u1")].
  split; [reflexivity|]. split; [reflexivity|]. split; [reflexivity|].
  exact (proj1 (proj2 (describe_module_counts_by_flags
                         (backup_roster (Some [("u1", new_participant "u1")]))
                         [("u1", new_participant "u1")] eq_refl eq_refl))
           eq_refl).
Defined.

Lemma read_participants_results_reads_everyone_witness :
  ∃ self self' d',
    full_results (module self) = Some [Attempt "u1" Scenario.ten_o_clock "Backup_Q1" 1 true]
    ∧ n_sessions (module self) = PyInt 1
    ∧ participants self = Some [("u1", new_participant "u1")]
    ∧ run (read_participants_results self) = (Returned self', [])
    ∧ participants self' = Some d'
    ∧ d'.*1 = ["u1"].
Proof.
  set (self := {| module := Scenario.backup_results;
                  participants := Some [("u1", new_participant "u1")];
                  participants_input := true; n_participants := PyInt 1;
                  module_accumulated_by_date := [] |}).
  destruct (proj1 (read_participants_results_reads_everyone self _ 1
                     [("u1", new_participant "u1")]
                     eq_refl eq_refl eq_refl eq_refl))
    as (self' & d' & Hrun & Hd' & Hkeys & _).
  exists self, self', d'.
  split; [reflexivity|]. split; [reflexivity|]. split; [reflexivity|].
  split; [exact Hrun|]. split; [exact Hd'|exact Hkeys].
Defined.

Lemma inferred_participants_are_all_signed_up_witness :
  ∃ self self' d,
    results_read (module self) = true
    ∧ n_sessions (module self) = PyInt 1
    ∧ Reconciler.enumerates ["u1"]
        (student_id <$> [Attempt "u1" Scenario.ten_o_clock "Backup_Q1" 1 true])
    ∧ (run (self ← infer_participants_from_full_results ["u1"] self;
            self ← read_participants_results self;
            describe_module self;; mret self)).1 = Returned self'
    ∧ participants self' = Some d
    ∧ d.*1 = ["u1"].
Proof.
  set (self := {| module := Scenario.backup_results;
                  participants := None;
                  participants_input := false; n_participants := PyFloat nan;
                  module_accumulated_by_date := [] |}).
  assert (Henum : Reconciler.enumerates ["u1"]
            (student_id
               <$> [Attempt "u1" Scenario.ten_o_clock "Backup_Q1" 1 true])).
  { split; [|intros x; reflexivity].
    apply (bool_decide_unpack _). vm_compute. exact I. }
  destruct (inferred_participants_are_all_signed_up self _ 1 ["u1"]
              eq_refl eq_refl eq_refl eq_refl Henum)
    as (self' & d & Hrun & Hd & Hkeys & _).
  exists self, self', d.
  split; [reflexivity|]. split; [reflexivity|]. split; [exact Henum|].
  split; [by rewrite Hrun|]. split; [exact Hd|exact Hkeys].
Defined.

Lemma by_ID_trans : Transitive by_ID.
Proof. intros a b c. unfold by_ID. apply transitivity. Qed.

Lemma by_ID_total : Total by_ID.
Proof. intros a b. unfold by_ID. apply total, _. Qed.

(** The loop of [describe_participants] over participants whose status can
    be worked out. *)
Lemma describe_participants_loop m (l : list (string * participant)) out :
  (results_read m = true → ∀ key, key ∈ l.*1 → is_Some (flags m !! key)) →
  for_each l (λ (_ : unit) entry,
      status_string ← status m entry.1;
      print ("   " +:+ entry.1 +:+ ": " +:+ status_string)) tt out
  = (Returned tt,
     (out ++ ((λ key, "   " +:+ key +:+ ": " +:+ status_of m key) <$> l.*1))%list).
Proof.
  revert out. induction l as [|[key p] l IH]; intros out Hrows.
  - cbn. by rewrite app_nil_r.
  - rewrite for_each_cons. cbn [fst]. unfold status at 1, status_of at 1.
    assert (Htail : results_read m = true →
              ∀ k, k ∈ l.*1 → is_Some (flags m !! k)).
    { intros Hread k Hk. apply Hrows; [done|]. by right. }
    rewrite !fmap_cons. cbn [fst].
    destruct (results_read m) eqn:Hread.
    + destruct (Hrows eq_refl key (ltac:(by left))) as [row Hrow].
      unfold flag. rewrite Hrow. unfold mbind, py_bind, bind.
      cbn [mret py_ret ret from_option print].
      rewrite IH by done. unfold status_of, flag. rewrite Hread.
      by rewrite <- app_assoc.
    + unfold mbind, py_bind, bind. cbn [mret py_ret ret print].
      rewrite IH by done. unfold status_of, flag. rewrite Hread.
      by rewrite <- app_assoc.
Qed.

(** X20. [describe_participants] on a module with participants whose status
    can be worked out (no results read, or a row in the flags for each):
    after the heading it prints one line '   <ID>: <status>' for each
    participant, the IDs in ascending order; the status is 'No results
    known' without results, and otherwise the first that applies of 'Has
    finished module', 'Has started work', 'Has signed up' for the flags
    finished, answered once, started, and 'Has not signed up' when none is
    set. *)
Theorem describe_participants_lists_everyone_in_order self d :
  participants_input self = true →
  participants self = Some d →
  (results_read (module self) = true →
   ∀ key, key ∈ d.*1 → is_Some (flags (module self) !! key)) →
  ∃ keys,
    keys ≡ₚ d.*1
    ∧ StronglySorted String.le keys
    ∧ run (describe_participants self)
      = (Returned tt,
         ("There are " +:+ pretty (length d) +:+ " participants:")
           :: ((λ key, "   " +:+ key +:+ ": " +:+ status_of (module self) key)
                 <$> keys)).
Proof.
  intros Hinput Hd Hrows. exists (merge_sort by_ID d).*1.
  assert (Hsorted : merge_sort by_ID d ≡ₚ d) by apply merge_sort_Permutation.
  split; [by rewrite Hsorted|]. split.
  - assert (StronglySorted by_ID (merge_sort by_ID d)) as Hs
      by apply (@StronglySorted_merge_sort _ by_ID _ by_ID_trans by_ID_total).
    clear -Hs. induction Hs as [|entry l Hl IH Hentry]; [constructor|].
    cbn. constructor; [done|]. by apply Forall_fmap.
  - unfold run, describe_participants. rewrite Hinput, Hd.
    cbn [negb]. unfold mbind at 1, py_bind, bind. cbn [mret py_ret ret].
    unfold mbind at 1, py_bind, bind. cbn [print app].
    rewrite describe_participants_loop; [done|].
    intros Hread key Hkey. apply Hrows; [done|]. by rewrite <- Hsorted.
Qed.

Lemma describe_participants_lists_everyone_in_order_witness :
  ∃ self d keys,
    participants_input self = true
    ∧ participants self = Some d
    ∧ keys ≡ₚ d.*1
    ∧ run (describe_participants self)
      = (Returned tt,
         ("There are " +:+ pretty (length d) +:+ " participants:")
           :: ((λ key, "   " +:+ key +:+ ": " +:+ status_of (module self) key)
                 <$> keys)).
Proof.
  set (d := [("u2", new_participant "u2"); ("u1", new_participant "u1")]).
  set (self := backup_roster (Some d)).
  destruct (describe_participants_lists_everyone_in_order self d
              eq_refl eq_refl) as (keys & Hperm & _ & Hrun).
  { intros Hread. discriminate Hread. }
  exists self, d, keys.
  split; [reflexivity|]. split; [reflexivity|]. split; [exact Hperm|exact Hrun].
Defined.

(** X21. When [infer_participants_from_full_results] returns, and what it
    leaves. With results read and a table it returns without printing, and
    the dictionary holds one new participant for each ID and nothing else:
    participants that were there before are discarded. With results read
    but no table it raises [TypeError]. Without results read it prints its
    message; if the module has a dictionary it then returns, keeping the
    dictionary, counting its entries and marking the participants as given;
    if it has none, taking the length raises [TypeError]. *)
Theorem infer_participants_returns_iff_table_or_dictionary IDs self :
  ((∃ self' out,
      run (infer_participants_from_full_results IDs self)
      = (Returned self', out))
   ↔ (results_read (module self) = true
      ∧ is_Some (full_results (module self)))
     ∨ (results_read (module self) = false ∧ is_Some (participants self)))
  ∧ (results_read (module self) = true →
     is_Some (full_results (module self)) →
     ∃ self' d,
       run (infer_participants_from_full_results IDs self)
       = (Returned self', [])
       ∧ participants self' = Some d
       ∧ NoDup d.*1
       ∧ (∀ key, key ∈ d.*1 ↔ key ∈ IDs)
       ∧ (∀ key p, (key, p) ∈ d → p = new_participant key)
       ∧ n_participants self' = PyInt (Z.of_nat (length d))
       ∧ participants_input self' = true)
  ∧ (results_read (module self) = true →
     full_results (module self) = None →
     run (infer_participants_from_full_results IDs self)
     = (Raised TypeError, []))
  ∧ (results_read (module self) = false →
     ∀ d, participants self = Some d →
       run (infer_participants_from_full_results IDs self)
       = (Returned
            {| module := module self; participants := Some d;
               participants_input := true;
               n_participants := PyInt (Z.of_nat (length d));
               module_accumulated_by_date := module_accumulated_by_date self |},
          ["Must read a file of results first!"]))
  ∧ (results_read (module self) = false →
     participants self = None →
     run (infer_participants_from_full_results IDs self)
     = (Raised TypeError, ["Must read a file of results first!"])).
Proof.
  assert (Htable : results_read (module self) = true →
     is_Some (full_results (module self)) →
     ∃ self' d,
       run (infer_participants_from_full_results IDs self)
       = (Returned self', [])
       ∧ participants self' = Some d
       ∧ NoDup d.*1
       ∧ (∀ key, key ∈ d.*1 ↔ key ∈ IDs)
       ∧ (∀ key p, (key, p) ∈ d → p = new_participant key)
       ∧ n_participants self' = PyInt (Z.of_nat (length d))
       ∧ participants_input self' = true).
  { intros Hread [rows Hrows].
    destruct (counts_entries new_participant IDs)
      as (Hnodup & Hkeys & Hvalues & _). cbn zeta in *.
    do 2 eexists. split.
    { unfold run, infer_participants_from_full_results.
      rewrite Hread, Hrows. reflexivity. }
    cbn [participants n_participants participants_input]. done. }
  assert (Hmissing : results_read (module self) = true →
     full_results (module self) = None →
     run (infer_participants_from_full_results IDs self)
     = (Raised TypeError, [])).
  { intros Hread Hrows. unfold run, infer_participants_from_full_results.
    by rewrite Hread, Hrows. }
  assert (Hkept : results_read (module self) = false →
     ∀ d, participants self = Some d →
       run (infer_participants_from_full_results IDs self)
       = (Returned
            {| module := module self; participants := Some d;
               participants_input := true;
               n_participants := PyInt (Z.of_nat (length d));
               module_accumulated_by_date := module_accumulated_by_date self |},
          ["Must read a file of results first!"])).
  { intros Hread d Hd. unfold run, infer_participants_from_full_results.
    rewrite Hread. unfold mbind, py_bind, bind. cbn [print app mret py_ret ret].
    by rewrite Hd. }
  assert (Hnone : results_read (module self) = false →
     participants self = None →
     run (infer_participants_from_full_results IDs self)
     = (Raised TypeError, ["Must read a file of results first!"])).
  { intros Hread Hd. unfold run, infer_participants_from_full_results.
    rewrite Hread. unfold mbind, py_bind, bind. cbn [print app mret py_ret ret].
    by rewrite Hd. }
  split; [|done]. split.
  - intros (self' & out & Hrun).
    destruct (results_read (module self)) eqn:Hread.
    + left. split; [done|].
      destruct (full_results (module self)) eqn:Hrows; [done|].
      rewrite Hmissing in Hrun by done. discriminate.
    + right. split; [done|].
      destruct (participants self) eqn:Hd; [done|].
      rewrite Hnone in Hrun by done. discriminate.
  - intros [[Hread Hrows]|[Hread [d Hd]]].
    + destruct (Htable Hread Hrows) as (self' & d & Hrun & _). by eauto.
    + rewrite (Hkept Hread d Hd). by eauto.
Qed.

Lemma infer_participants_returns_iff_table_or_dictionary_witness :
  ∃ self,
    results_read (module self) = false
    ∧ participants self = None
    ∧ run (infer_participants_from_full_results ["u1"] self)
      = (Raised TypeError, ["Must read a file of results first!"]).
Proof.
  exists (backup_roster None).
  split; [reflexivity|]. split; [reflexivity|].
  exact (proj2 (proj2 (proj2 (proj2
           (infer_participants_returns_iff_table_or_dictionary ["u1"]
              (backup_roster None)))))
           eq_refl eq_refl).
Defined.

End roster_facts.

(** ** The series of a participant whose results have been read *)

Section participant_series_facts.
Import Aggregator Reading Series.

Lemma bind_cons_Permutation {A B} (a : A → B) (k : A → list B) (l : list A) :
  (l ≫= λ y, a y :: k y) ≡ₚ ((l ≫= λ y, [a y]) ++ (l ≫= k))%list.
Proof.
  induction l as [|y l IH]; [done|]. cbn. rewrite IH.
  constructor. rewrite !app_assoc. f_equiv. apply Permutation_app_comm.
Qed.

(** The two orders of a double loop visit the same pairs. *)
Lemma bind_swap_Permutation {A B C} (f : A → B → C) (l1 : list A)
    (l2 : list B) :
  (l1 ≫= λ x, l2 ≫= λ y, [f x y]) ≡ₚ (l2 ≫= λ y, l1 ≫= λ x, [f x y]).
Proof.
  induction l1 as [|x l1 IH]; cbn.
  - induction l2 as [|y l2 IH2]; [done|]. cbn. exact IH2.
  - rewrite IH. symmetry.
    apply (bind_cons_Permutation (f x) (λ y, l1 ≫= λ x, [f x y]) l2).
Qed.

Lemma bind_bind_pairs {A B C} (g : A * B → C) (l1 : list A) (l2 : list B) :
  (l1 ≫= λ x, l2 ≫= λ y, [g (x, y)])
  = ((l1 ≫= λ x, l2 ≫= λ y, [(x, y)]) ≫= λ q, [g q]).
Proof.
  induction l1 as [|x l1 IH]; [done|]. cbn. rewrite bind_app, <- IH. f_equal.
  clear IH. induction l2 as [|y l2 IH]; [done|]. cbn. by rewrite IH.
Qed.

Lemma omap_bind_singleton {A B} (g : A → option B) (l : list A) :
  omap id (l ≫= λ x, [g x]) = omap g l.
Proof.
  induction l as [|x l IH]; [done|]. cbn. rewrite IH. by destruct (g x).
Qed.

(** The populated cells of the answer-date table of a participant that has
    been read hold the instants of its first attempts. *)
Lemma answer_dates_first_answers rows p skills n st :
  reads rows p skills (seq 1 (Z.to_nat n)) (questions skills n) st →
  answer_dates [Cumulative.participant_cumulative_answers_by_date (subject st)]
  ≡ₚ first_answers rows (ID p) skills n.
Proof.
  intros (_ & _ & _ & _ & _ & _ & Hindex & Hlabels & _ & _ & _ & Hcells).
  unfold answer_dates, first_answers. cbn [mbind list_bind].
  rewrite app_nil_r.
  cbn [Cumulative.participant_cumulative_answers_by_date answer_date].
  rewrite <- omap_id_fmap, <- flatten_positions.
  unfold flatten. rewrite Hindex, Hlabels.
  set (g := λ (q : string * nat),
         date_created <$> first_attempt rows (ID p) (activity_name q.1 q.2)).
  assert ((seq 1 (Z.to_nat n) ≫= λ session,
             skills ≫= λ skill,
               [cells (answer_date (subject st)) !! (session, skill)])
          = (seq 1 (Z.to_nat n) ≫= λ session,
               skills ≫= λ skill, [g (skill, session)])) as ->.
  { apply Forall_bind_ext, Forall_forall. intros session Hsession.
    apply Forall_bind_ext, Forall_forall. intros skill Hskill.
    specialize (Hcells skill session). cbn zeta in Hcells.
    rewrite decide_True in Hcells.
    - by rewrite (proj2 (proj2 Hcells)).
    - apply elem_of_questions. apply elem_of_seq in Hsession.
      split; [done|]. lia. }
  rewrite (bind_swap_Permutation (λ session skill, g (skill, session))).
  unfold questions.
  assert ((skills ≫= λ skill,
             seq 1 (Z.to_nat n) ≫= λ session, [g (skill, session)])
          = ((skills ≫= λ skill,
                seq 1 (Z.to_nat n) ≫= λ session, [(skill, session)])
             ≫= λ q, [g q])) as ->.
  { apply bind_bind_pairs. }
  by rewrite omap_bind_singleton.
Qed.

(** X22. The series [_read_participant_results] leaves in the participant
    (by its call of the participant's [_cumulative_answers_by_date]), for a
    module whose session count is given: the dates of the series are the
    instants of the participant's first attempts at the questions of the
    module, and the count at a date is the number of questions first
    attempted up to that date. The flag [answered once] is set exactly
    when the series is not empty. After the call the participant's
    [n_sessions()] is the session count and its [n_skills()] the number of
    skills. *)
Theorem participant_series_follows_first_attempts self p rows n :
  n_sessions_input self = true →
  n_sessions self = PyInt n →
  full_results self = Some rows →
  ∃ self' p' row,
    run (_read_participant_results self p) = (Returned (self', p'), [])
    ∧ (∀ d, d ∈ (accumulated_by_date p').*1
            ↔ d ∈ first_answers rows (ID p) (skills self) n)
    ∧ (∀ d c, (d, c) ∈ accumulated_by_date p' →
         c = length (filter (λ t, t ≤ d)%Z
                       (first_answers rows (ID p) (skills self) n)))
    ∧ flags self' !! ID p = Some row
    ∧ (answered_once row = true ↔ accumulated_by_date p' ≠ [])
    ∧ Shape.n_sessions p' = Z.to_nat n
    ∧ Shape.n_skills p' = length (skills self).
Proof.
  intros Hinput Hn Hrows.
  destruct (read_participant_results_run self p rows n [] Hinput Hn Hrows)
    as (st & Hreads & Hrun).
  pose proof (answer_dates_first_answers rows p (skills self) n st Hreads)
    as Hperm.
  destruct (series_entries [subject st]) as [Hdates Hcounts].
  cbn zeta in Hdates, Hcounts.
  change (answer_dates [subject st])
    with (answer_dates
            [Cumulative.participant_cumulative_answers_by_date (subject st)])
    in Hdates, Hcounts.
  change (Cumulative._cumulative_answers_by_date [subject st])
    with (accumulated_by_date
            (Cumulative.participant_cumulative_answers_by_date (subject st)))
    in Hdates, Hcounts.
  destruct Hreads as (_ & _ & _ & _ & _ & _ & _ & _ & Hi3 & Hl3 & Hcount & _).
  do 3 eexists. split; [exact Hrun|].
  cbn [flags]. rewrite lookup_insert_eq.
  set (p' := Cumulative.participant_cumulative_answers_by_date (subject st))
    in *.
  assert (Hanswers : n_answers st
                     = length (first_answers rows (ID p) (skills self) n)).
  { rewrite Hcount. unfold first_answers. rewrite length_omap_filter.
    apply length_filter_ext_in. intros q _. unfold has_answered.
    by rewrite fmap_is_Some. }
  split; [|split; [|split; [done|split; [|split]]]].
  - intros d. by rewrite Hdates, Hperm.
  - intros d c Hin. rewrite (Hcounts d c Hin). by rewrite Hperm.
  - cbn [answered_once]. rewrite bool_decide_eq_true, Hanswers. split.
    + intros Hpos Hnil.
      destruct (first_answers rows (ID p) (skills self) n) as [|d l] eqn:E;
        [cbn in Hpos; lia|].
      assert (d ∈ (accumulated_by_date p').*1) as Hd
        by (apply Hdates; rewrite Hperm; by left).
      rewrite Hnil in Hd. by apply elem_of_nil in Hd.
    + intros Hne.
      destruct (accumulated_by_date p') as [|[d c] l] eqn:E; [done|].
      assert (d ∈ first_answers rows (ID p) (skills self) n) as Hd.
      { rewrite <- Hperm. apply Hdates. by left. }
      destruct (first_answers rows (ID p) (skills self) n);
        [by apply elem_of_nil in Hd|cbn; lia].
  - unfold Shape.n_sessions, p'.
    cbn [Cumulative.participant_cumulative_answers_by_date correct_first_try].
    by rewrite Hi3, length_seq.
  - unfold Shape.n_skills, p'.
    cbn [Cumulative.participant_cumulative_answers_by_date correct_first_try].
    by rewrite Hl3.
Qed.

Lemma participant_series_follows_first_attempts_witness :
  n_sessions_input Scenario.backup_results = true
  ∧ n_sessions Scenario.backup_results = PyInt 1
  ∧ ∃ self' p',
      run (_read_participant_results Scenario.backup_results
             (new_participant "u1")) = (Returned (self', p'), [])
      ∧ Shape.n_sessions p' = 1%nat
      ∧ Shape.n_skills p' = 1%nat.
Proof.
  split; [reflexivity|]. split; [reflexivity|].
  destruct (participant_series_follows_first_attempts
              Scenario.backup_results (new_participant "u1") _ 1
              eq_refl eq_refl eq_refl)
    as (self' & p' & row & Hrun & _ & _ & _ & _ & Hsessions & Hskills).
  exists self', p'. split; [exact Hrun|]. split; [exact Hsessions|exact Hskills].
Defined.

End participant_series_facts.

(** ** The order of the rows of the XML table *)

Section chronology_facts.
Import Datashop Table.
Context (strptime : string → option Z) (lower : string → string).

Lemma od_set_keys_elem {K} `{EqDecision K} {V} (k : K) (v : V) d x :
  x ∈ (od_set k v d).*1 → x = k ∨ x ∈ d.*1.
Proof.
  induction d as [|[k' v'] d IH]; cbn.
  - intros ?%list_elem_of_singleton. by left.
  - destruct (decide (k' = k)) as [->|Hne]; cbn.
    + intros [?|?]%elem_of_cons; [by left|right; by right].
    + intros [->|Hin]%elem_of_cons; [right; by left|].
      destruct (IH Hin); [by left|right; by right].
Qed.

Lemma od_set_keys_NoDup {K} `{EqDecision K} {V} (k : K) (v : V) d :
  NoDup d.*1 → NoDup (od_set k v d).*1.
Proof.
  induction d as [|[k' v'] d IH]; cbn.
  - intros _. apply NoDup_singleton.
  - intros [Hfresh Hd]%NoDup_cons.
    destruct (decide (k' = k)) as [->|Hne]; cbn.
    + by apply NoDup_cons.
    + apply NoDup_cons. split; [|by apply IH].
      intros [->|Hin]%od_set_keys_elem; done.
Qed.

Lemma od_set_Forall {K} `{EqDecision K} {V} (P : K * V → Prop) (k : K)
    (v : V) d :
  Forall P d → P (k, v) → Forall P (od_set k v d).
Proof.
  intros Hd Hkv. induction d as [|[k' v'] d IH]; cbn.
  - by constructor.
  - apply Forall_cons in Hd as [Hhead Htail].
    destruct (decide (k' = k)); constructor; auto.
Qed.

Lemma od_get_elem {K} `{EqDecision K} {V} (k : K) (v : V) d :
  od_get k d = Some v → (k, v) ∈ d.
Proof.
  induction d as [|[k' v'] d IH]; cbn; [done|].
  destruct (decide (k' = k)) as [->|Hne].
  - intros [= ->]. by left.
  - intros Hget. right. by apply IH.
Qed.

(** Storing a dictionary of problems with distinct names under a subject
    keeps the keys distinct. *)
Lemma well_keyed_set anon per_subject ans :
  well_keyed ans → NoDup per_subject.*1 →
  well_keyed (od_set anon per_subject ans).
Proof.
  intros [Hkeys Hnames] Hnew. split.
  - by apply od_set_keys_NoDup.
  - by apply od_set_Forall.
Qed.

Lemma well_keyed_get anon per_subject ans :
  well_keyed ans → od_get anon ans = Some per_subject → NoDup per_subject.*1.
Proof.
  intros [_ Hnames] Hget%od_get_elem.
  rewrite Forall_forall in Hnames. exact (Hnames _ Hget).
Qed.

Lemma announce_well_keyed anon name t ans :
  well_keyed ans → well_keyed (announce anon name t ans).
Proof.
  intros Hans. unfold announce. apply well_keyed_set; [done|].
  apply od_set_keys_NoDup.
  destruct (od_get anon ans) as [per_subject|] eqn:E; cbn.
  - by eapply well_keyed_get.
  - constructor.
Qed.

Lemma record_outcome_well_keyed st ic out ans out' :
  well_keyed (answers st) →
  record_outcome st ic out = (Returned ans, out') → well_keyed ans.
Proof.
  intros Hans. unfold record_outcome, mbind, py_bind, bind, load, od_item.
  destruct (anon_id st) as [anon|]; cbn [ret raise]; [|done].
  destruct (od_get anon (answers st)) as [per_subject|] eqn:E1;
    cbn [ret raise]; [|done].
  destruct (problem_name st) as [name|]; cbn [ret raise]; [|done].
  destruct (od_get name per_subject) as [per_problem|]; cbn [ret raise];
    [|done].
  destruct (time st) as [t|]; cbn [ret raise]; [|done].
  destruct (od_get t per_problem) as [outcomes|]; cbn [ret raise]; [|done].
  destruct ic as [v|]; cbn [ret raise mret py_ret]; [|done].
  intros [= <- _]. apply well_keyed_set; [done|].
  apply od_set_keys_NoDup. by eapply well_keyed_get.
Qed.

(** The first loop keeps the keys of [answers] distinct. *)
Lemma first_pass_well_keyed root st out :
  first_pass strptime root [] = (Returned st, out) → well_keyed (answers st).
Proof.
  unfold first_pass.
  apply (for_each_invariant (λ st, well_keyed (answers st))).
  - clear. intros st child out st' out' Hst.
    unfold first_pass_step.
    destruct (decide (tag child = "context_message")) as [_|_].
    + unfold context_message, mbind, py_bind, bind.
      destruct (read_meta strptime child out) as [[[anon t]|e] out1]; [|done].
      unfold try_except.
      destruct (full_problem_name child out1) as [[full|e] out2];
        cbn [mret py_ret ret].
      * destruct (short_name full out2) as [[name|e] out3]; [|done].
        intros [= <- _]. cbn [answers]. by apply announce_well_keyed.
      * destruct (decide (e = IndexError)); [|done].
        cbn [mret py_ret ret]. by intros [= <- _].
    + destruct (bool_decide (tag child = "tool_message")
                && negb (wait_for_next_context_message st));
        [by intros [= <- _]|].
      destruct (bool_decide (tag child = "tutor_message")
                && negb (wait_for_next_context_message st));
        [|by intros [= <- _]].
      unfold tutor_message. unfold mbind at 1, py_bind, bind.
      destruct (item0 (findall "action_evaluation" child) out)
        as [[evaluation|e] out1]; [|done].
      unfold mbind at 1, py_bind, bind.
      match goal with
      | |- context [(if decide (text evaluation = Some "CORRECT") then ?a
                     else ?b) out1] =>
          destruct ((if decide (text evaluation = Some "CORRECT") then a
                     else b) out1) as [[ic|e] out2]; [|done]
      end.
      unfold mbind at 1, py_bind, bind.
      destruct (record_outcome st ic out2) as [[ans|e] out3] eqn:E; [|done].
      cbn [mret py_ret ret]. intros [= <- _]. cbn [answers].
      by eapply record_outcome_well_keyed.
  - split; constructor.
Qed.

Lemma filter_bind {A B} (P : B → Prop) `{∀ x, Decision (P x)}
    (f : A → list B) (l : list A) :
  filter P (l ≫= f) = l ≫= (λ x, filter P (f x)).
Proof.
  induction l as [|x l IH]; [done|]. cbn. by rewrite filter_app, IH.
Qed.

Lemma filter_none {A} (P : A → Prop) `{∀ x, Decision (P x)} (l : list A) :
  (∀ x, x ∈ l → ¬ P x) → filter P l = [].
Proof.
  intros Hl. destruct (filter P l) as [|x l'] eqn:E; [done|].
  assert (x ∈ filter P l) as [HP Hin]%list_elem_of_filter
    by (rewrite E; by left).
  destruct (Hl x Hin HP).
Qed.

Lemma bind_nil {A B} (f : A → list B) (l : list A) :
  (∀ x, x ∈ l → f x = []) → l ≫= f = [].
Proof.
  induction l as [|x l IH]; intros Hl; [done|]. cbn.
  rewrite (Hl x) by by left. apply IH. intros y Hy. apply Hl. by right.
Qed.

(** A concatenation to which at most the element with the key [k0]
    contributes. *)
Lemma bind_single_key {A B K} `{EqDecision K} (key : A → K) (k0 : K)
    (f : A → list B) (Q : list B → Prop) (l : list A) :
  NoDup (key <$> l) →
  (∀ x, x ∈ l → key x ≠ k0 → f x = []) →
  Q [] → (∀ x, x ∈ l → Q (f x)) → Q (l ≫= f).
Proof.
  intros Hnodup Hother Hnil Hone. induction l as [|x l IH]; [done|].
  cbn in Hnodup. apply NoDup_cons in Hnodup as [Hfresh Hnodup]. cbn.
  destruct (decide (key x = k0)) as [Hk|Hk].
  - rewrite (bind_nil f l), app_nil_r; [apply Hone; by left|].
    intros y Hy. apply Hother; [by right|].
    intros Hy'. apply Hfresh. rewrite Hk, <- Hy'.
    apply list_elem_of_fmap. by exists y.
  - rewrite (Hother x) by (by left || done). cbn. apply IH; [done| |].
    + intros y Hy. apply Hother. by right.
    + intros y Hy. apply Hone. by right.
Qed.

Lemma earlier_trans : Transitive earlier.
Proof. intros a b c. unfold earlier. lia. Qed.

Lemma earlier_total : Total earlier.
Proof. intros a b. unfold earlier. lia. Qed.

Lemma filter_sorted {A} (R : relation Z) (g : A → Z) (P : A → Prop)
    `{∀ x, Decision (P x)} (l : list A) :
  StronglySorted R (g <$> l) → StronglySorted R (g <$> filter P l).
Proof.
  induction l as [|x l IH]; [done|]. rewrite fmap_cons.
  intros [Hl Hx]%StronglySorted_inv. rewrite filter_cons.
  destruct (decide (P x)); [|by apply IH].
  rewrite fmap_cons. constructor; [by apply IH|].
  rewrite Forall_forall in Hx. apply Forall_forall.
  intros d (y & -> & [_ Hy]%list_elem_of_filter)%list_elem_of_fmap.
  apply Hx, list_elem_of_fmap. by exists y.
Qed.

(** The records of one problem of one subject: its subject, its activity,
    and its instants in ascending order. *)
Lemma records_rows skills n anon entry r :
  r ∈ records lower skills n anon entry →
  xml_student_id r = anon
  ∧ xml_activity_title r = matched lower skills n entry.1
  ∧ matched lower skills n entry.1 ≠ "".
Proof.
  unfold records.
  destruct (decide (matched lower skills n entry.1 = "")) as [|Hm];
    [by intros ?%elem_of_nil|].
  intros (item & (v & -> & _)%list_elem_of_fmap & _)%list_elem_of_bind.
  done.
Qed.

Lemma records_sorted skills n anon entry :
  StronglySorted Z.le (xml_date_created <$> records lower skills n anon entry).
Proof.
  unfold records.
  destruct (decide (matched lower skills n entry.1 = "")) as [|Hm]; [constructor|].
  assert (StronglySorted earlier (sorted_items entry.2)) as Hsorted
    by apply (@StronglySorted_merge_sort _ earlier _ earlier_trans
                earlier_total).
  set (m := matched lower skills n entry.1). clearbody m.
  induction Hsorted as [|item rest Hrest IH Hitem]; [constructor|].
  cbn [mbind list_bind]. rewrite fmap_app.
  assert (Hlater : Forall (λ d, item.1 ≤ d)%Z
            (xml_date_created
               <$> (rest ≫= λ item, XmlRow anon item.1 m <$> item.2))).
  { apply Forall_forall.
    intros d (r & -> & (item' & (v & -> & _)%list_elem_of_fmap & Hin)
                         %list_elem_of_bind)%list_elem_of_fmap.
    cbn. rewrite Forall_forall in Hitem. exact (Hitem _ Hin). }
  induction (item.2) as [|v outcomes IHo]; [exact IH|].
  cbn. constructor; [exact IHo|].
  apply Forall_app. split; [|exact Hlater].
  apply Forall_forall.
  intros d (r & -> & (v' & -> & _)%list_elem_of_fmap)%list_elem_of_fmap.
  cbn. lia.
Qed.

(** X23. The table [import_datashop] builds lists the attempts of a subject
    at an activity in the order of their instants: for every subject and
    activity title the dates of the rows with that subject and title, in
    the order of the table, are ascending. (All these rows come from one
    problem name of one subject, whose instants the second loop sorts.) *)
Theorem import_datashop_rows_are_chronological self root st out n :
  first_pass strptime root [] = (Returned st, out) →
  n_sessions self = PyInt n →
  ∃ self' frame,
    run (import_datashop strptime lower self root) = (Returned self', out)
    ∧ xml_data self' = Some frame
    ∧ ∀ ID title,
        StronglySorted Z.le
          (xml_date_created
             <$> filter (λ r, xml_student_id r = ID
                              ∧ xml_activity_title r = title) frame).
Proof.
  intros Hfirst Hn.
  destruct (import_datashop_after_first_pass strptime lower self root st out n
              Hfirst Hn) as (self' & Hrun & Hframe & _).
  exists self', (table lower (skills self) n (answers st)).
  split; [exact Hrun|]. split; [exact Hframe|].
  intros ID title.
  destruct (first_pass_well_keyed root st out Hfirst) as [Hkeys Hnames].
  unfold table. rewrite filter_bind.
  apply (bind_single_key fst ID
           (λ subject,
              filter (λ r, xml_student_id r = ID ∧ xml_activity_title r = title)
                (subject.2 ≫= λ entry, records lower (skills self) n subject.1 entry))
           (λ rows, StronglySorted Z.le (xml_date_created <$> rows))).
  - exact Hkeys.
  - intros subject _ Hother. apply filter_none.
    intros r (entry & Hr & _)%list_elem_of_bind [HID _].
    apply records_rows in Hr as [Hsubject _]. congruence.
  - constructor.
  - intros subject Hsubject. rewrite filter_bind.
    apply (bind_single_key fst (lower title)
             (λ entry,
                filter (λ r, xml_student_id r = ID
                             ∧ xml_activity_title r = title)
                  (records lower (skills self) n subject.1 entry))
             (λ rows, StronglySorted Z.le (xml_date_created <$> rows))).
    + rewrite Forall_forall in Hnames. exact (Hnames _ Hsubject).
    + intros entry _ Hother. apply filter_none.
      intros r Hr [_ Htitle].
      apply records_rows in Hr as (_ & Hactivity & Hmatched).
      apply Hother. destruct (matched_spec _ _ _ _ Hmatched) as [Hname _].
      rewrite Hname. congruence.
    + constructor.
    + intros entry _. apply filter_sorted, records_sorted.
Qed.

End chronology_facts.

Section chronology_witness.
Import Datashop.

Lemma import_datashop_rows_are_chronological_witness :
  ∃ st,
    first_pass strptime_padded Scenario.pair_log [] = (Returned st, [])
    ∧ answers st
      = [(Some "u1",
          [("backup_q1",
            [((Scenario.ten_o_clock + 300)%Z, [false]);
             (Scenario.ten_o_clock, [true])])]);
         (Some "u2",
          [("backup_q1", [((Scenario.ten_o_clock + 3600)%Z, [false])])])]
    ∧ n_sessions Scenario.backup_module = PyInt 1
    ∧ ∃ self' frame,
        run (import_datashop strptime_padded lower_ascii Scenario.backup_module
               Scenario.pair_log) = (Returned self', [])
        ∧ xml_data self' = Some frame
        ∧ frame = Scenario.pair_xml
        ∧ xml_date_created
            <$> filter (λ r, xml_student_id r = Some "u1"
                             ∧ xml_activity_title r = "Backup_Q1") frame
          = [Scenario.ten_o_clock; (Scenario.ten_o_clock + 300)%Z]
        ∧ StronglySorted Z.le
            (xml_date_created
               <$> filter (λ r, xml_student_id r = Some "u1"
                                ∧ xml_activity_title r = "Backup_Q1") frame).
Proof.
  assert (∃ st, first_pass strptime_padded Scenario.pair_log []
                  = (Returned st, [])
                ∧ answers st
                  = [(Some "u1",
                      [("backup_q1",
                        [((Scenario.ten_o_clock + 300)%Z, [false]);
                         (Scenario.ten_o_clock, [true])])]);
                     (Some "u2",
                      [("backup_q1",
                        [((Scenario.ten_o_clock + 3600)%Z, [false])])])])
    as (st & Hst & Hanswers)
    by (eexists; split; vm_compute; reflexivity).
  assert (∃ m, run (import_datashop strptime_padded lower_ascii
                      Scenario.backup_module Scenario.pair_log)
                 = (Returned m, [])
               ∧ xml_data m = Some Scenario.pair_xml)
    as (m & Hm & Hxml)
    by (eexists; split; vm_compute; reflexivity).
  exists st. split; [exact Hst|]. split; [exact Hanswers|].
  split; [reflexivity|].
  destruct (import_datashop_rows_are_chronological strptime_padded lower_ascii
              Scenario.backup_module Scenario.pair_log st [] 1 Hst eq_refl)
    as (self' & frame & Hrun & Hframe & Hsorted).
  assert (frame = Scenario.pair_xml) as Hpair by congruence.
  exists self', frame. split; [exact Hrun|]. split; [exact Hframe|].
  split; [exact Hpair|]. split; [|exact (Hsorted (Some "u1") "Backup_Q1")].
  rewrite Hpair. vm_compute. reflexivity.
Defined.

End chronology_witness.
